(** * Physical-page and page-table management of kern/pmap.c

    A shallow embedding of the frame database (page_init, page_alloc,
    page_free, page_decref), of the two page-table walkers (boot_pgdir_walk,
    pgdir_walk), of the mapping operations (page_insert, page_lookup,
    page_remove) and of user_mem_check, followed by the properties of the
    specification that concern them; then of the bootstrap code
    (i386_detect_memory, boot_alloc, boot_map_segment), of the table readers
    check_va2pa and get_vaperms, and of the run-once helpers of the user
    library header, with properties read off the code.

    The C globals become the fields of [State]; every kernel function is a
    computation in the monad [M], which threads the state and stops at a
    [panic] or at a dereference of a null link. *)

From Stdlib Require Import ZArith List Lia Bool String.
Import ListNotations.
Local Open Scope Z_scope.

(** ** Constants of the missing headers *)

Module Mmu.

(** Modelled from the spec: inc/mmu.h is missing from the tree; the
    page geometry and the entry flag bits are the ones the x86 MMU mandates
    (4KB pages, 4MB large pages, two 10-bit indices, present/writable/user/
    large-page at bits 0, 1, 2 and 7). *)
Definition PGSHIFT : Z := 12.
Definition PGSIZE : Z := 4096.
Definition PTXSHIFT : Z := 12.
Definition PDXSHIFT : Z := 22.
Definition NPDENTRIES : Z := 1024.
Definition PTSIZE : Z := PGSIZE * 1024.
Definition JPGSIZE : Z := PTSIZE.

Definition PTE_P : Z := 1.
Definition PTE_W : Z := 2.
Definition PTE_U : Z := 4.
Definition PTE_PS : Z := 128.

(** Modelled from the spec: inc/memlayout.h is missing from the tree.
    KERNBASE is the 0xc0000000 that the comments of pmap.c show
    (bootstack near 0xc010b000); ULIM sits two page-table spans below it, as
    the virtual page table and the kernel stack lie in between; IOPHYSMEM and
    EXTPHYSMEM delimit the PC's I/O hole. *)
Definition KERNBASE : Z := 0xC0000000.
Definition VPT : Z := KERNBASE - PTSIZE.
Definition KSTACKTOP : Z := VPT.
Definition ULIM : Z := KSTACKTOP - PTSIZE.
Definition IOPHYSMEM : Z := 0xA0000.
Definition EXTPHYSMEM : Z := 0x100000.

(** Modelled from the spec: inc/error.h is missing from the tree;
    only the sign and the distinctness of the two codes matter below. *)
Definition E_NO_MEM : Z := 4.
Definition E_FAULT : Z := 6.

(** The null pointer. *)
Definition NULL : Z := 0.

(** 32-bit unsigned arithmetic (uint32_t, physaddr_t, uintptr_t). *)
Definition u32 (x : Z) : Z := x mod 2 ^ 32.

Definition PPN (la : Z) : Z := Z.shiftr la PTXSHIFT.
Definition PDX (la : Z) : Z := Z.land (Z.shiftr la PDXSHIFT) 0x3FF.
Definition PTX (la : Z) : Z := Z.land (Z.shiftr la PTXSHIFT) 0x3FF.
Definition PGOFF (la : Z) : Z := Z.land la 0xFFF.
Definition JPGOFF (la : Z) : Z := Z.land la (JPGSIZE - 1).
Definition PTE_ADDR (pte : Z) : Z := Z.land pte 0xFFFFF000.

Definition ROUNDDOWN (a n : Z) : Z := a - a mod n.
Definition ROUNDUP (a n : Z) : Z := ROUNDDOWN (u32 (a + n - 1)) n.

(** [e & flag] as a C truth value. *)
Definition has_flag (e flag : Z) : bool := negb (Z.land e flag =? 0).

End Mmu.
Export Mmu.

(** ** Data model *)

(** A [struct Page *] is the index of the descriptor in [pages]; the null
    pointer is [None].  The [le_prev] field of the BSD list entry points at a
    [struct Page *] variable: the list head, or the [le_next] field of
    another descriptor. *)
Inductive LinkRef : Type :=
| LinkNull
| LinkHead
| LinkNext (pp : Z).

Record Page : Type := mkPage {
  le_next : option Z;
  le_prev : LinkRef;
  pp_ref : Z
}.

(** The globals of pmap.c.  [mem] is the kernel's view of physical memory,
    one 32-bit word per aligned kernel virtual address; [tlb_flushed] records
    the addresses handed to invlpg, newest first. *)
Record State : Type := mkState {
  maxpa : Z;
  npage : Z;
  boot_freemem : Z;
  pages : Z -> Page;
  page_free_list : option Z;
  mem : Z -> Z;
  tlb_flushed : list Z
}.

Definition upd {A : Type} (f : Z -> A) (k : Z) (v : A) : Z -> A :=
  fun x => if x =? k then v else f x.

Definition fill (f : Z -> Z) (lo len v : Z) : Z -> Z :=
  fun x => if (lo <=? x) && (x <? lo + len) then v else f x.

(** ** The kernel monad *)

Inductive outcome (A : Type) : Type :=
| Ret (a : A) (s : State)
| Panic (msg : string)
| Fault.

Arguments Ret {A} a s.
Arguments Panic {A} msg.
Arguments Fault {A}.

Definition M (A : Type) : Type := State -> outcome A.

Definition ret {A : Type} (a : A) : M A := fun s => Ret a s.

Definition bind {A B : Type} (c : M A) (k : A -> M B) : M B :=
  fun s => match c s with
           | Ret a s' => k a s'
           | Panic msg => Panic msg
           | Fault => Fault
           end.

Definition panic {A : Type} (msg : string) : M A := fun _ => Panic msg.
Definition fault {A : Type} : M A := fun _ => Fault.

Declare Scope kern_scope.
Delimit Scope kern_scope with kern.
Notation "x <- c ;; k" := (bind c (fun x => k))
  (at level 61, c at next level, right associativity) : kern_scope.
Notation "c ;; k" := (bind c (fun _ => k))
  (at level 61, right associativity) : kern_scope.
Local Open Scope kern_scope.

Definition gets {A : Type} (f : State -> A) : M A := fun s => Ret (f s) s.
Definition modify (f : State -> State) : M unit := fun s => Ret tt (f s).

Definition when (b : bool) (c : M unit) : M unit := if b then c else ret tt.

(** Field accessors and assignments. *)
Definition load (a : Z) : M Z := gets (fun s => mem s a).

Definition store (a v : Z) : M unit :=
  modify (fun s => mkState (maxpa s) (npage s) (boot_freemem s) (pages s)
                           (page_free_list s) (upd (mem s) a v) (tlb_flushed s)).

(** memset stores the low byte of [v] in every byte of the range. *)
Definition memset (a v len : Z) : M unit :=
  modify (fun s => mkState (maxpa s) (npage s) (boot_freemem s) (pages s)
                           (page_free_list s)
                           (fill (mem s) a len (0x01010101 * Z.land v 0xFF))
                           (tlb_flushed s)).

Definition get_page (pp : Z) : M Page := gets (fun s => pages s pp).

Definition set_page (pp : Z) (p : Page) : M unit :=
  modify (fun s => mkState (maxpa s) (npage s) (boot_freemem s) (upd (pages s) pp p)
                           (page_free_list s) (mem s) (tlb_flushed s)).

Definition set_pp_ref (pp : Z) (r : Z) : M unit :=
  p <- get_page pp ;; set_page pp (mkPage (le_next p) (le_prev p) r).

Definition set_le_next (pp : Z) (n : option Z) : M unit :=
  p <- get_page pp ;; set_page pp (mkPage n (le_prev p) (pp_ref p)).

Definition set_le_prev (pp : Z) (r : LinkRef) : M unit :=
  p <- get_page pp ;; set_page pp (mkPage (le_next p) r (pp_ref p)).

Definition set_lh_first (h : option Z) : M unit :=
  modify (fun s => mkState (maxpa s) (npage s) (boot_freemem s) (pages s)
                           h (mem s) (tlb_flushed s)).

Definition set_boot_freemem (v : Z) : M unit :=
  modify (fun s => mkState (maxpa s) (npage s) v (pages s)
                           (page_free_list s) (mem s) (tlb_flushed s)).

(** [for (i = lo; i < hi; i++) body(i)]. *)
Fixpoint for_count (n : nat) (i : Z) (body : Z -> M unit) : M unit :=
  match n with
  | O => ret tt
  | S n' => body i ;; for_count n' (i + 1) body
  end.

Definition for_range (lo hi : Z) (body : Z -> M unit) : M unit :=
  for_count (Z.to_nat (hi - lo)) lo body.

(** ** The list macros of sys/queue.h *)

Module Queue.

(** Modelled from the spec: sys/queue.h is missing from the tree.
    The free list is the doubly linked LIST of BSD: the head holds the first
    element, every element its successor and the address of the pointer that
    points at it; insertion is at the head. *)
Definition LIST_INIT : M unit := set_lh_first None.

Definition LIST_EMPTY : M bool :=
  gets (fun s => match page_free_list s with None => true | Some _ => false end).

Definition LIST_FIRST : M (option Z) := gets page_free_list.

(** [*ref = v] for a link reference. *)
Definition write_link (r : LinkRef) (v : option Z) : M unit :=
  match r with
  | LinkNull => fault
  | LinkHead => set_lh_first v
  | LinkNext q => set_le_next q v
  end.

Definition LIST_INSERT_HEAD (elm : Z) : M unit :=
  first <- LIST_FIRST ;;
  set_le_next elm first ;;
  match first with
  | Some f => set_le_prev f (LinkNext elm)
  | None => ret tt
  end ;;
  set_lh_first (Some elm) ;;
  set_le_prev elm LinkHead.

Definition LIST_REMOVE (elm : Z) : M unit :=
  e <- get_page elm ;;
  match le_next e with
  | Some n => set_le_prev n (le_prev e)
  | None => ret tt
  end ;;
  e' <- get_page elm ;;
  write_link (le_prev e') (le_next e').

End Queue.
Export Queue.

(** ** The functions of kern/pmap.c *)

Section Pmap.

(** Width in bits of the unsigned [pp_ref] field; the header that declares
    struct Page is missing from the tree. *)
Variable w : Z.

(** The linker symbol [end]: first address after the kernel's bss. *)
Variable kernel_end : Z.

Definition ref_wrap (x : Z) : Z := x mod 2 ^ w.

(** Modelled from the spec: kern/pmap.h, which declares PADDR, KADDR,
    pa2page, page2pa and page2kva, is missing from the tree.  The kernel sees
    all physical memory "at a high offset", KERNBASE, and the index of a
    descriptor in [pages] is the number of its physical page.  pmap.c itself
    notes that "you can't KADDR maxpa (just above legal range)": the range
    assertions of the macros are kept as panics, and every property below
    that goes through one of them states the range it needs, so that it holds
    just as well where the macro only warns. *)
Definition PADDR (kva : Z) : M Z :=
  if kva <? KERNBASE then panic "PADDR called with invalid kva"
  else ret (kva - KERNBASE).

Definition KADDR (pa : Z) : M Z :=
  n <- gets npage ;;
  if n <=? PPN pa then panic "KADDR called with invalid pa"
  else ret (u32 (pa + KERNBASE)).

Definition page2ppn (pp : Z) : Z := pp.
Definition page2pa (pp : Z) : Z := u32 (Z.shiftl (page2ppn pp) PGSHIFT).
Definition page2kva (pp : Z) : M Z := KADDR (page2pa pp).

Definition pa2page (pa : Z) : M Z :=
  n <- gets npage ;;
  if n <=? PPN pa then panic "pa2page called with invalid pa"
  else ret (PPN pa).

(** [&p[i]] for an array of 32-bit entries. *)
Definition entry (p i : Z) : Z := p + 4 * i.

Definition invlpg (va : Z) : M unit :=
  modify (fun s => mkState (maxpa s) (npage s) (boot_freemem s) (pages s)
                           (page_free_list s) (mem s) (va :: tlb_flushed s)).

(** *** Bootstrap allocator and walker *)

Definition boot_alloc (n align : Z) : M Z :=
  bf <- gets boot_freemem ;;
  when (bf =? 0) (set_boot_freemem kernel_end) ;;
  bf <- gets boot_freemem ;;
  set_boot_freemem (ROUNDUP bf align) ;;
  v <- gets boot_freemem ;;
  pa <- PADDR (u32 (v + n)) ;;
  mp <- gets maxpa ;;
  if mp <? pa then panic "Out of memory in boot alloc, you fool!"
  else set_boot_freemem (u32 (v + n)) ;; ret v.

Definition boot_pgdir_walk (pgdir la create : Z) : M Z :=
  let the_pde := entry pgdir (PDX la) in
  pde <- load the_pde ;;
  if has_flag pde PTE_P then
    if has_flag pde PTE_PS then ret the_pde
    else t <- KADDR (PTE_ADDR pde) ;; ret (entry t (PTX la))
  else if create =? 0 then ret NULL
  else if create =? 2 then
    if negb (JPGOFF la =? 0)
    then panic "Attempting to find a Jumbo PTE at an unaligned VA!"
    else store the_pde (Z.lor PTE_PS PTE_P) ;; ret the_pde
  else
    new_table <- boot_alloc PGSIZE PGSIZE ;;
    memset new_table 0 PGSIZE ;;
    pa <- PADDR new_table ;;
    store the_pde (Z.lor (Z.lor (Z.lor pa PTE_P) PTE_W) PTE_U) ;;
    pde' <- load the_pde ;;
    t <- KADDR (PTE_ADDR pde') ;;
    ret (entry t (PTX la)).

(** *** Frame database *)

Definition page_init : M unit :=
  bf <- gets boot_freemem ;;
  physaddr_after_kernel <- PADDR (ROUNDUP bf PGSIZE) ;;
  LIST_INIT ;;
  set_pp_ref 0 1 ;;
  for_range 1 (PPN IOPHYSMEM)
    (fun i => set_pp_ref i 0 ;; LIST_INSERT_HEAD i) ;;
  for_range (PPN IOPHYSMEM) (PPN EXTPHYSMEM)
    (fun i => set_pp_ref i 1) ;;
  for_range (PPN EXTPHYSMEM) (PPN physaddr_after_kernel)
    (fun i => set_pp_ref i 1) ;;
  np <- gets npage ;;
  for_range (PPN physaddr_after_kernel) np
    (fun i => set_pp_ref i 0 ;; LIST_INSERT_HEAD i).

(** memset of the whole descriptor: null links, zero count. *)
Definition page_initpp (pp : Z) : M unit :=
  set_page pp (mkPage None LinkNull 0).

(** Returns the C return value and what was stored in [*pp_store], if
    anything was. *)
Definition page_alloc : M (Z * option Z) :=
  e <- LIST_EMPTY ;;
  if e then ret (- E_NO_MEM, None)
  else
    first <- LIST_FIRST ;;
    match first with
    | Some pp => LIST_REMOVE pp ;; page_initpp pp ;; ret (0, Some pp)
    | None => fault
    end.

Definition page_free (pp : Z) : M unit :=
  p <- get_page pp ;;
  if negb (pp_ref p =? 0)
  then panic "Attempting to free page with non-zero reference count!"
  else LIST_INSERT_HEAD pp.

Definition page_decref (pp : Z) : M unit :=
  p <- get_page pp ;;
  set_pp_ref pp (ref_wrap (pp_ref p - 1)) ;;
  p' <- get_page pp ;;
  if pp_ref p' =? 0 then page_free pp else ret tt.

(** *** Steady-state walker *)

Definition pgdir_walk (pgdir va create : Z) : M Z :=
  let the_pde := entry pgdir (PDX va) in
  pde <- load the_pde ;;
  if has_flag pde PTE_P then
    if has_flag pde PTE_PS then ret the_pde
    else t <- KADDR (PTE_ADDR pde) ;; ret (entry t (PTX va))
  else if create =? 0 then ret NULL
  else if create =? 2 then
    if negb (JPGOFF va =? 0)
    then panic "Attempting to find a Jumbo PTE at an unaligned VA!"
    else store the_pde (Z.lor PTE_PS PTE_P) ;; ret the_pde
  else
    r <- page_alloc ;;
    match r with
    | (0, Some new_table) =>
        set_pp_ref new_table 1 ;;
        kva <- page2kva new_table ;;
        memset kva 0 PGSIZE ;;
        store the_pde
          (Z.lor (Z.lor (Z.lor (page2pa new_table) PTE_P) PTE_W) PTE_U) ;;
        pde' <- load the_pde ;;
        t <- KADDR (PTE_ADDR pde') ;;
        ret (entry t (PTX va))
    | _ => ret NULL
    end.

(** *** Mapping operations *)

Definition tlb_invalidate (pgdir va : Z) : M unit := invlpg va.

(** Returns the page mapped at [va] together with the entry address that the
    C function stores through a non-null [pte_store]; [None] is the null
    return, which leaves [*pte_store] as it was. *)
Definition page_lookup (pgdir va : Z) : M (option (Z * Z)) :=
  pte <- pgdir_walk pgdir va 0 ;;
  if pte =? NULL then ret None
  else
    e <- load pte ;;
    if negb (has_flag e PTE_P) then ret None
    else pg <- pa2page (PTE_ADDR e) ;; ret (Some (pg, pte)).

Definition page_remove (pgdir va : Z) : M unit :=
  r <- page_lookup pgdir va ;;
  match r with
  | None => ret tt
  | Some (page, pte) =>
      store pte 0 ;;
      tlb_invalidate pgdir va ;;
      page_decref page
  end.

Definition page_insert (pgdir pp va perm : Z) : M Z :=
  pte <- pgdir_walk pgdir va 1 ;;
  if pte =? NULL then ret (- E_NO_MEM)
  else
    p <- get_page pp ;;
    set_pp_ref pp (ref_wrap (pp_ref p + 1)) ;;
    e <- load pte ;;
    when (has_flag e PTE_P) (page_remove pgdir va) ;;
    store pte (Z.lor (Z.lor (page2pa pp) PTE_P) (u32 perm)) ;;
    ret 0.

(** *** Access validator *)

(** The process descriptor is opaque to pmap.c. *)
Record Env : Type := mkEnv { env_id : Z; env_pgdir : Z }.

Definition user_mem_check (env : Env) (va len perm : Z) : M Z :=
  ret 0.

(** *** The self-test of pmap.c *)

Definition assert (b : bool) : M unit :=
  if b then ret tt else panic "assertion failed".

Definition check_va2pa (pgdir va : Z) : M Z :=
  pde <- load (entry pgdir (PDX va)) ;;
  if negb (has_flag pde PTE_P) then ret (u32 (-1))
  else if has_flag pde PTE_PS then ret (PTE_ADDR pde)
  else
    p <- KADDR (PTE_ADDR pde) ;;
    e <- load (entry p (PTX va)) ;;
    if negb (has_flag e PTE_P) then ret (u32 (-1))
    else ret (PTE_ADDR e).

(** The word that the processor reads at the virtual address [va] through
    the two-level table [pgdir]. *)
Definition read_through (pgdir va : Z) : M Z :=
  pa <- check_va2pa pgdir va ;;
  if pa =? u32 (-1) then fault
  else kva <- KADDR pa ;; load (kva + PGOFF va).

Definition get_pp_ref (pp : Z) : M Z := p <- get_page pp ;; ret (pp_ref p).

(** page_check, with the global [boot_pgdir] as an argument; the three
    allocations come first and the rest runs with their results. *)
Definition page_check (boot_pgdir : Z) : M unit :=
  r0 <- page_alloc ;; assert (fst r0 =? 0) ;;
  r1 <- page_alloc ;; assert (fst r1 =? 0) ;;
  r2 <- page_alloc ;; assert (fst r2 =? 0) ;;
  match snd r0, snd r1, snd r2 with
  | Some pp0, Some pp1, Some pp2 =>
      assert (negb (pp1 =? pp0)) ;;
      assert (negb (pp2 =? pp1) && negb (pp2 =? pp0)) ;;
      fl <- LIST_FIRST ;;
      LIST_INIT ;;
      r <- page_alloc ;; assert (fst r =? - E_NO_MEM) ;;
      kva <- page2kva pp1 ;; memset kva 0xFFFFFFFF PGSIZE ;;
      l <- page_lookup boot_pgdir 0 ;;
      assert (match l with None => true | Some _ => false end) ;;
      r <- page_insert boot_pgdir pp1 0 0 ;; assert (r <? 0) ;;
      page_free pp0 ;;
      r <- page_insert boot_pgdir pp1 0 0 ;; assert (r =? 0) ;;
      tlb_invalidate boot_pgdir 0 ;;
      x <- read_through boot_pgdir 0 ;; assert (x =? 0xFFFFFFFF) ;;
      e <- load (entry boot_pgdir 0) ;; assert (PTE_ADDR e =? page2pa pp0) ;;
      pa <- check_va2pa boot_pgdir 0 ;; assert (pa =? page2pa pp1) ;;
      c <- get_pp_ref pp1 ;; assert (c =? 1) ;;
      c <- get_pp_ref pp0 ;; assert (c =? 1) ;;
      r <- page_insert boot_pgdir pp2 PGSIZE 0 ;; assert (r =? 0) ;;
      pa <- check_va2pa boot_pgdir PGSIZE ;; assert (pa =? page2pa pp2) ;;
      c <- get_pp_ref pp2 ;; assert (c =? 1) ;;
      e <- load (entry boot_pgdir (PDX PGSIZE)) ;;
      p <- KADDR (PTE_ADDR e) ;;
      q <- pgdir_walk boot_pgdir PGSIZE 0 ;;
      assert (q =? entry p (PTX PGSIZE)) ;;
      r <- page_alloc ;; assert (fst r =? - E_NO_MEM) ;;
      r <- page_insert boot_pgdir pp2 PGSIZE PTE_U ;; assert (r =? 0) ;;
      pa <- check_va2pa boot_pgdir PGSIZE ;; assert (pa =? page2pa pp2) ;;
      c <- get_pp_ref pp2 ;; assert (c =? 1) ;;
      q <- pgdir_walk boot_pgdir PGSIZE 0 ;;
      e <- load q ;; assert (Z.land e PTE_U =? PTE_U) ;;
      r <- page_alloc ;; assert (fst r =? - E_NO_MEM) ;;
      r <- page_insert boot_pgdir pp0 PTSIZE 0 ;; assert (r <? 0) ;;
      r <- page_insert boot_pgdir pp1 PGSIZE 0 ;; assert (r =? 0) ;;
      pa <- check_va2pa boot_pgdir 0 ;; assert (pa =? page2pa pp1) ;;
      pa <- check_va2pa boot_pgdir PGSIZE ;; assert (pa =? page2pa pp1) ;;
      c <- get_pp_ref pp1 ;; assert (c =? 2) ;;
      c <- get_pp_ref pp2 ;; assert (c =? 0) ;;
      r <- page_alloc ;;
      assert ((fst r =? 0) && match snd r with Some pp => pp =? pp2 | None => false end) ;;
      page_remove boot_pgdir 0 ;;
      pa <- check_va2pa boot_pgdir 0 ;; assert (pa =? u32 (-1)) ;;
      pa <- check_va2pa boot_pgdir PGSIZE ;; assert (pa =? page2pa pp1) ;;
      c <- get_pp_ref pp1 ;; assert (c =? 1) ;;
      c <- get_pp_ref pp2 ;; assert (c =? 0) ;;
      page_remove boot_pgdir PGSIZE ;;
      pa <- check_va2pa boot_pgdir 0 ;; assert (pa =? u32 (-1)) ;;
      pa <- check_va2pa boot_pgdir PGSIZE ;; assert (pa =? u32 (-1)) ;;
      c <- get_pp_ref pp1 ;; assert (c =? 0) ;;
      c <- get_pp_ref pp2 ;; assert (c =? 0) ;;
      r <- page_alloc ;;
      assert ((fst r =? 0) && match snd r with Some pp => pp =? pp1 | None => false end) ;;
      r <- page_alloc ;; assert (fst r =? - E_NO_MEM) ;;
      e <- load (entry boot_pgdir 0) ;; assert (PTE_ADDR e =? page2pa pp0) ;;
      store (entry boot_pgdir 0) 0 ;;
      c <- get_pp_ref pp0 ;; assert (c =? 1) ;;
      set_pp_ref pp0 0 ;;
      page_free pp0 ;;
      let va := PGSIZE * NPDENTRIES + PGSIZE in
      p2 <- pgdir_walk boot_pgdir va 1 ;;
      e <- load (entry boot_pgdir (PDX va)) ;;
      p <- KADDR (PTE_ADDR e) ;;
      assert (p2 =? entry p (PTX va)) ;;
      store (entry boot_pgdir (PDX va)) 0 ;;
      set_pp_ref pp0 0 ;;
      set_lh_first fl ;;
      page_free pp0 ;;
      page_free pp1 ;;
      page_free pp2
  | _, _, _ => panic "assertion failed"
  end.

End Pmap.

(** ** Vocabulary of the specification *)

(** States that differ from [st] in one field. *)
Definition with_ref (st : State) (pp r : Z) : State :=
  mkState (maxpa st) (npage st) (boot_freemem st)
          (upd (pages st) pp
               (mkPage (le_next (pages st pp)) (le_prev (pages st pp)) r))
          (page_free_list st) (mem st) (tlb_flushed st).

Definition with_mem (st : State) (m : Z -> Z) : State :=
  mkState (maxpa st) (npage st) (boot_freemem st) (pages st)
          (page_free_list st) m (tlb_flushed st).

Definition with_flush (st : State) (va : Z) : State :=
  mkState (maxpa st) (npage st) (boot_freemem st) (pages st)
          (page_free_list st) (mem st) (va :: tlb_flushed st).

(** The detected memory size and the bootstrap cursor are left alone. *)
Definition same_globals (a b : State) : Prop :=
  maxpa b = maxpa a /\ npage b = npage a /\ boot_freemem b = boot_freemem a.

(** *** The free list as a set of frames *)

(** [reaches pg c pp]: following [le_next] from the pointer [c] arrives at
    the descriptor [pp]. *)
Inductive reaches (pg : Z -> Page) : option Z -> Z -> Prop :=
| reaches_here (x : Z) : reaches pg (Some x) x
| reaches_next (x y : Z) :
    reaches pg (le_next (pg x)) y -> reaches pg (Some x) y.

Definition on_free_list (st : State) (pp : Z) : Prop :=
  reaches (pages st) (page_free_list st) pp.

(** The first [fuel] frames of the list, in list order. *)
Fixpoint free_list_from (fuel : nat) (pg : Z -> Page) (cur : option Z) : list Z :=
  match fuel, cur with
  | S f, Some x => x :: free_list_from f pg (le_next (pg x))
  | _, _ => []
  end.

(** [chain pg prev cur l]: the pointer [cur], itself stored at [prev], heads
    a well-linked list whose elements are exactly [l]. *)
Fixpoint chain (pg : Z -> Page) (prev : LinkRef) (cur : option Z) (l : list Z) : Prop :=
  match l with
  | [] => cur = None
  | x :: l' =>
      cur = Some x /\ le_prev (pg x) = prev /\
      chain pg (LinkNext x) (le_next (pg x)) l'
  end.

(** The frames [lo], [lo+1], ..., [lo+n-1]. *)
Fixpoint zrange (lo : Z) (n : nat) : list Z :=
  match n with
  | O => []
  | S n' => lo :: zrange (lo + 1) n'
  end.

(** *** Sequences of frame-database calls *)

Inductive db_call : Type :=
| CallAlloc
| CallFree (pp : Z)
| CallDecref (pp : Z).

(** [db_run w st held calls st' held']: the calls run one after the other
    from [st] without a panic and end in [st'].  [held] lists the frames that
    page_alloc has handed out and that have not been given back to page_free
    since.  page_free is applied only to frames off the free list and
    page_decref only to frames with a positive count. *)
Inductive db_run (w : Z) : State -> list Z -> list db_call -> State -> list Z -> Prop :=
| run_done st held : db_run w st held [] st held
| run_alloc_ok st held pp st1 calls st' held' :
    page_alloc st = Ret (0, Some pp) st1 ->
    db_run w st1 (pp :: held) calls st' held' ->
    db_run w st held (CallAlloc :: calls) st' held'
| run_alloc_fail st held st1 calls st' held' :
    page_alloc st = Ret (- E_NO_MEM, None) st1 ->
    db_run w st1 held calls st' held' ->
    db_run w st held (CallAlloc :: calls) st' held'
| run_free st held pp st1 calls st' held' :
    ~ on_free_list st pp ->
    page_free pp st = Ret tt st1 ->
    db_run w st1 (List.remove Z.eq_dec pp held) calls st' held' ->
    db_run w st held (CallFree pp :: calls) st' held'
| run_decref st held pp st1 calls st' held' :
    0 < pp_ref (pages st pp) ->
    page_decref w pp st = Ret tt st1 ->
    db_run w st1 held calls st' held' ->
    db_run w st held (CallDecref pp :: calls) st' held'.

(** The same sequences with no condition on the arguments: whatever does not
    panic counts. *)
Inductive db_run_any (w : Z) : State -> list db_call -> State -> Prop :=
| any_done st : db_run_any w st [] st
| any_alloc st r st1 calls st' :
    page_alloc st = Ret r st1 ->
    db_run_any w st1 calls st' ->
    db_run_any w st (CallAlloc :: calls) st'
| any_free st pp st1 calls st' :
    page_free pp st = Ret tt st1 ->
    db_run_any w st1 calls st' ->
    db_run_any w st (CallFree pp :: calls) st'
| any_decref st pp st1 calls st' :
    page_decref w pp st = Ret tt st1 ->
    db_run_any w st1 calls st' ->
    db_run_any w st (CallDecref pp :: calls) st'.

(** Free-list membership coincides with a zero count, over the frames of the
    database. *)
Definition free_iff_unreferenced (st : State) : Prop :=
  forall pp, 0 <= pp < npage st ->
    (on_free_list st pp <-> pp_ref (pages st pp) = 0).

(** *** Page-table structure *)

(** The entry that translates [va]: the directory slot itself for a large
    page, otherwise the slot of the second-level table, which must lie in
    detected memory. *)
Definition leaf_of (st : State) (pgdir va : Z) : option Z :=
  let pde := mem st (entry pgdir (PDX va)) in
  if has_flag pde PTE_P then
    if has_flag pde PTE_PS then Some (entry pgdir (PDX va))
    else if PPN (PTE_ADDR pde) <? npage st
         then Some (entry (u32 (PTE_ADDR pde + KERNBASE)) (PTX va))
         else None
  else None.

(** Frame [pp] is mapped at [va] through the entry at [pte]. *)
Definition maps (st : State) (pgdir va pte pp : Z) : Prop :=
  leaf_of st pgdir va = Some pte /\ pte <> NULL /\
  has_flag (mem st pte) PTE_P = true /\
  PPN (PTE_ADDR (mem st pte)) = pp /\ pp < npage st.

(** Nothing is mapped at [va]: no directory entry, or a second-level table
    whose slot is not present. *)
Definition unmapped (st : State) (pgdir va : Z) : Prop :=
  let pde := mem st (entry pgdir (PDX va)) in
  has_flag pde PTE_P = false \/
  (has_flag pde PTE_PS = false /\
   exists pte, leaf_of st pgdir va = Some pte /\
               has_flag (mem st pte) PTE_P = false).

(** *** The invariant of the frame database *)

(** [l] is the free list, in order; [held] are the frames that page_alloc has
    handed out with a count still at zero. *)
Record db_inv (st : State) (l held : list Z) : Prop := mk_db_inv {
  inv_chain : chain (pages st) LinkHead (page_free_list st) l;
  inv_nodup : NoDup l;
  inv_free : forall i, In i l -> pp_ref (pages st i) = 0;
  inv_held : forall i, In i held -> pp_ref (pages st i) = 0 /\ ~ In i l;
  inv_zero : forall i, 0 <= i < npage st -> pp_ref (pages st i) = 0 ->
                       In i l \/ In i held
}.

(** The first frame past the memory that the bootstrap allocator consumed, as
    page_init computes it. *)
Definition first_free_ppn (st : State) : Z :=
  PPN (ROUNDUP (boot_freemem st) PGSIZE - KERNBASE).

(** What page_init needs of the machine: the bootstrap cursor lies in the
    kernel window, past the I/O hole, and within detected memory. *)
Definition boot_done (st : State) : Prop :=
  KERNBASE <= ROUNDUP (boot_freemem st) PGSIZE /\
  PPN EXTPHYSMEM <= first_free_ppn st <= npage st.

(** [lo <= j < lo + n], for the frames a loop has visited. *)
Definition in_range (lo : Z) (n : nat) (j : Z) : bool :=
  (lo <=? j) && (j <? lo + Z.of_nat n).

(** *** A small machine *)

Definition blank_page : Page := mkPage None LinkNull 0.

(** 280 frames of detected memory; the bootstrap allocator stopped at the
    start of frame 272. *)
Definition example_boot : State :=
  mkState (280 * PGSIZE) 280 (KERNBASE + 0x110000)
          (fun _ => blank_page) None (fun _ => 0) [].

(** The boot page directory of that machine: frame 271, still empty. *)
Definition example_boot_pgdir : Z := KERNBASE + 0x10F000.

(** A page directory in frame 512 with a second-level table in frame 513:
    frame 300 is mapped at virtual address 0x1000, and a large page based at
    physical 0x400000 (frame 1024) at virtual address 0x800000.  Frames 700
    and 701 are free. *)
Definition example_pgdir : Z := KERNBASE + 0x200000.

Definition example_mem : Z -> Z :=
  upd (upd (upd (fun _ => 0)
         example_pgdir 0x201007)
         (KERNBASE + 0x201004) 0x12C005)
         (example_pgdir + 8) 0x400083.

Definition example_pages : Z -> Page :=
  upd (upd (upd (upd (upd (fun _ => blank_page)
         300 (mkPage None LinkNull 1))
         301 (mkPage None LinkNull 2))
         1024 (mkPage None LinkNull 1))
         700 (mkPage (Some 701) LinkHead 0))
         701 (mkPage None (LinkNext 700) 0).

Definition example_mapped : State :=
  mkState (2048 * PGSIZE) 2048 (KERNBASE + 0x110000)
          example_pages (Some 700) example_mem [].

(** The same machine with no free frame left. *)
Definition example_exhausted : State :=
  mkState (2048 * PGSIZE) 2048 (KERNBASE + 0x110000)
          example_pages None example_mem [].

(** An address of the kernel half, well above ULIM. *)
Definition example_kernel_va : Z := 0xF0000000.

(** What is left after page_init and page_check on the small machine: the
    first four frames of the free list and the invalidated addresses, or
    [None] if an assertion panicked. *)
Definition page_check_outcome : option (list Z * list Z) :=
  match (page_init ;; page_check 16 example_boot_pgdir)%kern example_boot with
  | Ret _ s => Some (free_list_from 4 (pages s) (page_free_list s), tlb_flushed s)
  | Panic _ => None
  | Fault => None
  end.

(** ** The rest of kern/pmap.c *)

Section Bootstrap.

(** The CMOS register file that mc146818_read reads, one byte per register,
    and the two register numbers of kern/kclock.h, which is missing from the
    tree. *)
Variable mc146818_read : Z -> Z.
Variable NVRAM_BASELO NVRAM_EXTLO : Z.

(** The linker symbol [end], as in [boot_alloc]. *)
Variable kernel_end : Z.

Definition nvram_read (r : Z) : Z :=
  Z.lor (mc146818_read r) (Z.shiftl (mc146818_read (r + 1)) 8).

(** Sets [maxpa] and [npage]; the static [basemem] and [extmem] are returned.
    The two cprintf lines have no effect on the state. *)
Definition i386_detect_memory : M (Z * Z) :=
  let basemem := ROUNDDOWN (u32 (nvram_read NVRAM_BASELO * 1024)) PGSIZE in
  let extmem := ROUNDDOWN (u32 (nvram_read NVRAM_EXTLO * 1024)) PGSIZE in
  let maxpa' := if negb (extmem =? 0) then u32 (EXTPHYSMEM + extmem) else basemem in
  modify (fun s => mkState maxpa' (maxpa' / PGSIZE) (boot_freemem s) (pages s)
                           (page_free_list s) (mem s) (tlb_flushed s)) ;;
  ret (basemem, extmem).

(** The loop of boot_map_segment,
    [for (i = 0; i < size; i += step, la += step, pa += step)], with the
    counters as 32-bit values.  [None]: the fuel ran out before the loop
    condition failed. *)
Fixpoint boot_map_loop (fuel : nat) (pgdir step create size perm i la pa : Z)
  : State -> option (outcome unit) :=
  match fuel with
  | O => fun _ => None
  | S fuel' => fun st =>
      if i <? size then
        match (pte <- boot_pgdir_walk kernel_end pgdir la create ;;
               store pte (Z.lor (Z.lor (PTE_ADDR pa) PTE_P) (u32 perm))) st with
        | Ret _ st' =>
            boot_map_loop fuel' pgdir step create size perm
                          (u32 (i + step)) (u32 (la + step)) (u32 (pa + step)) st'
        | Panic msg => Some (Panic msg)
        | Fault => Some Fault
        end
      else Some (Ret tt st)
  end.

(** The two warnings print and change nothing. *)
Definition boot_map_segment (fuel : nat) (pgdir la size pa perm : Z)
  : State -> option (outcome unit) :=
  fun st =>
    let size := if negb (PGOFF la =? 0) then u32 (size + PGOFF la) else size in
    if has_flag perm PTE_PS then
      if negb (JPGOFF la =? 0) || negb (JPGOFF pa =? 0)
      then Some (Panic "Tried to map a Jumbo page at an unaligned address!")
      else boot_map_loop fuel pgdir JPGSIZE 2 size perm 0 la pa st
    else boot_map_loop fuel pgdir PGSIZE 1 size perm 0 la pa st.

End Bootstrap.

(** The return value is [PGOFF (pde & pte) + PTE_PS & (pde | pte)] on the two
    entries; in C the sum binds tighter than the conjunction. *)
Definition get_vaperms (pgdir va : Z) : M Z :=
  let pde := entry pgdir (PDX va) in
  pte <- pgdir_walk pgdir va 0 ;;
  if pte =? NULL then ret 0
  else
    e <- load pte ;;
    if negb (has_flag e PTE_P) then ret 0
    else
      d <- load pde ;;
      e <- load pte ;;
      ret (Z.land (u32 (PGOFF (Z.land d e) + PTE_PS)) (Z.lor d e)).


(** *** Vocabulary for the bootstrap allocator and its tables *)

(** Where the next bootstrap allocation starts looking: the cursor, or the
    end of the kernel image while the cursor is still unset. *)
Definition boot_cursor (kernel_end : Z) (st : State) : Z :=
  if boot_freemem st =? 0 then kernel_end else boot_freemem st.

Definition with_boot_freemem (st : State) (v : Z) : State :=
  mkState (maxpa st) (npage st) v (pages st)
          (page_free_list st) (mem st) (tlb_flushed st).

(** The directory entries that translate the [n] pages from page number
    [vpn] on are all absent. *)
Definition pdes_absent (st : State) (pgdir vpn n : Z) : Prop :=
  forall k, 0 <= k < n ->
    has_flag (mem st (entry pgdir (PDX ((vpn + k) * PGSIZE)))) PTE_P = false.

(** ** Run-once helpers of the user library header *)

Module Parlib.

Record parlib_once_t : Type := mk_once { ran_once : bool; is_running : bool }.

Definition PARLIB_ONCE_INIT : parlib_once_t := mk_once false false.

Section Once.

(** The program state that [init_fn(arg)] works on; the control block is not
    part of it. *)
Variable S : Type.

Definition parlib_run_once_racy (once_ctl : parlib_once_t) (init_fn : S -> S) (s : S)
  : parlib_once_t * S :=
  if negb (ran_once once_ctl)
  then (mk_once true (is_running once_ctl), init_fn s)
  else (once_ctl, s).

Definition parlib_set_ran_once (once_ctl : parlib_once_t) : parlib_once_t :=
  mk_once true (is_running once_ctl).

(** [n] calls in a row on the same control block. *)
Fixpoint run_once_times (n : nat) (once_ctl : parlib_once_t) (init_fn : S -> S) (s : S)
  : parlib_once_t * S :=
  match n with
  | O => (once_ctl, s)
  | Datatypes.S n' =>
      let (c, s') := parlib_run_once_racy once_ctl init_fn s in
      run_once_times n' c init_fn s'
  end.

(** *** parlib_run_once among concurrent callers

    Callers interleave at the accesses to the control block; memory is
    sequentially consistent, so the [wmb] has nothing left to order.
    [init_fn(arg)] is one step: it works on the program state, which no
    other caller of parlib_run_once touches. *)

(** Where a caller stands. *)
Inductive once_pc : Type :=
| AtTest     (* before the test of [ran_once] *)
| AtFetchOr  (* before [__sync_fetch_and_or(&is_running, TRUE)] *)
| AtInit     (* won the race, before [init_fn(arg)] *)
| AtSetRan   (* before [ran_once = TRUE] *)
| AtSpin     (* lost the race, before the test of the wait loop *)
| AtReturn.  (* returned *)

(** The control block, every caller's position, the program state, and a
    count of the calls of [init_fn] so far. *)
Record once_world : Type := mk_world {
  ctl : parlib_once_t;
  callers : nat -> once_pc;
  prog : S;
  init_calls : nat
}.

Definition goto (wd : once_world) (t : nat) (pc : once_pc) : nat -> once_pc :=
  fun u => if Nat.eqb u t then pc else callers wd u.

(** Caller [t] executes up to its next access. *)
Definition once_step (init_fn : S -> S) (t : nat) (wd : once_world) : once_world :=
  match callers wd t with
  | AtTest =>
      mk_world (ctl wd)
               (goto wd t (if negb (ran_once (ctl wd)) then AtFetchOr else AtReturn))
               (prog wd) (init_calls wd)
  | AtFetchOr =>
      mk_world (mk_once (ran_once (ctl wd)) (is_running (ctl wd) || true))
               (goto wd t (if negb (is_running (ctl wd)) then AtInit else AtSpin))
               (prog wd) (init_calls wd)
  | AtInit =>
      mk_world (ctl wd) (goto wd t AtSetRan) (init_fn (prog wd))
               (Datatypes.S (init_calls wd))
  | AtSetRan =>
      mk_world (mk_once true (is_running (ctl wd))) (goto wd t AtReturn)
               (prog wd) (init_calls wd)
  | AtSpin =>
      mk_world (ctl wd)
               (goto wd t (if negb (ran_once (ctl wd)) then AtSpin else AtReturn))
               (prog wd) (init_calls wd)
  | AtReturn => wd
  end.

(** The callers run in the order of the schedule [sched]. *)
Fixpoint once_run (init_fn : S -> S) (sched : list nat) (wd : once_world) : once_world :=
  match sched with
  | [] => wd
  | t :: rest => once_run init_fn rest (once_step init_fn t wd)
  end.

(** Every caller at the head of parlib_run_once, on a fresh control block. *)
Definition once_start (s : S) : once_world :=
  mk_world PARLIB_ONCE_INIT (fun _ => AtTest) s 0.

Definition waiting (pc : once_pc) : Prop :=
  pc = AtTest \/ pc = AtFetchOr \/ pc = AtSpin.

(** The four phases of a run: nobody has won yet; the winner [w] is about
    to call [init_fn]; it has called it and is about to publish; it has
    published. *)
Definition once_inv (init_fn : S -> S) (s : S) (wd : once_world) : Prop :=
  (ctl wd = mk_once false false /\ init_calls wd = 0%nat /\ prog wd = s /\
   forall t, callers wd t = AtTest \/ callers wd t = AtFetchOr) \/
  (exists w, ctl wd = mk_once false true /\ init_calls wd = 0%nat /\ prog wd = s /\
     callers wd w = AtInit /\ forall t, t <> w -> waiting (callers wd t)) \/
  (exists w, ctl wd = mk_once false true /\ init_calls wd = 1%nat /\
     prog wd = init_fn s /\
     callers wd w = AtSetRan /\ forall t, t <> w -> waiting (callers wd t)) \/
  (ctl wd = mk_once true true /\ init_calls wd = 1%nat /\ prog wd = init_fn s /\
   forall t, waiting (callers wd t) \/ callers wd t = AtReturn).

End Once.

End Parlib.

(** *** Vocabulary for boot-time mappings *)

(** The directory entry at index [d], when present, names a second-level
    table inside detected memory that ends at or below the address [c] and
    lies outside the directory page. *)
Definition table_below (st : State) (pgdir c d : Z) : Prop :=
  let pde := mem st (entry pgdir d) in
  has_flag pde PTE_P = true ->
  has_flag pde PTE_PS = false /\ PPN (PTE_ADDR pde) < npage st /\
  let t := u32 (PTE_ADDR pde + KERNBASE) in
  t + PGSIZE <= c /\ (t + PGSIZE <= pgdir \/ pgdir + PGSIZE <= t).

(** How many second-level tables the [m] pages from page number [vpn] on
    still lack: one per directory entry, less the first when it is present. *)
Definition tables_needed (st : State) (pgdir vpn m : Z) : Z :=
  if m <=? 0 then 0
  else (vpn + m - 1) / 1024 - vpn / 1024 +
       (if has_flag (mem st (entry pgdir (vpn / 1024))) PTE_P then 0 else 1).

(** The words that mapping the [m] pages from [vpn] on may store to: the
    absent directory entries of the range, the slots from [vpn] on in the
    table of the first directory entry, when there is one, and the memory
    from [c] up to [cend], where new tables go. *)
Definition boot_map_writes (st : State) (pgdir vpn m c cend a : Z) : Prop :=
  0 < m /\
  ((exists d, vpn / 1024 <= d <= (vpn + m - 1) / 1024 /\ a = entry pgdir d /\
             has_flag (mem st a) PTE_P = false) \/
  (has_flag (mem st (entry pgdir (vpn / 1024))) PTE_P = true /\
   exists x, vpn mod 1024 <= x < 1024 /\
     a = entry (u32 (PTE_ADDR (mem st (entry pgdir (vpn / 1024))) + KERNBASE)) x) \/
   c <= a < cend).

(** * Properties *)

(** ** Stepping through monadic code *)

Ltac kern_unfold :=
  cbv beta iota delta
    [LIST_INSERT_HEAD LIST_REMOVE LIST_FIRST LIST_EMPTY LIST_INIT write_link
     set_pp_ref set_le_next set_le_prev set_lh_first set_boot_freemem set_page
     get_page load store memset invlpg tlb_invalidate when
     bind ret gets modify panic fault].

Lemma bind_Ret {A B : Type} (c : M A) (k : A -> M B) (st : State) (a : A) (st' : State) :
  c st = Ret a st' -> bind c k st = k a st'.
Proof. intros E. unfold bind. now rewrite E. Qed.

(** Run the first statement of a sequence, given what it returns. *)
Ltac kstep E := rewrite (bind_Ret _ _ _ _ _ E).
Ltac kstep_refl := erewrite bind_Ret by reflexivity.

Lemma upd_same {A : Type} (f : Z -> A) (k : Z) (v : A) : upd f k v k = v.
Proof. unfold upd. now rewrite Z.eqb_refl. Qed.

Lemma upd_other {A : Type} (f : Z -> A) (k : Z) (v : A) (x : Z) :
  x <> k -> upd f k v x = f x.
Proof. unfold upd. intros H. destruct (Z.eqb_spec x k); congruence. Qed.

Ltac upd_simpl :=
  repeat first [ rewrite upd_same | rewrite upd_other by congruence ].

Lemma page_eta (p : Page) : mkPage (le_next p) (le_prev p) (pp_ref p) = p.
Proof. now destruct p. Qed.

(** ** Arithmetic of the reference count *)

Lemma pow2_ge2 (w : Z) : 0 < w -> 2 <= 2 ^ w.
Proof. intros H. change 2 with (2 ^ 1) at 1. apply Z.pow_le_mono_r; lia. Qed.

Lemma ref_dec_wrap (w : Z) : 0 < w -> ref_wrap w (0 - 1) = 2 ^ w - 1.
Proof.
  intros Hw. pose proof (pow2_ge2 w Hw) as Hp. unfold ref_wrap.
  replace (0 - 1) with ((2 ^ w - 1) + (-1) * 2 ^ w) by lia.
  rewrite Z.mod_add by lia. apply Z.mod_small. lia.
Qed.

Lemma ref_dec_zero (w r : Z) :
  0 < w -> 0 <= r < 2 ^ w -> (ref_wrap w (r - 1) = 0 <-> r = 1).
Proof.
  intros Hw Hr. pose proof (pow2_ge2 w Hw) as Hp. split.
  - intros E. destruct (Z.eq_dec r 0) as [->|NZ].
    + rewrite ref_dec_wrap in E; lia.
    + unfold ref_wrap in E. rewrite Z.mod_small in E; lia.
  - intros ->. unfold ref_wrap. now rewrite Z.sub_diag, Z.mod_0_l by lia.
Qed.

Lemma ref_inc_dec (w r : Z) :
  0 < w -> 0 <= r < 2 ^ w -> ref_wrap w (ref_wrap w (r + 1) - 1) = r.
Proof.
  intros Hw Hr. pose proof (pow2_ge2 w Hw) as Hp. unfold ref_wrap.
  rewrite Zminus_mod_idemp_l. replace (r + 1 - 1) with r by lia.
  apply Z.mod_small. lia.
Qed.

(** ** The list macros *)

Lemma LIST_INSERT_HEAD_spec (elm : Z) (st : State) :
  exists st',
    LIST_INSERT_HEAD elm st = Ret tt st' /\
    same_globals st st' /\ mem st' = mem st /\ tlb_flushed st' = tlb_flushed st /\
    page_free_list st' = Some elm /\
    pages st' elm = mkPage (page_free_list st) LinkHead (pp_ref (pages st elm)) /\
    (forall j, j <> elm ->
       pages st' j =
       if match page_free_list st with Some f => j =? f | None => false end
       then mkPage (le_next (pages st j)) (LinkNext elm) (pp_ref (pages st j))
       else pages st j).
Proof.
  kern_unfold. destruct (page_free_list st) as [f|] eqn:Hf; cbn.
  - eexists. split; [reflexivity|]. cbn.
    split; [repeat split|]. do 3 (split; [reflexivity|]). split.
    + upd_simpl. destruct (Z.eqb_spec f elm) as [->|N];
        upd_simpl; cbn; upd_simpl; reflexivity.
    + intros j Hj. upd_simpl.
      destruct (Z.eqb_spec j f) as [->|N]; upd_simpl; cbn; upd_simpl; reflexivity.
  - eexists. split; [reflexivity|]. cbn.
    split; [repeat split|]. do 3 (split; [reflexivity|]). split.
    + upd_simpl. cbn. upd_simpl. reflexivity.
    + intros j Hj. upd_simpl. reflexivity.
Qed.

Lemma LIST_INSERT_HEAD_refs (elm : Z) (st st' : State) :
  LIST_INSERT_HEAD elm st = Ret tt st' ->
  forall j, pp_ref (pages st' j) = pp_ref (pages st j).
Proof.
  intros E j.
  destruct (LIST_INSERT_HEAD_spec elm st) as (s & E' & _ & _ & _ & _ & He & Ho).
  rewrite E in E'. injection E' as <-.
  destruct (Z.eq_dec j elm) as [->|N].
  - now rewrite He.
  - rewrite (Ho j N).
    destruct (match page_free_list st with Some f => j =? f | None => false end);
      reflexivity.
Qed.

Lemma LIST_REMOVE_head_spec (elm : Z) (st : State) :
  le_prev (pages st elm) = LinkHead ->
  exists st',
    LIST_REMOVE elm st = Ret tt st' /\
    same_globals st st' /\ mem st' = mem st /\ tlb_flushed st' = tlb_flushed st /\
    page_free_list st' = le_next (pages st elm) /\
    (forall j,
       pages st' j =
       if match le_next (pages st elm) with Some n => j =? n | None => false end
       then mkPage (le_next (pages st j)) LinkHead (pp_ref (pages st j))
       else pages st j).
Proof.
  intros Hp. kern_unfold. destruct (le_next (pages st elm)) as [n|] eqn:Hn; cbn.
  - destruct (Z.eqb_spec elm n) as [<-|N].
    + upd_simpl. cbn. rewrite Hp. cbn.
      eexists. split; [reflexivity|]. cbn.
      split; [repeat split|]. do 3 (split; [congruence|]).
      intros j. destruct (Z.eqb_spec j elm) as [->|N]; upd_simpl; congruence.
    + upd_simpl. rewrite Hp. cbn.
      eexists. split; [reflexivity|]. cbn.
      split; [repeat split|]. do 3 (split; [congruence|]).
      intros j. destruct (Z.eqb_spec j n) as [->|N']; upd_simpl; congruence.
  - rewrite Hp, Hn. cbn. eexists. split; [reflexivity|]. cbn.
    split; [repeat split|]. do 3 (split; [congruence|]). reflexivity.
Qed.

(** ** Frame database: one call at a time *)

Lemma page_alloc_empty (st : State) :
  page_free_list st = None -> page_alloc st = Ret (- E_NO_MEM, None) st.
Proof.
  intros H. cbv [page_alloc bind LIST_EMPTY gets]. now rewrite H.
Qed.

Lemma page_alloc_head (st : State) (h : Z) :
  page_free_list st = Some h -> le_prev (pages st h) = LinkHead ->
  exists st',
    page_alloc st = Ret (0, Some h) st' /\
    page_free_list st' = le_next (pages st h) /\
    pages st' h = mkPage None LinkNull 0 /\
    same_globals st st' /\ mem st' = mem st /\ tlb_flushed st' = tlb_flushed st /\
    (forall j, j <> h ->
       pages st' j =
       if match le_next (pages st h) with Some n => j =? n | None => false end
       then mkPage (le_next (pages st j)) LinkHead (pp_ref (pages st j))
       else pages st j).
Proof.
  intros H Hp. cbv [page_alloc bind LIST_EMPTY LIST_FIRST gets].
  rewrite H. cbv beta iota. rewrite H.
  destruct (LIST_REMOVE_head_spec h st Hp) as (s1 & E & G & Hm & Ht & Hh & Hpg).
  rewrite E. cbv [page_initpp set_page bind ret modify].
  eexists. split; [reflexivity|]. cbn. destruct G as (G1 & G2 & G3).
  split; [exact Hh|]. split; [now upd_simpl|]. split; [repeat split; assumption|].
  do 2 (split; [assumption|]). intros j Hj. upd_simpl. apply Hpg.
Qed.

Lemma page_free_zero (pp : Z) (st : State) :
  pp_ref (pages st pp) = 0 -> page_free pp st = LIST_INSERT_HEAD pp st.
Proof.
  intros H. cbv [page_free bind get_page gets]. now rewrite H.
Qed.

Lemma page_free_referenced (pp : Z) (st : State) :
  pp_ref (pages st pp) <> 0 -> exists msg, page_free pp st = Panic msg.
Proof.
  intros H. cbv [page_free bind get_page gets panic].
  destruct (Z.eqb_spec (pp_ref (pages st pp)) 0); [contradiction|].
  eexists. reflexivity.
Qed.

Lemma set_pp_ref_eq (pp r : Z) (st : State) :
  set_pp_ref pp r st = Ret tt (with_ref st pp r).
Proof. reflexivity. Qed.

Lemma with_ref_same (st : State) (pp r : Z) :
  pages (with_ref st pp r) pp =
  mkPage (le_next (pages st pp)) (le_prev (pages st pp)) r.
Proof. cbn. now rewrite upd_same. Qed.

Lemma with_ref_other (st : State) (pp r j : Z) :
  j <> pp -> pages (with_ref st pp r) j = pages st j.
Proof. intros H. cbn. now rewrite upd_other. Qed.

Lemma with_ref_links (st : State) (pp r j : Z) :
  le_next (pages (with_ref st pp r) j) = le_next (pages st j) /\
  le_prev (pages (with_ref st pp r) j) = le_prev (pages st j).
Proof.
  destruct (Z.eq_dec j pp) as [->|N].
  - rewrite with_ref_same. now split.
  - rewrite with_ref_other by assumption. now split.
Qed.

Lemma page_decref_unfold (w pp : Z) (st : State) :
  page_decref w pp st =
  let st1 := with_ref st pp (ref_wrap w (pp_ref (pages st pp) - 1)) in
  if ref_wrap w (pp_ref (pages st pp) - 1) =? 0
  then LIST_INSERT_HEAD pp st1 else Ret tt st1.
Proof.
  unfold page_decref. cbv [bind get_page gets]. rewrite set_pp_ref_eq.
  rewrite with_ref_same. cbn [pp_ref]. unfold ret.
  destruct (Z.eqb_spec (ref_wrap w (pp_ref (pages st pp) - 1)) 0) as [E|E];
    [|reflexivity].
  apply page_free_zero. now rewrite with_ref_same.
Qed.

(** ** The shape of the free list *)

Lemma reaches_ext (pg pg' : Z -> Page) (c : option Z) (y : Z) :
  (forall j, le_next (pg' j) = le_next (pg j)) ->
  reaches pg c y -> reaches pg' c y.
Proof.
  intros E H. induction H.
  - constructor.
  - apply reaches_next. rewrite E. exact IHreaches.
Qed.

Lemma chain_reaches (pg : Z -> Page) (l : list Z) :
  forall prev cur, chain pg prev cur l ->
  forall y, reaches pg cur y <-> In y l.
Proof.
  induction l as [|x l IH]; intros prev cur H y; cbn in H.
  - subst cur. split; [intros R; inversion R | intros []].
  - destruct H as (-> & _ & Hc). specialize (IH _ _ Hc y). split.
    + intros R. inversion R; subst.
      * now left.
      * right. now apply IH.
    + intros [<-|Hin].
      * constructor.
      * apply reaches_next. now apply IH.
Qed.

Lemma chain_ext (pg pg' : Z -> Page) (l : list Z) :
  (forall i, In i l -> le_next (pg' i) = le_next (pg i) /\
                       le_prev (pg' i) = le_prev (pg i)) ->
  forall prev cur, chain pg prev cur l -> chain pg' prev cur l.
Proof.
  induction l as [|x l IH]; intros E prev cur H; cbn in *.
  - exact H.
  - destruct H as (Hc & Hp & Hr). destruct (E x (or_introl eq_refl)) as (En & Ep).
    split; [exact Hc|]. split; [congruence|]. rewrite En.
    apply IH; [|exact Hr]. intros i Hi. apply E. now right.
Qed.

Lemma chain_walk (pg : Z -> Page) (l : list Z) :
  forall prev cur, chain pg prev cur l ->
  free_list_from (S (List.length l)) pg cur = l.
Proof.
  induction l as [|x l IH]; intros prev cur H; cbn in H.
  - now subst cur.
  - destruct H as (-> & _ & Hc). cbn [List.length free_list_from]. f_equal.
    exact (IH _ _ Hc).
Qed.

Lemma chain_insert (elm : Z) (st st' : State) (l : list Z) :
  chain (pages st) LinkHead (page_free_list st) l ->
  NoDup l -> ~ In elm l ->
  LIST_INSERT_HEAD elm st = Ret tt st' ->
  chain (pages st') LinkHead (page_free_list st') (elm :: l).
Proof.
  intros Hc Hd Hn E.
  destruct (LIST_INSERT_HEAD_spec elm st) as (s & E' & _ & _ & _ & Hh & He & Ho).
  rewrite E in E'. injection E' as <-. clear E.
  cbn. split; [exact Hh|]. rewrite He. cbn. split; [reflexivity|].
  destruct l as [|f l]; cbn in *.
  - exact Hc.
  - destruct Hc as (Hf & Hp & Hr). split; [exact Hf|].
    assert (Nf : f <> elm) by (intros ->; apply Hn; now left).
    inversion Hd as [|? ? Hfl _]; subst.
    rewrite (Ho f Nf), Hf, Z.eqb_refl. cbn. split; [reflexivity|].
    revert Hr. apply chain_ext. intros i Hi.
    assert (Ni : i <> elm) by (intros ->; apply Hn; now right).
    rewrite (Ho i Ni), Hf.
    destruct (Z.eqb_spec i f) as [->|_]; [contradiction|now split].
Qed.

Lemma chain_alloc (st : State) (h : Z) (l : list Z) :
  chain (pages st) LinkHead (page_free_list st) (h :: l) ->
  NoDup (h :: l) ->
  exists st',
    page_alloc st = Ret (0, Some h) st' /\
    chain (pages st') LinkHead (page_free_list st') l /\
    pp_ref (pages st' h) = 0 /\
    (forall j, j <> h -> pp_ref (pages st' j) = pp_ref (pages st j)) /\
    same_globals st st' /\ mem st' = mem st /\ tlb_flushed st' = tlb_flushed st.
Proof.
  intros Hc Hd. cbn in Hc. destruct Hc as (Hh & Hp & Hr).
  destruct (page_alloc_head st h Hh Hp) as (s & E & Hf & Hz & G & Hm & Ht & Ho).
  exists s. split; [exact E|]. inversion Hd as [|? ? Hnin Hd']; subst.
  split; [|split; [now rewrite Hz|split; [|split; [exact G|now split]]]].
  - rewrite Hf. destruct l as [|n l]; cbn in *; [exact Hr|].
    destruct Hr as (Hn & _ & Hr). split; [exact Hn|].
    assert (Nn : n <> h) by (intros ->; apply Hnin; now left).
    rewrite (Ho n Nn), Hn, Z.eqb_refl. cbn. split; [reflexivity|].
    revert Hr. apply chain_ext. intros i Hi.
    assert (Ni : i <> h) by (intros ->; apply Hnin; now right).
    inversion Hd' as [|? ? Hnl _]; subst.
    rewrite (Ho i Ni), Hn.
    destruct (Z.eqb_spec i n) as [->|_]; [contradiction|now split].
  - intros j Hj. rewrite (Ho j Hj).
    destruct (match le_next (pages st h) with Some n => j =? n | None => false end);
      reflexivity.
Qed.

Lemma chain_with_ref (st : State) (pp r : Z) (l : list Z) :
  forall prev cur, chain (pages st) prev cur l ->
  chain (pages (with_ref st pp r)) prev cur l.
Proof.
  intros prev cur. apply chain_ext. intros i _. apply with_ref_links.
Qed.

(** ** The frame database keeps its invariant *)

Lemma db_inv_on_list (st : State) (l held : list Z) :
  db_inv st l held -> forall pp, on_free_list st pp <-> In pp l.
Proof.
  intros I pp. unfold on_free_list. eapply chain_reaches. apply (inv_chain _ _ _ I).
Qed.

Lemma db_inv_alloc (st : State) (l held : list Z) (r : Z * option Z) (st1 : State) :
  db_inv st l held -> page_alloc st = Ret r st1 ->
  (l = [] /\ r = (- E_NO_MEM, None) /\ st1 = st) \/
  (exists h l', l = h :: l' /\ r = (0, Some h) /\ db_inv st1 l' (h :: held) /\
                npage st1 = npage st).
Proof.
  intros I E. destruct l as [|h l'].
  - left. pose proof (inv_chain _ _ _ I) as Hc. cbn in Hc.
    rewrite (page_alloc_empty st Hc) in E. injection E as <- <-. auto.
  - right. exists h, l'.
    destruct (chain_alloc st h l' (inv_chain _ _ _ I) (inv_nodup _ _ _ I))
      as (s & E' & Hc & Hz & Ho & (_ & Gn & _) & _ & _).
    rewrite E in E'. injection E' as -> ->. split; [reflexivity|].
    split; [reflexivity|]. split; [|exact Gn].
    pose proof (inv_nodup _ _ _ I) as Hd. inversion Hd as [|? ? Hnin Hd']; subst.
    constructor.
    + exact Hc.
    + exact Hd'.
    + intros i Hi. rewrite Ho by (intros ->; contradiction).
      apply (inv_free _ _ _ I). now right.
    + intros i [<-|Hi].
      * split; [exact Hz|exact Hnin].
      * destruct (inv_held _ _ _ I i Hi) as (Hr & Hn).
        assert (i <> h) by (intros ->; apply Hn; now left).
        rewrite Ho by assumption. split; [exact Hr|].
        intros Hin. apply Hn. now right.
    + intros i Hi Hr. rewrite Gn in Hi. destruct (Z.eq_dec i h) as [->|N].
      * right. now left.
      * rewrite Ho in Hr by assumption.
        destruct (inv_zero _ _ _ I i Hi Hr) as [[->|Hin]|Hin].
        -- contradiction.
        -- now left.
        -- right. now right.
Qed.

Lemma db_inv_free (st : State) (l held : list Z) (pp : Z) (st1 : State) :
  db_inv st l held -> ~ on_free_list st pp -> page_free pp st = Ret tt st1 ->
  db_inv st1 (pp :: l) (List.remove Z.eq_dec pp held).
Proof.
  intros I Hoff E.
  assert (Hnin : ~ In pp l) by (now rewrite <- (db_inv_on_list _ _ _ I)).
  assert (Hz : pp_ref (pages st pp) = 0).
  { destruct (Z.eq_dec (pp_ref (pages st pp)) 0) as [Z0|NZ]; [exact Z0|].
    destruct (page_free_referenced pp st NZ) as (msg & E'). congruence. }
  rewrite (page_free_zero pp st Hz) in E.
  pose proof (LIST_INSERT_HEAD_refs pp st st1 E) as Hr.
  destruct (LIST_INSERT_HEAD_spec pp st) as (s & E' & (_ & Gn & _) & _).
  rewrite E in E'. injection E' as <-.
  constructor.
  - eapply chain_insert; eauto. apply (inv_chain _ _ _ I). apply (inv_nodup _ _ _ I).
  - constructor; [exact Hnin|apply (inv_nodup _ _ _ I)].
  - intros i [<-|Hi]; rewrite Hr; [exact Hz|now apply (inv_free _ _ _ I)].
  - intros i Hi. apply in_remove in Hi. destruct Hi as (Hi & Hne).
    destruct (inv_held _ _ _ I i Hi) as (Hri & Hn). rewrite Hr.
    split; [exact Hri|]. intros [Heq|Hin]; [congruence|contradiction].
  - intros i Hi Hri. rewrite Gn in Hi. rewrite Hr in Hri.
    destruct (Z.eq_dec i pp) as [->|N]; [left; now left|].
    destruct (inv_zero _ _ _ I i Hi Hri) as [Hin|Hin].
    + left. now right.
    + right. now apply in_in_remove.
Qed.

Lemma db_inv_decref (w : Z) (st : State) (l held : list Z) (pp : Z) (st1 : State) :
  db_inv st l held -> 0 < pp_ref (pages st pp) ->
  page_decref w pp st = Ret tt st1 ->
  exists l', db_inv st1 l' held.
Proof.
  intros I Hpos E. rewrite page_decref_unfold in E. cbv zeta in E.
  assert (Hnl : ~ In pp l).
  { intros Hin. pose proof (inv_free _ _ _ I pp Hin). lia. }
  assert (Hnh : ~ In pp held).
  { intros Hin. destruct (inv_held _ _ _ I pp Hin). lia. }
  set (r := ref_wrap w (pp_ref (pages st pp) - 1)) in *.
  assert (Hc : chain (pages (with_ref st pp r)) LinkHead
                     (page_free_list (with_ref st pp r)) l).
  { apply chain_with_ref. apply (inv_chain _ _ _ I). }
  destruct (Z.eqb_spec r 0) as [Hr0|Hr0].
  - exists (pp :: l).
    pose proof (LIST_INSERT_HEAD_refs pp _ st1 E) as Hr.
    destruct (LIST_INSERT_HEAD_spec pp (with_ref st pp r)) as (s & E' & (_ & Gn & _) & _).
    rewrite E in E'. injection E' as <-.
    constructor.
    + eapply chain_insert; eauto. apply (inv_nodup _ _ _ I).
    + constructor; [exact Hnl|apply (inv_nodup _ _ _ I)].
    + intros i [<-|Hi]; rewrite Hr.
      * now rewrite with_ref_same.
      * rewrite with_ref_other by (intros ->; contradiction).
        now apply (inv_free _ _ _ I).
    + intros i Hi. destruct (inv_held _ _ _ I i Hi) as (Hri & Hn).
      rewrite Hr, with_ref_other by (intros ->; contradiction).
      split; [exact Hri|]. intros [Heq|Hin]; [congruence|contradiction].
    + intros i Hi Hri. rewrite Gn in Hi. rewrite Hr in Hri.
      destruct (Z.eq_dec i pp) as [->|N]; [left; now left|].
      rewrite with_ref_other in Hri by assumption.
      destruct (inv_zero _ _ _ I i Hi Hri) as [Hin|Hin]; [left; now right|now right].
  - exists l. injection E as <-. constructor.
    + exact Hc.
    + apply (inv_nodup _ _ _ I).
    + intros i Hi. rewrite with_ref_other by (intros ->; contradiction).
      now apply (inv_free _ _ _ I).
    + intros i Hi. rewrite with_ref_other by (intros ->; contradiction).
      now apply (inv_held _ _ _ I).
    + intros i Hi Hri. destruct (Z.eq_dec i pp) as [->|N].
      * rewrite with_ref_same in Hri. cbn in Hri. contradiction.
      * rewrite with_ref_other in Hri by assumption.
        now apply (inv_zero _ _ _ I).
Qed.

Lemma db_run_inv (w : Z) (st : State) (held : list Z) (calls : list db_call)
      (st' : State) (held' : list Z) :
  db_run w st held calls st' held' ->
  forall l, db_inv st l held -> exists l', db_inv st' l' held'.
Proof.
  induction 1 as [st held
                 |st held pp st1 calls st' held' E _ IH
                 |st held st1 calls st' held' E _ IH
                 |st held pp st1 calls st' held' Hoff E _ IH
                 |st held pp st1 calls st' held' Hpos E _ IH]; intros l I.
  - now exists l.
  - destruct (db_inv_alloc _ _ _ _ _ I E) as [(_ & Hr & _)|(h & l' & _ & Hr & I' & _)].
    + discriminate Hr.
    + injection Hr as <-. exact (IH _ I').
  - destruct (db_inv_alloc _ _ _ _ _ I E) as [(_ & _ & ->)|(h & l' & _ & Hr & _)].
    + exact (IH _ I).
    + discriminate Hr.
  - exact (IH _ (db_inv_free _ _ _ _ _ I Hoff E)).
  - destruct (db_inv_decref _ _ _ _ _ _ I Hpos E) as (l' & I'). exact (IH _ I').
Qed.

(** Every state passed through on the way is itself the end of a run: what
    holds at the end of all runs holds at all times. *)
Lemma db_run_split (w : Z) (calls1 calls2 : list db_call) :
  forall st held st' held',
    db_run w st held (calls1 ++ calls2) st' held' ->
    exists sm hm,
      db_run w st held calls1 sm hm /\ db_run w sm hm calls2 st' held'.
Proof.
  induction calls1 as [|c calls1 IH]; intros st held st' held' R.
  - exists st, held. split; [constructor|exact R].
  - cbn [app] in R.
    inversion R as [|? ? pp s1 ? ? ? E R'|? ? s1 ? ? ? E R'
                    |? ? pp s1 ? ? ? Hoff E R'|? ? pp s1 ? ? ? Hpos E R']; subst;
      destruct (IH _ _ _ _ R') as (sm & hm & R1 & R2); exists sm, hm;
      (split; [|exact R2]).
    + eapply run_alloc_ok; eassumption.
    + eapply run_alloc_fail; eassumption.
    + eapply run_free; eassumption.
    + eapply run_decref; eassumption.
Qed.

(** ** page_init establishes the invariant *)

Lemma In_zrange (n : nat) :
  forall lo i, In i (zrange lo n) <-> lo <= i < lo + Z.of_nat n.
Proof.
  induction n as [|n IH]; intros lo i; cbn [zrange In].
  - lia.
  - rewrite IH. lia.
Qed.

Lemma in_range_spec (lo : Z) (n : nat) (j : Z) :
  in_range lo n j = true <-> lo <= j < lo + Z.of_nat n.
Proof. unfold in_range. rewrite andb_true_iff, Z.leb_le, Z.ltb_lt. lia. Qed.

Lemma in_range_step (lo : Z) (n : nat) (j : Z) :
  in_range lo (S n) j = (j =? lo) || in_range (lo + 1) n j.
Proof.
  apply eq_true_iff_eq. rewrite orb_true_iff, !in_range_spec, Z.eqb_eq. lia.
Qed.

Lemma in_range_zero (lo j : Z) : in_range lo 0 j = false.
Proof.
  destruct (in_range lo 0 j) eqn:E; [|reflexivity].
  apply in_range_spec in E. lia.
Qed.

Ltac case_in_range :=
  repeat match goal with
  | |- context [in_range ?a ?n ?j] =>
      let X := fresh "X" in
      destruct (in_range a n j) eqn:X;
      [apply in_range_spec in X
      |apply not_true_iff_false in X; rewrite in_range_spec in X]
  end.

(** A loop that only marks frames as referenced. *)
Lemma mark_loop (r : Z) (n : nat) :
  forall lo st, exists st',
    for_count n lo (fun i => set_pp_ref i r) st = Ret tt st' /\
    npage st' = npage st /\ page_free_list st' = page_free_list st /\
    (forall j, le_next (pages st' j) = le_next (pages st j) /\
               le_prev (pages st' j) = le_prev (pages st j)) /\
    (forall j, pp_ref (pages st' j) =
               if in_range lo n j then r else pp_ref (pages st j)).
Proof.
  induction n as [|n IH]; intros lo st.
  - exists st. cbn [for_count]. repeat split. intros j. now rewrite in_range_zero.
  - cbn [for_count]. unfold bind at 1. rewrite set_pp_ref_eq.
    destruct (IH (lo + 1) (with_ref st lo r)) as (s & E & Gn & Gh & Gl & Gr).
    exists s. split; [exact E|]. split; [exact Gn|]. split; [exact Gh|]. split.
    + intros j. destruct (Gl j) as (A & B), (with_ref_links st lo r j) as (C & D).
      split; congruence.
    + intros j. rewrite Gr, in_range_step.
      destruct (Z.eqb_spec j lo) as [->|N]; cbn [orb].
      * rewrite with_ref_same. cbn [pp_ref]. now destruct (in_range (lo + 1) n lo).
      * now rewrite with_ref_other.
Qed.

(** A loop that releases a run of frames onto the free list. *)
Lemma insert_loop (n : nat) :
  forall lo st l,
    chain (pages st) LinkHead (page_free_list st) l -> NoDup l ->
    (forall i, In i l -> i < lo) ->
    exists st',
      for_count n lo (fun i => set_pp_ref i 0 ;; LIST_INSERT_HEAD i) st = Ret tt st' /\
      npage st' = npage st /\
      chain (pages st') LinkHead (page_free_list st') (rev (zrange lo n) ++ l) /\
      NoDup (rev (zrange lo n) ++ l) /\
      (forall j, pp_ref (pages st' j) =
                 if in_range lo n j then 0 else pp_ref (pages st j)).
Proof.
  induction n as [|n IH]; intros lo st l Hc Hd Hlt.
  - exists st. cbn [for_count zrange rev app]. repeat split; try assumption.
    intros j. now rewrite in_range_zero.
  - cbn [for_count]. unfold bind at 1 2. rewrite set_pp_ref_eq.
    destruct (LIST_INSERT_HEAD_spec lo (with_ref st lo 0))
      as (s1 & E1 & (_ & Gn1 & _) & _).
    rewrite E1.
    assert (Hnin : ~ In lo l) by (intros Hin; specialize (Hlt _ Hin); lia).
    assert (Hc1 : chain (pages s1) LinkHead (page_free_list s1) (lo :: l)).
    { apply (chain_insert lo (with_ref st lo 0) s1 l);
        [now apply chain_with_ref|exact Hd|exact Hnin|exact E1]. }
    assert (Hd1 : NoDup (lo :: l)) by (now constructor).
    assert (Hlt1 : forall i, In i (lo :: l) -> i < lo + 1).
    { intros i [<-|Hi]; [lia|]. specialize (Hlt _ Hi). lia. }
    destruct (IH (lo + 1) s1 (lo :: l) Hc1 Hd1 Hlt1) as (s & E & Gn & Gc & Gd & Gr).
    exists s. split; [exact E|]. split; [cbn in Gn1; congruence|].
    cbn [zrange rev]. rewrite <- app_assoc. cbn [app].
    split; [exact Gc|]. split; [exact Gd|].
    intros j. rewrite Gr, in_range_step, (LIST_INSERT_HEAD_refs lo _ s1 E1).
    destruct (Z.eqb_spec j lo) as [->|N]; cbn [orb].
    + rewrite with_ref_same. cbn [pp_ref]. now destruct (in_range (lo + 1) n lo).
    + now rewrite with_ref_other.
Qed.

Lemma for_range_eq (lo hi : Z) (body : Z -> M unit) :
  for_range lo hi body = for_count (Z.to_nat (hi - lo)) lo body.
Proof. reflexivity. Qed.

Lemma page_init_inv (st0 : State) :
  boot_done st0 ->
  exists st1 l,
    page_init st0 = Ret tt st1 /\ db_inv st1 l [] /\ npage st1 = npage st0 /\
    l = rev (zrange (first_free_ppn st0)
                    (Z.to_nat (npage st0 - first_free_ppn st0)))
        ++ rev (zrange 1 159).
Proof.
  intros (Hk & Hlo & Hhi). set (k := first_free_ppn st0) in *.
  assert (H256 : PPN EXTPHYSMEM = 256) by reflexivity. rewrite H256 in Hlo.
  assert (EP : PADDR (ROUNDUP (boot_freemem st0) PGSIZE) st0 =
               Ret (ROUNDUP (boot_freemem st0) PGSIZE - KERNBASE) st0).
  { unfold PADDR.
    destruct (Z.ltb_spec (ROUNDUP (boot_freemem st0) PGSIZE) KERNBASE) as [?|_];
      [lia|reflexivity]. }
  unfold page_init. kstep_refl. kstep EP. kstep_refl. rewrite !for_range_eq.
  kstep (set_pp_ref_eq 0 1 (mkState (maxpa st0) (npage st0) (boot_freemem st0)
                                    (pages st0) None (mem st0) (tlb_flushed st0))).
  change (PPN IOPHYSMEM) with 160. change (PPN EXTPHYSMEM) with 256.
  change (Z.to_nat (160 - 1)) with 159%nat. change (Z.to_nat (256 - 160)) with 96%nat.
  fold (first_free_ppn st0). fold k.
  set (sA := with_ref _ 0 1).
  destruct (insert_loop 159 1 sA []) as (sB & EB & NB & CB & DB & RB);
    [reflexivity|constructor|intros i []|].
  kstep EB.
  destruct (mark_loop 1 96 160 sB) as (sC & EC & NC & HC & LC & RC). kstep EC.
  destruct (mark_loop 1 (Z.to_nat (k - 256)) 256 sC) as (sD & ED & ND & HD & LD & RD).
  kstep ED. kstep_refl.
  assert (CD : chain (pages sD) LinkHead (page_free_list sD) (rev (zrange 1 159) ++ [])).
  { rewrite HD, HC. revert CB. apply chain_ext. intros i _.
    destruct (LD i), (LC i). split; congruence. }
  assert (Hlt : forall i, In i (rev (zrange 1 159) ++ []) -> i < k).
  { intros i Hi. rewrite app_nil_r, <- in_rev, In_zrange in Hi. lia. }
  replace (npage sD) with (npage st0) by (rewrite ND, NC, NB; reflexivity).
  destruct (insert_loop (Z.to_nat (npage st0 - k)) k sD _ CD DB Hlt)
    as (sE & EE & NE & CE & DE & RE).
  rewrite for_range_eq. exists sE. eexists. split; [exact EE|].
  assert (Np : npage sE = npage st0) by (rewrite NE, ND, NC, NB; reflexivity).
  rewrite app_nil_r in *. split; [|split; [exact Np|reflexivity]].
  assert (Href : forall j, 0 <= j < npage st0 ->
            (pp_ref (pages sE j) = 0 <-> (1 <= j < 160 \/ k <= j))).
  { intros j Hj. rewrite RE, RD, RC, RB. case_in_range; try lia.
    assert (j = 0) by lia. subst j. unfold sA. rewrite with_ref_same.
    cbn [pp_ref]. lia. }
  constructor.
  - exact CE.
  - exact DE.
  - intros i Hi. rewrite in_app_iff, <- !in_rev, !In_zrange in Hi.
    rewrite RE, RD, RC, RB. case_in_range; lia.
  - intros i [].
  - intros i Hi Hr. left. rewrite Np in Hi. apply (Href i Hi) in Hr.
    rewrite in_app_iff, <- !in_rev, !In_zrange. lia.
Qed.

Lemma reaches_self_loop (pg : Z -> Page) (x y : Z) :
  le_next (pg x) = Some x -> reaches pg (Some x) y -> y = x.
Proof.
  intros L R. remember (Some x) as c eqn:Ec. revert Ec.
  induction R as [z|z y R IH]; intros Ec; injection Ec as ->.
  - reflexivity.
  - apply IH; [reflexivity|exact L].
Qed.

(** ** Claim C1: free list and zero counts *)

(** C1, as amended.  From the state that page_init builds, along every
    sequence of page_alloc, page_free and page_decref calls in which
    page_decref is applied only to frames with a positive count and page_free
    only to frames off the free list: every frame on the free list has count
    0; every frame of the database with count 0 is on the free list or is
    held, that is, was returned by page_alloc (which leaves the count at 0 for
    its caller to set) and not freed since; and the held frames are off the
    list. *)
Theorem free_list_tracks_unreferenced (w : Z) (st0 : State) :
  boot_done st0 ->
  exists st1,
    page_init st0 = Ret tt st1 /\
    forall calls st held,
      db_run w st1 [] calls st held ->
      (forall pp, on_free_list st pp -> pp_ref (pages st pp) = 0) /\
      (forall pp, 0 <= pp < npage st -> pp_ref (pages st pp) = 0 ->
                  on_free_list st pp \/ In pp held) /\
      (forall pp, In pp held ->
                  pp_ref (pages st pp) = 0 /\ ~ on_free_list st pp).
Proof.
  intros Hb. destruct (page_init_inv st0 Hb) as (st1 & l & E & I & _ & _).
  exists st1. split; [exact E|]. intros calls st held R.
  destruct (db_run_inv _ _ _ _ _ _ R l I) as (l' & I').
  pose proof (db_inv_on_list _ _ _ I') as On. split; [|split].
  - intros pp Hp. apply (inv_free _ _ _ I'). now apply On.
  - intros pp Hp Hz. destruct (inv_zero _ _ _ I' pp Hp Hz) as [Hin|Hin].
    + left. now apply On.
    + now right.
  - intros pp Hp. destruct (inv_held _ _ _ I' pp Hp) as (Hz & Hn).
    split; [exact Hz|]. now rewrite On.
Qed.

Lemma example_boot_done : boot_done example_boot.
Proof. unfold boot_done. split; [|split]; vm_compute; discriminate. Qed.

Lemma free_list_tracks_unreferenced_witness :
  exists st1 st held,
    page_init example_boot = Ret tt st1 /\
    db_run 16 st1 [] [CallAlloc; CallDecref 0] st held /\
    (forall pp, on_free_list st pp -> pp_ref (pages st pp) = 0) /\
    (forall pp, 0 <= pp < npage st -> pp_ref (pages st pp) = 0 ->
                on_free_list st pp \/ In pp held) /\
    (forall pp, In pp held -> pp_ref (pages st pp) = 0 /\ ~ on_free_list st pp).
Proof.
  destruct (free_list_tracks_unreferenced 16 example_boot example_boot_done)
    as (st1 & E & H).
  assert (E' := E). vm_compute in E'. injection E' as E'.
  assert (R : exists st held, db_run 16 st1 [] [CallAlloc; CallDecref 0] st held).
  { rewrite <- E'. eexists. eexists.
    eapply run_alloc_ok; [vm_compute; reflexivity|].
    eapply run_decref; [vm_compute; reflexivity|vm_compute; reflexivity|].
    apply run_done. }
  destruct R as (st & held & R).
  exists st1, st, held. split; [exact E|]. split; [exact R|]. exact (H _ _ _ R).
Defined.

(** C1 as stated fails on the code in three ways: page_alloc hands out a
    frame whose count is still 0 (frame 279 is then unreferenced and off the
    list); page_decref at count 0 wraps the count of a frame that stays on
    the list; page_free of a frame that is already on the list ties the list
    into a loop and loses the other free frames (frame 278). *)
Lemma free_list_not_exactly_unreferenced :
  exists st1,
    page_init example_boot = Ret tt st1 /\
    (exists st, db_run_any 16 st1 [CallAlloc] st /\ ~ free_iff_unreferenced st) /\
    (exists st, db_run_any 16 st1 [CallDecref 279] st /\ ~ free_iff_unreferenced st) /\
    (exists st, db_run_any 16 st1 [CallFree 279] st /\ ~ free_iff_unreferenced st).
Proof.
  destruct (page_init_inv example_boot example_boot_done) as (st1 & l & E & I & Np & Hl).
  change (first_free_ppn example_boot) with 272 in Hl.
  change (npage example_boot) with 280 in *.
  change (Z.to_nat (280 - 272)) with 8%nat in Hl.
  set (l' := tl l).
  assert (Hl' : l = 279 :: l') by (unfold l'; rewrite Hl; reflexivity).
  assert (H278 : In 278 l') by (unfold l'; rewrite Hl; cbn; auto).
  pose proof (db_inv_on_list _ _ _ I) as On.
  pose proof (inv_chain _ _ _ I) as Hc. rewrite Hl' in Hc. cbn in Hc.
  destruct Hc as (Hh & Hp & _).
  assert (Z279 : pp_ref (pages st1 279) = 0).
  { apply (inv_free _ _ _ I). rewrite Hl'. now left. }
  assert (Z278 : pp_ref (pages st1 278) = 0).
  { apply (inv_free _ _ _ I). rewrite Hl'. now right. }
  exists st1. split; [exact E|]. split; [|split].
  - destruct (page_alloc_head st1 279 Hh Hp) as (st & Ea & _).
    exists st. split; [eapply any_alloc; [exact Ea|apply any_done]|].
    destruct (db_inv_alloc _ _ _ _ _ I Ea) as [(Hn & _)|(h & t & Hht & Hr & I' & Np')].
    + congruence.
    + injection Hr as <-. intros F.
      destruct (inv_held _ _ _ I' 279 (or_introl eq_refl)) as (Hz & Hn).
      apply Hn. apply (db_inv_on_list _ _ _ I'). apply F; [lia|exact Hz].
  - exists (with_ref st1 279 65535). split.
    + eapply any_decref; [|apply any_done]. rewrite page_decref_unfold, Z279.
      reflexivity.
    + intros F.
      assert (R : on_free_list (with_ref st1 279 65535) 279).
      { unfold on_free_list. apply reaches_ext with (pg := pages st1).
        - intros j. apply with_ref_links.
        - apply On. rewrite Hl'. now left. }
      apply F in R; [|cbn; lia]. rewrite with_ref_same in R. discriminate R.
  - destruct (LIST_INSERT_HEAD_spec 279 st1) as (st & Ei & (_ & Gn & _) & _ & _ & Gh & Ge & _).
    exists st. split.
    + eapply any_free; [|apply any_done]. now rewrite page_free_zero.
    + intros F.
      assert (R : on_free_list st 278).
      { apply F; [lia|]. now rewrite (LIST_INSERT_HEAD_refs _ _ _ Ei). }
      unfold on_free_list in R. rewrite Gh in R.
      apply reaches_self_loop in R; [discriminate R|]. rewrite Ge, Hh. reflexivity.
Qed.

(** ** Bits of page-table entries *)

Lemma testbit_small (x k n : Z) :
  0 <= x < 2 ^ k -> 0 <= k <= n -> Z.testbit x n = false.
Proof.
  intros Hx Hk. rewrite <- (Z.mod_small x (2 ^ k)) by assumption.
  apply Z.mod_pow2_bits_high. lia.
Qed.

Lemma page2pa_small (pp : Z) : 0 <= pp < 2 ^ 20 -> page2pa pp = pp * PGSIZE.
Proof.
  intros H. unfold page2pa, page2ppn, u32, PGSHIFT, PGSIZE.
  rewrite Z.shiftl_mul_pow2 by lia. change (2 ^ 12) with 4096.
  apply Z.mod_small. change (2 ^ 20) with 1048576 in H.
  change (2 ^ 32) with 4294967296. lia.
Qed.

Lemma PPN_page2pa (pp : Z) : 0 <= pp < 2 ^ 20 -> PPN (page2pa pp) = pp.
Proof.
  intros H. rewrite page2pa_small by assumption. unfold PPN, PTXSHIFT, PGSIZE.
  rewrite Z.shiftr_div_pow2 by lia. change (2 ^ 12) with 4096.
  apply Z.div_mul. lia.
Qed.

Lemma PTE_ADDR_spec (x n : Z) :
  0 <= n ->
  Z.testbit (PTE_ADDR x) n = Z.testbit x n && (12 <=? n) && (n <? 32).
Proof.
  intros Hn. unfold PTE_ADDR. rewrite Z.land_spec.
  change 0xFFFFF000 with (Z.shiftl (Z.ones 20) 12).
  rewrite Z.shiftl_spec by assumption. rewrite <- andb_assoc. f_equal.
  destruct (Z.leb_spec 12 n) as [H12|H12]; cbn [andb].
  - rewrite Z.testbit_ones by lia.
    destruct (Z.leb_spec 0 (n - 12)), (Z.ltb_spec (n - 12) 20), (Z.ltb_spec n 32);
      cbn; try reflexivity; lia.
  - apply Z.testbit_neg_r. lia.
Qed.

Lemma PTE_ADDR_page2pa_flags (pp f : Z) :
  0 <= pp < 2 ^ 20 -> 0 <= f < PGSIZE ->
  PTE_ADDR (Z.lor (page2pa pp) f) = page2pa pp.
Proof.
  intros Hp Hf. rewrite page2pa_small by assumption.
  apply Z.bits_inj'. intros n Hn. rewrite PTE_ADDR_spec, Z.lor_spec by assumption.
  unfold PGSIZE in *. change 4096 with (2 ^ 12) in *.
  rewrite Z.mul_pow2_bits by lia.
  destruct (Z.leb_spec 12 n) as [H12|H12], (Z.ltb_spec n 32) as [H32|H32]; cbn [andb].
  - rewrite (testbit_small f 12 n) by lia. now rewrite orb_false_r, !andb_true_r.
  - rewrite (testbit_small f 12 n), (testbit_small pp 20 (n - 12)) by lia. reflexivity.
  - rewrite Z.testbit_neg_r by lia. now rewrite andb_true_r, andb_false_r.
  - lia.
Qed.

Lemma lor_flags3 (x a b c : Z) :
  Z.lor (Z.lor (Z.lor x a) b) c = Z.lor x (Z.lor (Z.lor a b) c).
Proof. now rewrite !Z.lor_assoc. Qed.

Lemma u32_small (x : Z) : 0 <= x < 2 ^ 32 -> u32 x = x.
Proof. intros H. unfold u32. now apply Z.mod_small. Qed.

Lemma flags_PWU_small : 0 <= Z.lor (Z.lor PTE_P PTE_W) PTE_U < PGSIZE.
Proof. cbv. split; [discriminate|reflexivity]. Qed.

Lemma PTE_ADDR_lor (a b : Z) :
  PTE_ADDR (Z.lor a b) = Z.lor (PTE_ADDR a) (PTE_ADDR b).
Proof. unfold PTE_ADDR. apply Z.land_lor_distr_l. Qed.

Lemma PTE_ADDR_flags (f : Z) : 0 <= f < PGSIZE -> PTE_ADDR f = 0.
Proof.
  intros H. apply Z.bits_inj'. intros n Hn. rewrite PTE_ADDR_spec by assumption.
  rewrite Z.bits_0. destruct (Z.leb_spec 12 n) as [H12|H12].
  - rewrite (testbit_small f 12 n); [reflexivity|exact H|lia].
  - now rewrite andb_false_r.
Qed.

Lemma page2pa_PPN_PTE_ADDR (x : Z) : page2pa (PPN (PTE_ADDR x)) = PTE_ADDR x.
Proof.
  unfold page2pa, page2ppn, u32, PPN, PGSHIFT, PTXSHIFT.
  apply Z.bits_inj'. intros n Hn.
  rewrite Z.testbit_mod_pow2, Z.shiftl_spec by lia.
  destruct (Z.leb_spec 12 n) as [H12|H12].
  - rewrite Z.shiftr_spec by lia. replace (n - 12 + 12) with n by lia.
    rewrite PTE_ADDR_spec by assumption.
    destruct (n <? 32); [reflexivity|now rewrite andb_false_r].
  - rewrite Z.testbit_neg_r by lia. rewrite PTE_ADDR_spec by assumption.
    destruct (Z.leb_spec 12 n); [lia|]. now rewrite andb_false_r, andb_false_r.
Qed.

(** ** The walkers, path by path *)

Lemma KADDR_ok (pa : Z) (st : State) :
  PPN pa < npage st -> KADDR pa st = Ret (u32 (pa + KERNBASE)) st.
Proof.
  intros H. cbv [KADDR bind gets].
  destruct (Z.leb_spec (npage st) (PPN pa)); [lia|reflexivity].
Qed.

Lemma pa2page_ok (pa : Z) (st : State) :
  PPN pa < npage st -> pa2page pa st = Ret (PPN pa) st.
Proof.
  intros H. cbv [pa2page bind gets].
  destruct (Z.leb_spec (npage st) (PPN pa)); [lia|reflexivity].
Qed.

Lemma pgdir_walk_leaf (st : State) (pgdir va create pte : Z) :
  leaf_of st pgdir va = Some pte -> pgdir_walk pgdir va create st = Ret pte st.
Proof.
  unfold leaf_of, pgdir_walk. cbv zeta. intros H. kstep_refl. cbv beta.
  destruct (has_flag (mem st (entry pgdir (PDX va))) PTE_P); [|discriminate].
  destruct (has_flag (mem st (entry pgdir (PDX va))) PTE_PS).
  - now injection H as <-.
  - destruct (Z.ltb_spec (PPN (PTE_ADDR (mem st (entry pgdir (PDX va))))) (npage st));
      [|discriminate].
    injection H as <-. now rewrite (bind_Ret _ _ _ _ _ (KADDR_ok _ _ H0)).
Qed.

Lemma boot_pgdir_walk_leaf (kernel_end : Z) (st : State) (pgdir la create pte : Z) :
  leaf_of st pgdir la = Some pte ->
  boot_pgdir_walk kernel_end pgdir la create st = Ret pte st.
Proof.
  unfold leaf_of, boot_pgdir_walk. cbv zeta. intros H. kstep_refl. cbv beta.
  destruct (has_flag (mem st (entry pgdir (PDX la))) PTE_P); [|discriminate].
  destruct (has_flag (mem st (entry pgdir (PDX la))) PTE_PS).
  - now injection H as <-.
  - destruct (Z.ltb_spec (PPN (PTE_ADDR (mem st (entry pgdir (PDX la))))) (npage st));
      [|discriminate].
    injection H as <-. now rewrite (bind_Ret _ _ _ _ _ (KADDR_ok _ _ H0)).
Qed.

Lemma pgdir_walk_absent (st : State) (pgdir va create : Z) :
  has_flag (mem st (entry pgdir (PDX va))) PTE_P = false ->
  pgdir_walk pgdir va create st =
  if create =? 0 then Ret NULL st
  else if create =? 2 then
    if negb (JPGOFF va =? 0)
    then Panic "Attempting to find a Jumbo PTE at an unaligned VA!"
    else Ret (entry pgdir (PDX va))
             (with_mem st (upd (mem st) (entry pgdir (PDX va)) (Z.lor PTE_PS PTE_P)))
  else
    (r <- page_alloc ;;
     match r with
     | (0, Some new_table) =>
         set_pp_ref new_table 1 ;;
         kva <- page2kva new_table ;;
         memset kva 0 PGSIZE ;;
         store (entry pgdir (PDX va))
           (Z.lor (Z.lor (Z.lor (page2pa new_table) PTE_P) PTE_W) PTE_U) ;;
         pde' <- load (entry pgdir (PDX va)) ;;
         t <- KADDR (PTE_ADDR pde') ;;
         ret (entry t (PTX va))
     | _ => ret NULL
     end) st.
Proof.
  intros H. unfold pgdir_walk. cbv zeta. kstep_refl. cbv beta. rewrite H.
  destruct (create =? 0); [reflexivity|].
  destruct (create =? 2); [|reflexivity].
  destruct (negb (JPGOFF va =? 0)); reflexivity.
Qed.

Lemma boot_pgdir_walk_absent_jumbo (kernel_end : Z) (st : State) (pgdir la : Z) :
  has_flag (mem st (entry pgdir (PDX la))) PTE_P = false ->
  boot_pgdir_walk kernel_end pgdir la 2 st =
  if negb (JPGOFF la =? 0)
  then Panic "Attempting to find a Jumbo PTE at an unaligned VA!"
  else Ret (entry pgdir (PDX la))
           (with_mem st (upd (mem st) (entry pgdir (PDX la)) (Z.lor PTE_PS PTE_P))).
Proof.
  intros H. unfold boot_pgdir_walk. cbv zeta. kstep_refl. cbv beta. rewrite H.
  change (2 =? 0) with false. change (2 =? 2) with true. cbv iota.
  destruct (negb (JPGOFF la =? 0)); reflexivity.
Qed.

Lemma pgdir_walk_no_memory (st : State) (pgdir va : Z) :
  has_flag (mem st (entry pgdir (PDX va))) PTE_P = false ->
  page_free_list st = None ->
  pgdir_walk pgdir va 1 st = Ret NULL st.
Proof.
  intros H Hf. rewrite pgdir_walk_absent by assumption.
  change (1 =? 0) with false. change (1 =? 2) with false. cbv iota.
  now rewrite (bind_Ret _ _ _ _ _ (page_alloc_empty st Hf)).
Qed.

Lemma pgdir_walk_new_table (st : State) (pgdir va h : Z) :
  has_flag (mem st (entry pgdir (PDX va))) PTE_P = false ->
  page_free_list st = Some h -> le_prev (pages st h) = LinkHead ->
  0 <= h < npage st -> npage st <= 2 ^ 20 ->
  exists sa,
    page_alloc st = Ret (0, Some h) sa /\
    pgdir_walk pgdir va 1 st =
    Ret (entry (u32 (page2pa h + KERNBASE)) (PTX va))
        (with_mem (with_ref sa h 1)
           (upd (fill (mem st) (u32 (page2pa h + KERNBASE)) PGSIZE 0)
                (entry pgdir (PDX va))
                (Z.lor (Z.lor (Z.lor (page2pa h) PTE_P) PTE_W) PTE_U))).
Proof.
  intros H Hf Hp Hh Hn.
  destruct (page_alloc_head st h Hf Hp) as (sa & Ea & _ & _ & (_ & Gn & _) & Gm & _).
  exists sa. split; [exact Ea|].
  rewrite pgdir_walk_absent by assumption.
  change (1 =? 0) with false. change (1 =? 2) with false. cbv iota.
  kstep Ea. cbv beta iota. kstep (set_pp_ref_eq h 1 sa).
  assert (Hh20 : 0 <= h < 2 ^ 20) by lia.
  assert (Ek : page2kva h (with_ref sa h 1) =
               Ret (u32 (page2pa h + KERNBASE)) (with_ref sa h 1)).
  { unfold page2kva. apply KADDR_ok. rewrite PPN_page2pa by assumption.
    cbn [npage with_ref]. lia. }
  kstep Ek. kstep_refl. kstep_refl. kstep_refl. cbv beta.
  cbn [mem]. rewrite upd_same, lor_flags3.
  rewrite PTE_ADDR_page2pa_flags by (assumption || exact flags_PWU_small).
  erewrite bind_Ret; [|apply KADDR_ok; rewrite PPN_page2pa by assumption; cbn; lia].
  unfold ret, with_mem.
  cbn [maxpa npage boot_freemem pages page_free_list mem tlb_flushed with_ref].
  rewrite Gm. reflexivity.
Qed.

(** ** Lookup and removal *)

Lemma on_free_list_ext (st st' : State) :
  page_free_list st' = page_free_list st ->
  (forall j, le_next (pages st' j) = le_next (pages st j)) ->
  forall pp, on_free_list st' pp <-> on_free_list st pp.
Proof.
  intros Hh Hl pp. unfold on_free_list. rewrite Hh. split; apply reaches_ext.
  - intros j. now rewrite Hl.
  - exact Hl.
Qed.

Lemma maps_ext (st st' : State) (pgdir va pte pp : Z) :
  mem st' = mem st -> npage st' = npage st ->
  maps st pgdir va pte pp -> maps st' pgdir va pte pp.
Proof.
  unfold maps, leaf_of. intros -> ->. exact (fun H => H).
Qed.

Lemma page_lookup_maps (st : State) (pgdir va pte pp : Z) :
  maps st pgdir va pte pp ->
  page_lookup pgdir va st = Ret (Some (pp, pte)) st.
Proof.
  intros (Hl & Hn & Hp & Hf & Hr). unfold page_lookup.
  kstep (pgdir_walk_leaf st pgdir va 0 pte Hl).
  destruct (Z.eqb_spec pte NULL); [contradiction|].
  kstep_refl. cbv beta. rewrite Hp. cbn [negb].
  subst pp. now kstep (pa2page_ok _ _ Hr).
Qed.

Lemma page_lookup_unmapped (st : State) (pgdir va : Z) :
  unmapped st pgdir va -> page_lookup pgdir va st = Ret None st.
Proof.
  intros [Ha|(_ & pte & Hl & Hp)]; unfold page_lookup.
  - rewrite (bind_Ret _ _ st NULL st); [reflexivity|].
    now rewrite pgdir_walk_absent.
  - kstep (pgdir_walk_leaf st pgdir va 0 pte Hl).
    destruct (pte =? NULL); [reflexivity|].
    kstep_refl. cbv beta. now rewrite Hp.
Qed.

Lemma page_remove_unmapped (w : Z) (st : State) (pgdir va : Z) :
  unmapped st pgdir va -> page_remove w pgdir va st = Ret tt st.
Proof.
  intros H. unfold page_remove. now kstep (page_lookup_unmapped _ _ _ H).
Qed.

Lemma page_remove_maps (w : Z) (st : State) (pgdir va pte pp : Z) :
  maps st pgdir va pte pp ->
  page_remove w pgdir va st =
  page_decref w pp (with_flush (with_mem st (upd (mem st) pte 0)) va).
Proof.
  intros H. unfold page_remove. kstep (page_lookup_maps _ _ _ _ _ H).
  cbv beta iota. kstep_refl. now kstep_refl.
Qed.

Lemma page_decref_effect (w pp : Z) (st : State) :
  0 < w -> 0 <= pp_ref (pages st pp) < 2 ^ w ->
  exists st',
    page_decref w pp st = Ret tt st' /\
    same_globals st st' /\ mem st' = mem st /\ tlb_flushed st' = tlb_flushed st /\
    pp_ref (pages st' pp) = ref_wrap w (pp_ref (pages st pp) - 1) /\
    (forall j, j <> pp -> pp_ref (pages st' j) = pp_ref (pages st j)) /\
    (pp_ref (pages st pp) = 1 ->
       page_free_list st' = Some pp /\ on_free_list st' pp /\
       le_next (pages st' pp) = page_free_list st) /\
    (pp_ref (pages st pp) <> 1 ->
       st' = with_ref st pp (ref_wrap w (pp_ref (pages st pp) - 1)) /\
       page_free_list st' = page_free_list st /\
       (forall j, on_free_list st' j <-> on_free_list st j)).
Proof.
  intros Hw Hr. pose proof (ref_dec_zero w _ Hw Hr) as Hz.
  rewrite page_decref_unfold. cbv zeta.
  set (r := ref_wrap w (pp_ref (pages st pp) - 1)) in *.
  destruct (Z.eqb_spec r 0) as [E|E].
  - destruct (LIST_INSERT_HEAD_spec pp (with_ref st pp r))
      as (s & Ei & G & Gm & Gt & Gh & Ge & Go).
    pose proof (LIST_INSERT_HEAD_refs _ _ _ Ei) as Gr.
    exists s. split; [exact Ei|]. split; [exact G|].
    split; [exact Gm|]. split; [exact Gt|]. split; [|split; [|split]].
    + now rewrite Gr, with_ref_same.
    + intros j Hj. now rewrite Gr, with_ref_other.
    + intros _. split; [exact Gh|]. split.
      * unfold on_free_list. rewrite Gh. constructor.
      * now rewrite Ge.
    + intros N. apply Hz in E. contradiction.
  - exists (with_ref st pp r). split; [reflexivity|]. split; [now repeat split|].
    split; [reflexivity|]. split; [reflexivity|]. split; [|split; [|split]].
    + now rewrite with_ref_same.
    + intros j Hj. now rewrite with_ref_other.
    + intros H1. apply Hz in H1. contradiction.
    + intros _. split; [reflexivity|]. split; [reflexivity|].
      apply on_free_list_ext; [reflexivity|]. intros j. apply with_ref_links.
Qed.

Lemma LIST_REMOVE_no_panic (elm : Z) (st : State) (msg : string) :
  LIST_REMOVE elm st <> Panic msg.
Proof.
  kern_unfold. destruct (le_next (pages st elm)) as [n|]; cbn.
  - destruct (le_prev (upd (pages st) n _ elm)); discriminate.
  - destruct (le_prev (pages st elm)); discriminate.
Qed.

(** ** Claim C7: page_alloc *)

(** C7.  With an empty free list page_alloc returns -E_NO_MEM and leaves the
    whole state as it was.  With a non-empty, well-linked list (the head's
    back link points at the list head) it returns 0 and the head frame, the
    list now starts at the head's successor, the frame's descriptor is reset
    to count 0 with null links, and no other count, nor memory, changes.  It
    never panics. *)
Theorem page_alloc_exhausted_or_pops (st : State) :
  (page_free_list st = None -> page_alloc st = Ret (- E_NO_MEM, None) st) /\
  (forall h, page_free_list st = Some h -> le_prev (pages st h) = LinkHead ->
     exists st',
       page_alloc st = Ret (0, Some h) st' /\
       page_free_list st' = le_next (pages st h) /\
       pages st' h = mkPage None LinkNull 0 /\
       same_globals st st' /\ mem st' = mem st /\
       tlb_flushed st' = tlb_flushed st /\
       (forall j, j <> h -> pp_ref (pages st' j) = pp_ref (pages st j) /\
                            le_next (pages st' j) = le_next (pages st j))) /\
  (forall msg, page_alloc st <> Panic msg).
Proof.
  split; [apply page_alloc_empty|]. split.
  - intros h Hh Hp.
    destruct (page_alloc_head st h Hh Hp) as (s & E & Hf & Hz & G & Hm & Ht & Ho).
    exists s. repeat (split; [assumption|]). intros j Hj. rewrite (Ho j Hj).
    destruct (match le_next (pages st h) with Some n => j =? n | None => false end);
      now split.
  - intros msg.
    cbv [page_alloc bind LIST_EMPTY LIST_FIRST gets ret fault page_initpp set_page modify].
    destruct (page_free_list st) as [h|] eqn:Hh; [|discriminate].
    cbv beta iota. rewrite Hh.
    pose proof (LIST_REMOVE_no_panic h st) as Hn.
    destruct (LIST_REMOVE h st) as [[] s|m|]; [discriminate| |discriminate].
    now elim (Hn m).
Qed.

Lemma page_alloc_exhausted_or_pops_witness :
  page_alloc example_exhausted = Ret (- E_NO_MEM, None) example_exhausted /\
  exists st',
    page_alloc example_mapped = Ret (0, Some 700) st' /\
    page_free_list st' = Some 701 /\
    pages st' 700 = mkPage None LinkNull 0.
Proof.
  split.
  - apply (proj1 (page_alloc_exhausted_or_pops example_exhausted)). reflexivity.
  - destruct (proj1 (proj2 (page_alloc_exhausted_or_pops example_mapped)) 700)
      as (st' & E & Hh & Hp & _); [reflexivity|reflexivity|].
    exists st'. split; [exact E|]. split; [exact Hh|exact Hp].
Defined.

(** ** Claim C9: page_decref *)

(** C9.  For a [w]-bit count, page_decref never traps; the new count is the
    old one minus 1 modulo 2^w; the frame is freed (pushed at the head of the
    free list) exactly when the old count is 1; and at an old count of 0 the
    count wraps to 2^w - 1 and the frame is not freed: the free list is left
    as it was. *)
Theorem page_decref_frees_at_one_wraps_at_zero (w pp : Z) (st : State) :
  0 < w -> 0 <= pp_ref (pages st pp) < 2 ^ w ->
  exists st',
    page_decref w pp st = Ret tt st' /\
    pp_ref (pages st' pp) = (pp_ref (pages st pp) - 1) mod 2 ^ w /\
    (pp_ref (pages st pp) = 1 ->
       page_free pp (with_ref st pp 0) = Ret tt st' /\
       page_free_list st' = Some pp /\ on_free_list st' pp) /\
    (pp_ref (pages st pp) <> 1 ->
       st' = with_ref st pp ((pp_ref (pages st pp) - 1) mod 2 ^ w) /\
       page_free_list st' = page_free_list st /\
       (forall j, on_free_list st' j <-> on_free_list st j)) /\
    (pp_ref (pages st pp) = 0 ->
       pp_ref (pages st' pp) = 2 ^ w - 1 /\ pp_ref (pages st' pp) <> 0).
Proof.
  intros Hw Hr. pose proof (pow2_ge2 w Hw) as Hp.
  destruct (page_decref_effect w pp st Hw Hr)
    as (s & E & _ & _ & _ & Hn & _ & H1 & Hn1).
  exists s. split; [exact E|]. split; [exact Hn|]. split; [|split].
  - intros R1. destruct (H1 R1) as (Hh & Ho & _). split; [|now split].
    rewrite <- E, page_decref_unfold, R1. cbv zeta.
    unfold ref_wrap. rewrite Z.sub_diag, Z.mod_0_l by lia. cbn [Z.eqb].
    apply page_free_zero. now rewrite with_ref_same.
  - exact Hn1.
  - intros R0. rewrite Hn, R0. fold (ref_wrap w (0 - 1)).
    rewrite ref_dec_wrap by assumption. split; lia.
Qed.

Lemma page_decref_frees_at_one_wraps_at_zero_witness :
  (exists st', page_decref 16 300 example_mapped = Ret tt st' /\
               pp_ref (pages st' 300) = 0 /\ page_free_list st' = Some 300) /\
  (exists st', page_decref 16 700 example_mapped = Ret tt st' /\
               pp_ref (pages st' 700) = 65535 /\ page_free_list st' = Some 700).
Proof.
  split.
  - destruct (page_decref_frees_at_one_wraps_at_zero 16 300 example_mapped)
      as (st' & E & Hr & H1 & _); [reflexivity|vm_compute; split; [discriminate|reflexivity]|].
    exists st'. split; [exact E|]. split; [exact Hr|].
    apply H1. reflexivity.
  - destruct (page_decref_frees_at_one_wraps_at_zero 16 700 example_mapped)
      as (st' & E & _ & _ & Hn & H0); [reflexivity|vm_compute; split; [discriminate|reflexivity]|].
    exists st'. split; [exact E|]. split.
    + apply H0. reflexivity.
    + apply Hn. vm_compute. discriminate.
Defined.

(** ** Claim C2: user_mem_check *)

(** C2 does not hold of the code: user_mem_check is a stub that returns 0
    for every request.  Here it accepts a page of the kernel half, which lies
    entirely above ULIM, where its own comment promises -E_FAULT. *)
Theorem user_mem_check_accepts_kernel_range (env : Env) (st : State) :
  ULIM <= example_kernel_va /\
  user_mem_check env example_kernel_va PGSIZE PTE_U st = Ret 0 st /\
  0 <> - E_FAULT.
Proof.
  split; [vm_compute; discriminate|]. split; [reflexivity|discriminate].
Qed.

(** ** Entries written by page_insert *)

Lemma has_flag_P_set (a b : Z) : has_flag (Z.lor (Z.lor a PTE_P) b) PTE_P = true.
Proof.
  unfold has_flag, PTE_P.
  destruct (Z.eqb_spec (Z.land (Z.lor (Z.lor a 1) b) 1) 0) as [E|E]; [|reflexivity].
  assert (H : Z.testbit (Z.land (Z.lor (Z.lor a 1) b) 1) 0 = true).
  { rewrite Z.land_spec, !Z.lor_spec. cbn. now rewrite orb_true_r. }
  rewrite E in H. discriminate H.
Qed.

Lemma PPN_PTE_ADDR_leaf (pp perm : Z) :
  0 <= pp < 2 ^ 20 -> 0 <= perm < PGSIZE ->
  PPN (PTE_ADDR (Z.lor (Z.lor (page2pa pp) PTE_P) (u32 perm))) = pp.
Proof.
  intros Hp Hperm. rewrite !PTE_ADDR_lor.
  rewrite <- (Z.lor_0_r (page2pa pp)) at 1.
  rewrite PTE_ADDR_page2pa_flags by (assumption || (unfold PGSIZE; lia)).
  rewrite (PTE_ADDR_flags PTE_P) by (unfold PTE_P, PGSIZE; lia).
  rewrite u32_small by (unfold PGSIZE in Hperm; lia).
  rewrite (PTE_ADDR_flags perm) by assumption.
  rewrite !Z.lor_0_r. now apply PPN_page2pa.
Qed.

Lemma leaf_of_ext (st st' : State) (pgdir va : Z) :
  mem st' (entry pgdir (PDX va)) = mem st (entry pgdir (PDX va)) ->
  npage st' = npage st ->
  leaf_of st' pgdir va = leaf_of st pgdir va.
Proof. unfold leaf_of. now intros -> ->. Qed.

Lemma PTE_ADDR_div (x : Z) : PTE_ADDR x = x mod 2 ^ 32 / PGSIZE * PGSIZE.
Proof.
  unfold PGSIZE. change 4096 with (2 ^ 12).
  rewrite <- Z.shiftr_div_pow2, <- Z.shiftl_mul_pow2 by lia.
  apply Z.bits_inj'. intros n Hn. rewrite PTE_ADDR_spec by assumption.
  rewrite Z.shiftl_spec by assumption.
  destruct (Z.leb_spec 12 n) as [H12|H12].
  - rewrite Z.shiftr_spec by lia. replace (n - 12 + 12) with n by lia.
    rewrite Z.testbit_mod_pow2 by lia.
    destruct (n <? 32), (Z.testbit x n); reflexivity.
  - rewrite (Z.testbit_neg_r _ (n - 12)) by lia. now rewrite andb_false_r.
Qed.

Lemma store_eq (a v : Z) (st : State) :
  store a v st = Ret tt (with_mem st (upd (mem st) a v)).
Proof. reflexivity. Qed.

Lemma PPN_PTE_ADDR_range (x : Z) : 0 <= PPN (PTE_ADDR x) < 2 ^ 20.
Proof.
  rewrite PTE_ADDR_div. unfold PPN, PTXSHIFT, PGSIZE.
  rewrite Z.shiftr_div_pow2 by lia. change (2 ^ 12) with 4096.
  rewrite Z.div_mul by lia.
  assert (0 <= x mod 2 ^ 32 < 2 ^ 32) by (apply Z.mod_pos_bound; reflexivity).
  change (2 ^ 32) with 4294967296 in *. change (2 ^ 20) with 1048576.
  Z.div_mod_to_equations. lia.
Qed.

(** A second-level entry rewritten for frame [pp] maps it. *)
Lemma maps_after_write (st st' : State) (pgdir va pte pp perm : Z) :
  leaf_of st pgdir va = Some pte -> pte <> NULL ->
  npage st' = npage st ->
  mem st' (entry pgdir (PDX va)) = mem st (entry pgdir (PDX va)) ->
  mem st' pte = Z.lor (Z.lor (page2pa pp) PTE_P) (u32 perm) ->
  0 <= pp < npage st -> pp < 2 ^ 20 -> 0 <= perm < PGSIZE ->
  maps st' pgdir va pte pp.
Proof.
  intros Hl Hn Np Hs Hm Hpp H20 Hperm. unfold maps.
  split; [rewrite <- Hl; now apply leaf_of_ext|].
  split; [exact Hn|]. rewrite Hm.
  split; [apply has_flag_P_set|].
  split; [apply PPN_PTE_ADDR_leaf; (assumption || lia)|lia].
Qed.

(** ** Claim C4: page_remove *)

(** C4.  Where nothing is mapped at [va], page_remove returns with the state
    untouched: no count, no table entry and no TLB entry changes.  Where the
    entry at [pte] maps frame [pp], it zeroes that entry and no other word,
    invalidates [va], lowers the count of [pp] by one (modulo 2^w) and of no
    other frame, and frees [pp], at the head of the free list, exactly when
    the count reaches 0. *)
Theorem page_remove_noop_or_unmaps (w pgdir va : Z) (st : State) :
  (unmapped st pgdir va -> page_remove w pgdir va st = Ret tt st) /\
  (forall pte pp,
     maps st pgdir va pte pp -> 0 < w -> 0 <= pp_ref (pages st pp) < 2 ^ w ->
     exists st',
       page_remove w pgdir va st = Ret tt st' /\
       mem st' pte = 0 /\ (forall a, a <> pte -> mem st' a = mem st a) /\
       tlb_flushed st' = va :: tlb_flushed st /\
       pp_ref (pages st' pp) = (pp_ref (pages st pp) - 1) mod 2 ^ w /\
       (forall j, j <> pp -> pp_ref (pages st' j) = pp_ref (pages st j)) /\
       (pp_ref (pages st' pp) = 0 ->
          page_free_list st' = Some pp /\ on_free_list st' pp) /\
       (pp_ref (pages st' pp) <> 0 ->
          page_free_list st' = page_free_list st /\
          forall j, on_free_list st' j <-> on_free_list st j)).
Proof.
  split; [apply page_remove_unmapped|].
  intros pte pp Hm Hw Hr. rewrite (page_remove_maps w _ _ _ _ _ Hm).
  set (s2 := with_flush (with_mem st (upd (mem st) pte 0)) va).
  destruct (page_decref_effect w pp s2 Hw Hr)
    as (s & E & _ & Gm & Gt & Gr & Go & G1 & Gn).
  pose proof (ref_dec_zero w _ Hw Hr) as Hz.
  exists s. split; [exact E|]. rewrite Gm, Gt, Gr. cbn [s2 with_flush with_mem mem tlb_flushed pages].
  split; [apply upd_same|]. split; [intros a Ha; now apply upd_other|].
  split; [reflexivity|]. split; [reflexivity|]. split; [exact Go|]. split.
  - intros H0. apply Hz in H0. destruct (G1 H0) as (A & B & _). now split.
  - intros H0. assert (N1 : pp_ref (pages s2 pp) <> 1) by (intros H1; apply Hz in H1; contradiction).
    destruct (Gn N1) as (_ & A & B). split; [exact A|exact B].
Qed.

Lemma page_remove_noop_or_unmaps_witness :
  page_remove 16 example_pgdir 0 example_mapped = Ret tt example_mapped /\
  exists st',
    page_remove 16 example_pgdir 0x1000 example_mapped = Ret tt st' /\
    mem st' (KERNBASE + 0x201004) = 0 /\
    tlb_flushed st' = [0x1000] /\
    pp_ref (pages st' 300) = 0 /\ page_free_list st' = Some 300.
Proof.
  split.
  - apply (proj1 (page_remove_noop_or_unmaps 16 example_pgdir 0 example_mapped)).
    right. split; [reflexivity|]. exists (KERNBASE + 0x201000). split; reflexivity.
  - destruct (proj2 (page_remove_noop_or_unmaps 16 example_pgdir 0x1000 example_mapped)
                (KERNBASE + 0x201004) 300)
      as (st' & E & Hm & _ & Ht & Hr & _ & H0 & _).
    + unfold maps. split; [reflexivity|]. split; [discriminate|].
      split; [reflexivity|]. split; reflexivity.
    + reflexivity.
    + vm_compute. split; [discriminate|reflexivity].
    + exists st'. split; [exact E|]. split; [exact Hm|]. split; [exact Ht|].
      split; [exact Hr|]. apply H0. exact Hr.
Defined.

(** ** Claim C10: large pages *)

(** C10.  For a present directory entry with the large-page flag,
    page_lookup returns the directory slot and the descriptor of the frame at
    the physical base held in the entry, the first base-page frame of the
    region, whatever the offset of [va] inside the region; page_remove zeroes
    that one directory entry and no other word, invalidates [va], and lowers
    the count of that first frame by one and of no other frame. *)
Theorem large_page_charged_to_first_frame (w pgdir va : Z) (st : State) :
  let slot := entry pgdir (PDX va) in
  let pde := mem st slot in
  let f := PPN (PTE_ADDR pde) in
  has_flag pde PTE_P = true -> has_flag pde PTE_PS = true ->
  slot <> NULL -> f < npage st ->
  0 < w -> 0 <= pp_ref (pages st f) < 2 ^ w ->
  page2pa f = PTE_ADDR pde /\
  page_lookup pgdir va st = Ret (Some (f, slot)) st /\
  exists st',
    page_remove w pgdir va st = Ret tt st' /\
    mem st' slot = 0 /\ (forall a, a <> slot -> mem st' a = mem st a) /\
    tlb_flushed st' = va :: tlb_flushed st /\
    pp_ref (pages st' f) = (pp_ref (pages st f) - 1) mod 2 ^ w /\
    (forall j, j <> f -> pp_ref (pages st' j) = pp_ref (pages st j)).
Proof.
  intros slot pde f HP HPS Hs Hf Hw Hr.
  assert (Hm : maps st pgdir va slot f).
  { unfold maps, leaf_of. cbv zeta. fold slot. fold pde. rewrite HP, HPS.
    repeat split; assumption. }
  split; [apply page2pa_PPN_PTE_ADDR|]. split; [now apply page_lookup_maps|].
  rewrite (page_remove_maps w _ _ _ _ _ Hm).
  set (s2 := with_flush (with_mem st (upd (mem st) slot 0)) va).
  destruct (page_decref_effect w f s2 Hw Hr) as (s & E & _ & Gm & Gt & Gr & Go & _).
  exists s. split; [exact E|]. rewrite Gm, Gt, Gr.
  cbn [s2 with_flush with_mem mem tlb_flushed pages].
  split; [apply upd_same|]. split; [intros a Ha; now apply upd_other|].
  split; [reflexivity|]. split; [reflexivity|exact Go].
Qed.

Lemma large_page_charged_to_first_frame_witness :
  page2pa 1024 = 0x400000 /\
  page_lookup example_pgdir 0x8ABCDE example_mapped =
    Ret (Some (1024, example_pgdir + 8)) example_mapped /\
  exists st',
    page_remove 16 example_pgdir 0x8ABCDE example_mapped = Ret tt st' /\
    mem st' (example_pgdir + 8) = 0 /\
    tlb_flushed st' = [0x8ABCDE] /\
    pp_ref (pages st' 1024) = 0 /\ pp_ref (pages st' 1025) = 0.
Proof.
  destruct (large_page_charged_to_first_frame 16 example_pgdir 0x8ABCDE example_mapped)
    as (Hpa & Hl & st' & E & Hm & _ & Ht & Hr & Ho).
  - reflexivity.
  - reflexivity.
  - discriminate.
  - reflexivity.
  - reflexivity.
  - vm_compute. split; [discriminate|reflexivity].
  - split; [reflexivity|]. split; [exact Hl|].
    exists st'. split; [exact E|]. split; [exact Hm|]. split; [exact Ht|].
    split; [exact Hr|]. rewrite Ho; [reflexivity|discriminate].
Defined.

(** ** Claims C3 and C5: page_insert over an existing mapping *)

Lemma page_insert_over (w pgdir pp va perm pte old : Z) (st : State) :
  maps st pgdir va pte old ->
  page_insert w pgdir pp va perm st =
  (page_remove w pgdir va ;;
   store pte (Z.lor (Z.lor (page2pa pp) PTE_P) (u32 perm)) ;;
   ret 0)
    (with_ref st pp (ref_wrap w (pp_ref (pages st pp) + 1))).
Proof.
  intros Hm. destruct Hm as (Hl & Hn & Hp & Hr).
  unfold page_insert. kstep (pgdir_walk_leaf st pgdir va 1 pte Hl).
  destruct (Z.eqb_spec pte NULL); [contradiction|].
  kstep_refl. cbv beta. kstep (set_pp_ref_eq pp (ref_wrap w (pp_ref (pages st pp) + 1)) st).
  kstep_refl. cbv beta. cbn [mem with_ref]. rewrite Hp. reflexivity.
Qed.



(** What page_insert leaves when it replaces the mapping of another frame. *)
Lemma page_insert_replace_effect (w pgdir va perm pte A B : Z) (st : State) :
  maps st pgdir va pte A -> B <> A ->
  0 < w -> 0 <= pp_ref (pages st A) < 2 ^ w ->
  exists st',
    page_insert w pgdir B va perm st = Ret 0 st' /\
    npage st' = npage st /\
    pp_ref (pages st' A) = ref_wrap w (pp_ref (pages st A) - 1) /\
    pp_ref (pages st' B) = ref_wrap w (pp_ref (pages st B) + 1) /\
    (forall j, j <> A -> j <> B -> pp_ref (pages st' j) = pp_ref (pages st j)) /\
    (pp_ref (pages st A) = 1 ->
       page_free_list st' = Some A /\ on_free_list st' A) /\
    (pp_ref (pages st A) <> 1 ->
       page_free_list st' = page_free_list st /\
       forall j, on_free_list st' j <-> on_free_list st j) /\
    mem st' pte = Z.lor (Z.lor (page2pa B) PTE_P) (u32 perm) /\
    (forall a, a <> pte -> mem st' a = mem st a) /\
    tlb_flushed st' = va :: tlb_flushed st.
Proof.
  intros Hm HAB Hw HrA.
  rewrite (page_insert_over w _ _ _ _ _ _ _ Hm).
  set (s1 := with_ref st B (ref_wrap w (pp_ref (pages st B) + 1))).
  assert (Hm1 : maps s1 pgdir va pte A) by (revert Hm; now apply maps_ext).
  set (s2 := with_flush (with_mem s1 (upd (mem s1) pte 0)) va).
  assert (EA : pp_ref (pages s2 A) = pp_ref (pages st A)).
  { cbn [s2 with_flush with_mem pages]. unfold s1. now rewrite with_ref_other. }
  assert (HrA2 : 0 <= pp_ref (pages s2 A) < 2 ^ w) by lia.
  destruct (page_decref_effect w A s2 Hw HrA2)
    as (s & E & (_ & Gnp & _) & Gm & Gt & Gr & Go & G1 & Gn).
  assert (Erem : page_remove w pgdir va s1 = Ret tt s).
  { now rewrite (page_remove_maps w _ _ _ _ _ Hm1). }
  set (e := Z.lor (Z.lor (page2pa B) PTE_P) (u32 perm)).
  exists (with_mem s (upd (mem s) pte e)).
  split; [kstep Erem; kstep_refl; reflexivity|].
  cbn [pages page_free_list mem tlb_flushed npage with_mem]. unfold on_free_list.
  cbn [pages page_free_list with_mem]. fold (on_free_list s A).
  split; [exact Gnp|].
  split; [rewrite Gr, EA; reflexivity|].
  split.
  { rewrite Go by assumption. cbn [s2 with_flush with_mem pages]. unfold s1.
    rewrite with_ref_same. reflexivity. }
  split.
  { intros j HjA HjB. rewrite Go by assumption.
    cbn [s2 with_flush with_mem pages]. unfold s1. now rewrite with_ref_other. }
  split.
  { intros H1. rewrite <- EA in H1. destruct (G1 H1) as (X & Y & _). now split. }
  split.
  { intros H1. rewrite <- EA in H1. destruct (Gn H1) as (_ & X & Y).
    split; [exact X|]. intros j. fold (on_free_list s j). rewrite Y.
    apply on_free_list_ext; [reflexivity|]. intros i.
    cbn [s2 with_flush with_mem pages]. apply with_ref_links. }
  split; [apply upd_same|].
  split.
  { intros a Ha. rewrite upd_other by assumption. rewrite Gm.
    cbn [s2 with_flush with_mem mem s1 with_ref]. now apply upd_other. }
  rewrite Gt. reflexivity.
Qed.



(** ** Claim C6: a missing second-level table *)

(** C6.  For a directory entry that is not present, pgdir_walk with create
    mode 1 takes the head frame [h] of the free list through page_alloc,
    gives it count 1, zero-fills its page, installs h's address with
    PTE_P | PTE_W | PTE_U in the directory, changes no other word, and returns
    the slot of [va] in the new table.  With an empty free list it returns
    NULL and page_insert returns -E_NO_MEM, neither panicking, both leaving
    the whole state (counts and tables) as it was. *)
Theorem pgdir_walk_new_table_or_no_memory (w pgdir va : Z) (st : State) :
  has_flag (mem st (entry pgdir (PDX va))) PTE_P = false ->
  (forall h,
     page_free_list st = Some h -> le_prev (pages st h) = LinkHead ->
     0 <= h < npage st -> npage st <= 2 ^ 20 ->
     let kva := u32 (page2pa h + KERNBASE) in
     exists sa st',
       page_alloc st = Ret (0, Some h) sa /\
       pgdir_walk pgdir va 1 st = Ret (entry kva (PTX va)) st' /\
       pages st' h = mkPage None LinkNull 1 /\
       page_free_list st' = le_next (pages st h) /\
       mem st' (entry pgdir (PDX va)) =
         Z.lor (Z.lor (Z.lor (page2pa h) PTE_P) PTE_W) PTE_U /\
       (forall a, a <> entry pgdir (PDX va) ->
          mem st' a = if (kva <=? a) && (a <? kva + PGSIZE) then 0 else mem st a)) /\
  (page_free_list st = None ->
     pgdir_walk pgdir va 1 st = Ret NULL st /\
     forall pp perm, page_insert w pgdir pp va perm st = Ret (- E_NO_MEM) st).
Proof.
  intros Ha. split.
  - intros h Hf Hp Hh Hn kva.
    destruct (pgdir_walk_new_table st pgdir va h Ha Hf Hp Hh Hn) as (sa & Ea & Ew).
    destruct (page_alloc_head st h Hf Hp) as (sa' & Ea' & Gh & Gp & _).
    rewrite Ea in Ea'. injection Ea' as <-.
    exists sa. eexists. split; [exact Ea|]. split; [exact Ew|].
    cbn [pages page_free_list mem with_mem with_ref].
    split; [now rewrite upd_same, Gp|]. split; [exact Gh|].
    split; [apply upd_same|]. intros a Hne. now rewrite upd_other.
  - intros Hf. pose proof (pgdir_walk_no_memory st pgdir va Ha Hf) as Ew.
    split; [exact Ew|]. intros pp perm. unfold page_insert. now kstep Ew.
Qed.

Lemma pgdir_walk_new_table_or_no_memory_witness :
  (exists st',
     pgdir_walk example_pgdir 0x1000000 1 example_mapped =
       Ret (KERNBASE + 0x2BC000) st' /\
     pages st' 700 = mkPage None LinkNull 1 /\
     page_free_list st' = Some 701 /\
     mem st' (example_pgdir + 16) = 0x2BC007 /\
     mem st' (KERNBASE + 0x2BC008) = 0) /\
  pgdir_walk example_pgdir 0x1000000 1 example_exhausted = Ret NULL example_exhausted /\
  page_insert 16 example_pgdir 300 0x1000000 PTE_U example_exhausted =
    Ret (- E_NO_MEM) example_exhausted.
Proof.
  split.
  - destruct (proj1 (pgdir_walk_new_table_or_no_memory 16 example_pgdir 0x1000000
                       example_mapped eq_refl) 700)
      as (sa & st' & _ & Ew & Hp & Hf & Hd & Hz).
    + reflexivity.
    + reflexivity.
    + vm_compute. split; [discriminate|reflexivity].
    + vm_compute. discriminate.
    + exists st'. split; [exact Ew|]. split; [exact Hp|]. split; [exact Hf|].
      split; [exact Hd|]. rewrite Hz; [reflexivity|discriminate].
  - destruct (proj2 (pgdir_walk_new_table_or_no_memory 16 example_pgdir 0x1000000
                       example_exhausted eq_refl) eq_refl) as (Ew & Ei).
    split; [exact Ew|apply Ei].
Defined.

(** ** Claim C8: large-page create mode *)

(** C8, as amended.  When the directory entry of [va] is not present, both
    walkers called with create mode 2 panic if [va] is not aligned to the
    large-page size, and at an aligned [va] write PTE_PS | PTE_P into the
    directory slot, change nothing else and return the address of that slot.
    When the directory entry is present they create nothing: they return the
    existing leaf (the directory slot if it is a large page, the second-level
    slot otherwise) and leave the state as it was, aligned or not. *)
Theorem jumbo_walk_creates_only_when_absent (kernel_end pgdir va : Z) (st : State) :
  let slot := entry pgdir (PDX va) in
  let st' := with_mem st (upd (mem st) slot (Z.lor PTE_PS PTE_P)) in
  (has_flag (mem st slot) PTE_P = false ->
     (JPGOFF va <> 0 ->
        (exists msg, pgdir_walk pgdir va 2 st = Panic msg) /\
        (exists msg, boot_pgdir_walk kernel_end pgdir va 2 st = Panic msg)) /\
     (JPGOFF va = 0 ->
        pgdir_walk pgdir va 2 st = Ret slot st' /\
        boot_pgdir_walk kernel_end pgdir va 2 st = Ret slot st' /\
        has_flag (mem st' slot) PTE_PS = true /\
        has_flag (mem st' slot) PTE_P = true)) /\
  (forall pte, leaf_of st pgdir va = Some pte ->
     pgdir_walk pgdir va 2 st = Ret pte st /\
     boot_pgdir_walk kernel_end pgdir va 2 st = Ret pte st).
Proof.
  intros slot st'. split.
  - intros Ha.
    rewrite (pgdir_walk_absent st pgdir va 2 Ha).
    rewrite (boot_pgdir_walk_absent_jumbo kernel_end st pgdir va Ha).
    change (2 =? 0) with false. change (2 =? 2) with true. cbv iota. split.
    + intros Hj. destruct (Z.eqb_spec (JPGOFF va) 0); [contradiction|].
      cbn [negb]. split; eexists; reflexivity.
    + intros Hj. rewrite Hj. cbn [Z.eqb negb].
      split; [reflexivity|]. split; [reflexivity|].
      cbn [st' with_mem mem]. rewrite upd_same. split; reflexivity.
  - intros pte Hl. split.
    + now apply pgdir_walk_leaf.
    + now apply boot_pgdir_walk_leaf.
Qed.

Lemma jumbo_walk_creates_only_when_absent_witness :
  (exists msg, pgdir_walk example_pgdir 0x1000010 2 example_mapped = Panic msg) /\
  (exists st', pgdir_walk example_pgdir 0x1000000 2 example_mapped =
                 Ret (example_pgdir + 16) st' /\
               mem st' (example_pgdir + 16) = 0x81) /\
  pgdir_walk example_pgdir 0x1000 2 example_mapped =
    Ret (KERNBASE + 0x201004) example_mapped.
Proof.
  split; [|split].
  - apply (proj1 (jumbo_walk_creates_only_when_absent 0 example_pgdir 0x1000010
                    example_mapped)); [reflexivity|discriminate].
  - eexists. split.
    + apply (proj1 (jumbo_walk_creates_only_when_absent 0 example_pgdir 0x1000000
                      example_mapped)); reflexivity.
    + reflexivity.
  - apply (proj2 (jumbo_walk_creates_only_when_absent 0 example_pgdir 0x1000
                    example_mapped)). reflexivity.
Defined.

(** C8 as stated fails on the code: with the directory entry of the address
    already present, a walk in create mode 2 at the unaligned address 0x1000
    does not panic, and at the aligned address 0 it installs nothing and
    returns a second-level slot, not the directory slot. *)
Lemma jumbo_walk_ignores_mode_when_present :
  JPGOFF 0x1000 <> 0 /\
  pgdir_walk example_pgdir 0x1000 2 example_mapped =
    Ret (KERNBASE + 0x201004) example_mapped /\
  boot_pgdir_walk 0 example_pgdir 0x1000 2 example_mapped =
    Ret (KERNBASE + 0x201004) example_mapped /\
  JPGOFF 0 = 0 /\
  pgdir_walk example_pgdir 0 2 example_mapped =
    Ret (KERNBASE + 0x201000) example_mapped /\
  KERNBASE + 0x201000 <> entry example_pgdir (PDX 0) /\
  has_flag (mem example_mapped (entry example_pgdir (PDX 0))) PTE_PS = false.
Proof.
  split; [discriminate|].
  split; [now apply pgdir_walk_leaf|].
  split; [now apply boot_pgdir_walk_leaf|].
  split; [reflexivity|].
  split; [now apply pgdir_walk_leaf|].
  split; [discriminate|reflexivity].
Qed.

(** ** The kernel's own self-test *)

(** Every assertion of page_check holds on the model: run after page_init on
    the small machine, it returns without a panic, the three frames it took
    are back at the head of the free list, and the addresses 0 and PGSIZE
    were each invalidated when their mappings went away. *)
Lemma page_check_succeeded :
  page_check_outcome =
  Some ([277; 278; 279; 276], [PGSIZE; 0; PGSIZE; PGSIZE; 0]).
Proof. vm_compute. reflexivity. Qed.

(** * Further properties of the code *)

(** ** Memory detection *)

Lemma lor_lt_pow2 (a b n : Z) :
  0 <= n -> 0 <= a < 2 ^ n -> 0 <= b < 2 ^ n -> 0 <= Z.lor a b < 2 ^ n.
Proof.
  intros Hn Ha Hb. split; [apply Z.lor_nonneg; lia|].
  destruct (Z.eq_dec (Z.lor a b) 0) as [->|N]; [lia|].
  assert (0 < Z.lor a b) by (pose proof (proj2 (Z.lor_nonneg a b)); lia).
  apply Z.log2_lt_pow2; [assumption|]. rewrite Z.log2_lor by lia.
  destruct (Z.eq_dec a 0) as [->|Na], (Z.eq_dec b 0) as [->|Nb].
  - cbn in N. contradiction.
  - rewrite Z.max_r by (cbn; apply Z.log2_nonneg). apply Z.log2_lt_pow2; lia.
  - rewrite Z.max_l by (cbn; apply Z.log2_nonneg). apply Z.log2_lt_pow2; lia.
  - apply Z.max_lub_lt; apply Z.log2_lt_pow2; lia.
Qed.

Lemma nvram_read_range (mc : Z -> Z) (r : Z) :
  (forall x, 0 <= mc x < 256) -> 0 <= nvram_read mc r < 65536.
Proof.
  intros H. unfold nvram_read. change 65536 with (2 ^ 16).
  pose proof (H r). pose proof (H (r + 1)).
  apply lor_lt_pow2; [lia|change (2 ^ 16) with 65536; lia|].
  rewrite Z.shiftl_mul_pow2 by lia. change (2 ^ 8) with 256.
  change (2 ^ 16) with 65536. lia.
Qed.

Lemma ROUNDDOWN_spec (a n : Z) :
  0 < n -> 0 <= a ->
  ROUNDDOWN a n mod n = 0 /\ a - n < ROUNDDOWN a n <= a /\ 0 <= ROUNDDOWN a n.
Proof.
  intros Hn Ha. unfold ROUNDDOWN. pose proof (Z.mod_pos_bound a n Hn) as Hm.
  pose proof (Z.mod_le a n Ha Hn) as Hle.
  split; [|lia].
  rewrite (Z.div_mod a n) at 1 by lia.
  replace (n * (a / n) + a mod n - a mod n) with ((a / n) * n) by lia.
  apply Z.mod_mul. lia.
Qed.

(** i386_detect_memory, for any contents of the two CMOS registers: the
    sizes are whole pages, [npage] pages make up exactly [maxpa] bytes, and
    since a register pair counts at most 65535 KB the machine never has more
    than 1MB + 64MB - 4KB, which keeps every frame number below 2^20 and
    every physical address inside the kernel's window above KERNBASE.  With
    extended memory [maxpa] is EXTPHYSMEM + extmem, without it basemem.  No
    other global changes. *)
Theorem detect_memory_whole_pages_at_most_65MB
        (mc : Z -> Z) (baselo extlo : Z) (st : State) :
  (forall r, 0 <= mc r < 256) ->
  exists basemem extmem st',
    i386_detect_memory mc baselo extlo st = Ret (basemem, extmem) st' /\
    basemem mod PGSIZE = 0 /\ extmem mod PGSIZE = 0 /\
    maxpa st' = (if extmem =? 0 then basemem else EXTPHYSMEM + extmem) /\
    npage st' * PGSIZE = maxpa st' /\
    0 <= maxpa st' <= 0x40FF000 /\
    npage st' < 2 ^ 20 /\ maxpa st' + KERNBASE < 2 ^ 32 /\
    boot_freemem st' = boot_freemem st /\ pages st' = pages st /\
    page_free_list st' = page_free_list st /\ mem st' = mem st /\
    tlb_flushed st' = tlb_flushed st.
Proof.
  intros Hb.
  pose proof (nvram_read_range mc baselo Hb) as Hlo.
  pose proof (nvram_read_range mc extlo Hb) as Hhi.
  set (b := ROUNDDOWN (u32 (nvram_read mc baselo * 1024)) PGSIZE).
  set (e := ROUNDDOWN (u32 (nvram_read mc extlo * 1024)) PGSIZE).
  assert (Ub : u32 (nvram_read mc baselo * 1024) = nvram_read mc baselo * 1024)
    by (apply u32_small; change (2 ^ 32) with 4294967296; lia).
  assert (Ue : u32 (nvram_read mc extlo * 1024) = nvram_read mc extlo * 1024)
    by (apply u32_small; change (2 ^ 32) with 4294967296; lia).
  destruct (ROUNDDOWN_spec (nvram_read mc baselo * 1024) PGSIZE) as (Bm & Bb & B0);
    [reflexivity|lia|].
  destruct (ROUNDDOWN_spec (nvram_read mc extlo * 1024) PGSIZE) as (Em & Eb & E0);
    [reflexivity|lia|].
  rewrite <- Ub in Bm, Bb, B0. rewrite <- Ue in Em, Eb, E0.
  fold b in Bm, Bb, B0. fold e in Em, Eb, E0. rewrite Ub in Bb. rewrite Ue in Eb.
  exists b, e. eexists. split; [reflexivity|].
  cbn [maxpa npage boot_freemem pages page_free_list mem tlb_flushed].
  fold b. fold e. unfold PGSIZE, EXTPHYSMEM, KERNBASE in *.
  change (2 ^ 20) with 1048576. change (2 ^ 32) with 4294967296.
  split; [exact Bm|]. split; [exact Em|].
  assert (Hmax : (if negb (e =? 0) then u32 (1048576 + e) else b) =
                 (if e =? 0 then b else 1048576 + e)).
  { destruct (e =? 0); cbn [negb]; [reflexivity|].
    apply u32_small. change (2 ^ 32) with 4294967296. lia. }
  rewrite Hmax. split; [reflexivity|].
  assert (Hm : (if e =? 0 then b else 1048576 + e) mod 4096 = 0).
  { destruct (e =? 0); [exact Bm|].
    rewrite Z.add_mod, Em by lia. reflexivity. }
  assert (Hr : 0 <= (if e =? 0 then b else 1048576 + e) <= 68153344).
  { destruct (e =? 0).
    - lia.
    - assert (e <= 67104768); [|lia].
      apply Z.mod_divide in Em; [|lia]. destruct Em as (q & Hq). lia. }
  set (m := if e =? 0 then b else 1048576 + e) in *.
  split.
  { apply Z.mod_divide in Hm; [|lia]. destruct Hm as (q & Hq).
    rewrite Hq, Z.div_mul by lia. reflexivity. }
  split; [exact Hr|]. split.
  { apply Z.div_lt_upper_bound; lia. }
  repeat split; lia.
Qed.

Lemma detect_memory_whole_pages_at_most_65MB_witness :
  exists st',
    i386_detect_memory (fun r => if r =? 0x18 then 0x7C else 0) 0x15 0x17 example_boot
      = Ret (0, 0x1F00000) st' /\
    maxpa st' = 0x2000000 /\ npage st' = 8192.
Proof.
  destruct (detect_memory_whole_pages_at_most_65MB
              (fun r => if r =? 0x18 then 0x7C else 0) 0x15 0x17 example_boot)
    as (b & e & st' & E & _ & _ & Hm & Hn & _).
  - intros r. destruct (r =? 0x18); lia.
  - assert (Hv : b = 0 /\ e = 0x1F00000).
    { vm_compute in E. injection E as <- <- _. split; reflexivity. }
    destruct Hv as (-> & ->). exists st'. split; [exact E|].
    split; [exact Hm|]. rewrite Hm in Hn. change (0x1F00000 =? 0) with false in Hn.
    cbv iota in Hn. unfold PGSIZE, EXTPHYSMEM in Hn. lia.
Defined.

(** ** The bootstrap allocator *)

Lemma ROUNDUP_spec (a n : Z) :
  0 < n -> 0 <= a -> a + n - 1 < 2 ^ 32 ->
  ROUNDUP a n mod n = 0 /\ a <= ROUNDUP a n < a + n.
Proof.
  intros Hn Ha Hb. unfold ROUNDUP. rewrite u32_small by lia.
  destruct (ROUNDDOWN_spec (a + n - 1) n Hn) as (Hm & Hr & _); [lia|].
  split; [exact Hm|lia].
Qed.

Lemma boot_alloc_unfold (kernel_end n align : Z) (st : State) :
  boot_alloc kernel_end n align st =
  let v := ROUNDUP (boot_cursor kernel_end st) align in
  if u32 (v + n) <? KERNBASE then Panic "PADDR called with invalid kva"
  else if maxpa st <? u32 (v + n) - KERNBASE
       then Panic "Out of memory in boot alloc, you fool!"
       else Ret v (with_boot_freemem st (u32 (v + n))).
Proof.
  unfold boot_alloc, boot_cursor. kstep_refl. cbv beta.
  destruct (boot_freemem st =? 0) eqn:E0; unfold when;
    do 4 kstep_refl; cbv beta;
    cbn [boot_freemem maxpa]; unfold PADDR;
    match goal with
    | |- context [u32 (?v + n) <? KERNBASE] =>
        destruct (u32 (v + n) <? KERNBASE); [reflexivity|]
    end;
    kstep_refl; kstep_refl; cbv beta; cbn [maxpa];
    match goal with
    | |- context [?a <? ?b] => destruct (a <? b); reflexivity
    end.
Qed.

Lemma u32_wrap (x : Z) :
  0 <= x < 2 * 2 ^ 32 ->
  (x < 2 ^ 32 -> u32 x = x) /\ (2 ^ 32 <= x -> u32 x = x - 2 ^ 32).
Proof.
  intros Hx. unfold u32. change (2 ^ 32) with 4294967296 in *. split; intros H.
  - apply Z.mod_small. lia.
  - replace x with ((x - 4294967296) + 1 * 4294967296) at 1 by lia.
    rewrite Z.mod_add by lia. apply Z.mod_small. lia.
Qed.

Lemma boot_alloc_returns (kernel_end n align v : Z) (st st' : State) :
  boot_alloc kernel_end n align st = Ret v st' ->
  v = ROUNDUP (boot_cursor kernel_end st) align /\
  st' = with_boot_freemem st (u32 (v + n)) /\
  KERNBASE <= u32 (v + n) <= KERNBASE + maxpa st.
Proof.
  rewrite boot_alloc_unfold. cbv zeta.
  set (r := ROUNDUP (boot_cursor kernel_end st) align).
  destruct (Z.ltb_spec (u32 (r + n)) KERNBASE); [discriminate|].
  destruct (Z.ltb_spec (maxpa st) (u32 (r + n) - KERNBASE)); [discriminate|].
  intros E. injection E as <- <-. repeat split; lia.
Qed.

(** boot_alloc, for a positive [align], a 32-bit [n] and a cursor that can
    be rounded up below 4GB.  The address it works with is the cursor rounded
    up to the next multiple of [align], and the end of the request is taken
    as a 32-bit sum.  If that end lies at or above KERNBASE and within
    detected memory, boot_alloc returns the rounded address and sets the
    cursor to the end, changing nothing else; otherwise it panics.  While the
    sum does not wrap, the end is where the [n] bytes end, so the call
    returns exactly when they fit.  When the sum wraps past 4GB the end lies
    below the address returned: boot_alloc can then return although the
    bytes do not fit, and the cursor moves backwards. *)
Theorem boot_alloc_aligned_or_out_of_memory (kernel_end n align : Z) (st : State) :
  0 < align -> 0 <= n < 2 ^ 32 ->
  0 <= boot_cursor kernel_end st ->
  boot_cursor kernel_end st + align - 1 < 2 ^ 32 ->
  let v := ROUNDUP (boot_cursor kernel_end st) align in
  let e := u32 (v + n) in
  v mod align = 0 /\
  boot_cursor kernel_end st <= v < boot_cursor kernel_end st + align /\
  (KERNBASE <= e <= KERNBASE + maxpa st ->
     boot_alloc kernel_end n align st = Ret v (with_boot_freemem st e)) /\
  (e < KERNBASE \/ KERNBASE + maxpa st < e ->
     exists msg, boot_alloc kernel_end n align st = Panic msg) /\
  (v + n < 2 ^ 32 -> e = v + n) /\
  (2 ^ 32 <= v + n -> e = v + n - 2 ^ 32 /\ e < v).
Proof.
  intros Ha Hn Hc Hb v e.
  destruct (ROUNDUP_spec (boot_cursor kernel_end st) align Ha Hc Hb) as (Hv & Hr).
  fold v in Hv, Hr. split; [exact Hv|]. split; [exact Hr|].
  rewrite boot_alloc_unfold. cbv zeta. fold v. fold e.
  destruct (u32_wrap (v + n)) as (Hsmall & Hbig); [lia|]. fold e in Hsmall, Hbig.
  split; [|split; [|split]].
  - intros He. destruct (Z.ltb_spec e KERNBASE); [lia|].
    destruct (Z.ltb_spec (maxpa st) (e - KERNBASE)); [lia|reflexivity].
  - intros He. destruct (Z.ltb_spec e KERNBASE); [eexists; reflexivity|].
    destruct (Z.ltb_spec (maxpa st) (e - KERNBASE)); [eexists; reflexivity|lia].
  - exact Hsmall.
  - intros Hw. specialize (Hbig Hw). split; [exact Hbig|lia].
Qed.

Lemma boot_alloc_aligned_or_out_of_memory_witness :
  boot_alloc 0 PGSIZE PGSIZE example_boot =
    Ret (KERNBASE + 0x110000) (with_boot_freemem example_boot (KERNBASE + 0x111000)) /\
  (exists msg, boot_alloc 0 (10 * PGSIZE) PGSIZE example_boot = Panic msg) /\
  boot_alloc 0 0xFFFFF000 PGSIZE example_boot =
    Ret (KERNBASE + 0x110000) (with_boot_freemem example_boot (KERNBASE + 0x10F000)).
Proof.
  split; [|split].
  - apply (boot_alloc_aligned_or_out_of_memory 0 PGSIZE PGSIZE example_boot).
    + reflexivity.
    + split; [discriminate|reflexivity].
    + discriminate.
    + reflexivity.
    + split; discriminate.
  - apply (boot_alloc_aligned_or_out_of_memory 0 (10 * PGSIZE) PGSIZE example_boot).
    + reflexivity.
    + split; [discriminate|reflexivity].
    + discriminate.
    + reflexivity.
    + right. reflexivity.
  - apply (boot_alloc_aligned_or_out_of_memory 0 0xFFFFF000 PGSIZE example_boot).
    + reflexivity.
    + split; [discriminate|reflexivity].
    + discriminate.
    + reflexivity.
    + split; discriminate.
Defined.

(** boot_alloc is linear as long as no request wraps, and only then.  Take
    two successive allocations that both return, with positive alignments,
    32-bit sizes, a cursor that can be rounded up below 4GB and detected
    memory that ends at least the second alignment below 4GB.  The second
    starts at or after the cursor the first one left, and less than its
    alignment above it.  If the first request does not wrap, that cursor is
    its end, so the two ranges do not overlap.  If it wraps past 4GB, the
    cursor has moved back below the address the first call returned, and the
    second allocation starts below the end of the first: memory is handed
    out twice. *)
Theorem boot_alloc_reuses_only_after_wraparound
  (kernel_end n1 a1 n2 a2 v1 v2 : Z) (st st1 st2 : State) :
  0 < a1 -> 0 < a2 -> 0 <= n1 < 2 ^ 32 -> 0 <= n2 < 2 ^ 32 ->
  0 <= boot_cursor kernel_end st ->
  boot_cursor kernel_end st + a1 - 1 < 2 ^ 32 ->
  maxpa st + KERNBASE + a2 <= 2 ^ 32 ->
  boot_alloc kernel_end n1 a1 st = Ret v1 st1 ->
  boot_alloc kernel_end n2 a2 st1 = Ret v2 st2 ->
  boot_cursor kernel_end st <= v1 /\
  boot_freemem st1 <= v2 < boot_freemem st1 + a2 /\
  (v1 + n1 < 2 ^ 32 ->
     boot_freemem st1 = v1 + n1 /\ v1 + n1 <= v2 /\ v1 + n1 <= KERNBASE + maxpa st) /\
  (2 ^ 32 <= v1 + n1 ->
     boot_freemem st1 = v1 + n1 - 2 ^ 32 /\ boot_freemem st1 < v1 /\ v2 < v1 + a2) /\
  (v2 + n2 < 2 ^ 32 ->
     boot_freemem st2 = v2 + n2 /\ v2 + n2 <= KERNBASE + maxpa st).
Proof.
  intros Ha1 Ha2 Hn1 Hn2 Hc Hb Hm E1 E2.
  destruct (boot_alloc_returns _ _ _ _ _ _ E1) as (Ev1 & -> & Hr1).
  destruct (boot_alloc_returns _ _ _ _ _ _ E2) as (Ev2 & -> & Hr2).
  cbn [maxpa with_boot_freemem boot_freemem] in *.
  destruct (ROUNDUP_spec (boot_cursor kernel_end st) a1 Ha1 Hc Hb) as (_ & Hru1).
  rewrite <- Ev1 in Hru1.
  set (c1 := u32 (v1 + n1)) in *.
  assert (Hc1 : boot_cursor kernel_end (with_boot_freemem st c1) = c1).
  { unfold boot_cursor. cbn [boot_freemem with_boot_freemem].
    destruct (Z.eqb_spec c1 0); [unfold KERNBASE in Hr1; lia|reflexivity]. }
  rewrite Hc1 in Ev2.
  destruct (ROUNDUP_spec c1 a2 Ha2) as (_ & Hru2);
    [unfold KERNBASE in Hr1; lia|lia|].
  rewrite <- Ev2 in Hru2.
  destruct (u32_wrap (v1 + n1)) as (S1 & B1); [lia|]. fold c1 in S1, B1.
  destruct (u32_wrap (v2 + n2)) as (S2 & _); [lia|].
  split; [lia|]. split; [lia|]. split; [|split].
  - intros H. specialize (S1 H). lia.
  - intros H. specialize (B1 H). lia.
  - intros H. specialize (S2 H). lia.
Qed.

Lemma boot_alloc_reuses_only_after_wraparound_witness :
  (exists v1 v2 st1 st2,
     boot_alloc 0 PGSIZE PGSIZE example_boot = Ret v1 st1 /\
     boot_alloc 0 PGSIZE PGSIZE st1 = Ret v2 st2 /\
     v1 + PGSIZE <= v2) /\
  (exists v1 v2 st1 st2,
     boot_alloc 0 0xFFFFF000 PGSIZE example_boot = Ret v1 st1 /\
     boot_alloc 0 PGSIZE PGSIZE st1 = Ret v2 st2 /\
     v2 = example_boot_pgdir /\ v2 < v1).
Proof.
  split.
  - set (s1 := with_boot_freemem example_boot (KERNBASE + 0x111000)).
    set (s2 := with_boot_freemem s1 (KERNBASE + 0x112000)).
    exists (KERNBASE + 0x110000), (KERNBASE + 0x111000), s1, s2.
    assert (E1 : boot_alloc 0 PGSIZE PGSIZE example_boot = Ret (KERNBASE + 0x110000) s1)
      by reflexivity.
    assert (E2 : boot_alloc 0 PGSIZE PGSIZE s1 = Ret (KERNBASE + 0x111000) s2)
      by reflexivity.
    split; [exact E1|]. split; [exact E2|].
    destruct (boot_alloc_reuses_only_after_wraparound 0 PGSIZE PGSIZE PGSIZE PGSIZE
                (KERNBASE + 0x110000) (KERNBASE + 0x111000) example_boot s1 s2)
      as (_ & _ & H & _).
    + reflexivity.
    + reflexivity.
    + split; [discriminate|reflexivity].
    + split; [discriminate|reflexivity].
    + discriminate.
    + reflexivity.
    + discriminate.
    + exact E1.
    + exact E2.
    + apply H. reflexivity.
  - set (s1 := with_boot_freemem example_boot (KERNBASE + 0x10F000)).
    set (s2 := with_boot_freemem s1 (KERNBASE + 0x110000)).
    exists (KERNBASE + 0x110000), (KERNBASE + 0x10F000), s1, s2.
    assert (E1 : boot_alloc 0 0xFFFFF000 PGSIZE example_boot =
                 Ret (KERNBASE + 0x110000) s1) by reflexivity.
    assert (E2 : boot_alloc 0 PGSIZE PGSIZE s1 = Ret (KERNBASE + 0x10F000) s2)
      by reflexivity.
    split; [exact E1|]. split; [exact E2|]. split; [reflexivity|].
    destruct (boot_alloc_reuses_only_after_wraparound 0 0xFFFFF000 PGSIZE PGSIZE PGSIZE
                (KERNBASE + 0x110000) (KERNBASE + 0x10F000) example_boot s1 s2)
      as (_ & _ & _ & H & _).
    + reflexivity.
    + reflexivity.
    + split; [discriminate|reflexivity].
    + split; [discriminate|reflexivity].
    + discriminate.
    + reflexivity.
    + discriminate.
    + exact E1.
    + exact E2.
    + destruct H as (_ & Hlt & _); [discriminate|]. exact Hlt.
Defined.

(** ** More on the frame database *)

Lemma LIST_INSERT_HEAD_returns (elm : Z) (st : State) :
  exists st', LIST_INSERT_HEAD elm st = Ret tt st'.
Proof.
  destruct (LIST_INSERT_HEAD_spec elm st) as (s & E & _). now exists s.
Qed.

(** page_free panics exactly when the count of the frame is not 0, and
    page_decref never does: whatever the state and the frame, it returns,
    because it calls page_free only once the count has become 0. *)
Theorem page_decref_never_panics (w pp : Z) (st : State) :
  (exists st', page_decref w pp st = Ret tt st') /\
  ((exists msg, page_free pp st = Panic msg) <-> pp_ref (pages st pp) <> 0).
Proof.
  split.
  - rewrite page_decref_unfold. cbv zeta.
    destruct (ref_wrap w (pp_ref (pages st pp) - 1) =? 0).
    + apply LIST_INSERT_HEAD_returns.
    + eexists. reflexivity.
  - split.
    + intros (msg & E) Hz. rewrite (page_free_zero pp st Hz) in E.
      destruct (LIST_INSERT_HEAD_returns pp st) as (s & Es). congruence.
    + apply page_free_referenced.
Qed.

(** The free list is a stack.  On a well-linked list [l], freeing a frame
    with count 0 that is not on it and allocating straight away returns that
    same frame and leaves the list [l]; allocating and freeing straight away
    puts the head frame back at the head.  No count changes either way. *)
Theorem free_list_is_a_stack (st : State) (l : list Z) :
  chain (pages st) LinkHead (page_free_list st) l -> NoDup l ->
  (forall pp, ~ In pp l -> pp_ref (pages st pp) = 0 ->
     exists s1 s2,
       page_free pp st = Ret tt s1 /\ page_alloc s1 = Ret (0, Some pp) s2 /\
       chain (pages s2) LinkHead (page_free_list s2) l /\
       page_free_list s2 = page_free_list st /\
       forall j, pp_ref (pages s2 j) = pp_ref (pages st j)) /\
  (forall h t, l = h :: t -> pp_ref (pages st h) = 0 ->
     exists s1 s2,
       page_alloc st = Ret (0, Some h) s1 /\ page_free h s1 = Ret tt s2 /\
       chain (pages s2) LinkHead (page_free_list s2) l /\
       page_free_list s2 = page_free_list st /\
       forall j, pp_ref (pages s2 j) = pp_ref (pages st j)).
Proof.
  intros Hc Hd. split.
  - intros pp Hn Hz. rewrite (page_free_zero pp st Hz).
    destruct (LIST_INSERT_HEAD_spec pp st) as (s1 & E1 & _ & _ & _ & Hh1 & He1 & _).
    pose proof (LIST_INSERT_HEAD_refs _ _ _ E1) as Hr1.
    pose proof (chain_insert pp st s1 l Hc Hd Hn E1) as Hc1.
    assert (Hd1 : NoDup (pp :: l)) by (now constructor).
    destruct (chain_alloc s1 pp l Hc1 Hd1) as (s2 & E2 & Hc2 & Hz2 & Ho2 & _).
    destruct (page_alloc_head s1 pp Hh1) as (s2' & E2' & Hh2 & _).
    { cbn in Hc1. tauto. }
    rewrite E2 in E2'. injection E2' as <-.
    exists s1, s2. split; [exact E1|]. split; [exact E2|]. split; [exact Hc2|].
    split; [now rewrite Hh2, He1|].
    intros j. destruct (Z.eq_dec j pp) as [->|N]; [congruence|].
    now rewrite Ho2, Hr1.
  - intros h t -> Hz.
    destruct (chain_alloc st h t Hc Hd) as (s1 & E1 & Hc1 & Hz1 & Ho1 & _).
    inversion Hd as [|? ? Hn Hd']; subst.
    destruct (LIST_INSERT_HEAD_spec h s1) as (s2 & E2 & _ & _ & _ & Hh2 & _).
    pose proof (LIST_INSERT_HEAD_refs _ _ _ E2) as Hr2.
    exists s1, s2. split; [exact E1|].
    split; [now rewrite (page_free_zero h s1 Hz1)|].
    split; [exact (chain_insert h s1 s2 t Hc1 Hd' Hn E2)|].
    split; [cbn in Hc; destruct Hc as (-> & _); exact Hh2|].
    intros j. rewrite Hr2. destruct (Z.eq_dec j h) as [->|N]; [congruence|].
    now apply Ho1.
Qed.

Lemma free_list_is_a_stack_witness :
  (exists s1 s2,
     page_free 5 example_mapped = Ret tt s1 /\ page_alloc s1 = Ret (0, Some 5) s2 /\
     page_free_list s2 = Some 700) /\
  (exists s1 s2,
     page_alloc example_mapped = Ret (0, Some 700) s1 /\ page_free 700 s1 = Ret tt s2 /\
     page_free_list s2 = Some 700).
Proof.
  assert (Hc : chain (pages example_mapped) LinkHead
                     (page_free_list example_mapped) [700; 701]).
  { cbn. repeat split; reflexivity. }
  assert (Hd : NoDup [700; 701]).
  { constructor; [cbn; intros [H|[]]; discriminate H|].
    constructor; [intros []|constructor]. }
  destruct (free_list_is_a_stack example_mapped [700; 701] Hc Hd) as (F & A).
  split.
  - destruct (F 5) as (s1 & s2 & E1 & E2 & _ & Hh & _).
    + cbn. intros [H|[H|[]]]; discriminate H.
    + reflexivity.
    + exists s1, s2. split; [exact E1|]. split; [exact E2|exact Hh].
  - destruct (A 700 [701] eq_refl) as (s1 & s2 & E1 & E2 & _ & Hh & _).
    + reflexivity.
    + exists s1, s2. split; [exact E1|]. split; [exact E2|exact Hh].
Defined.

Lemma page_init_counts (st0 : State) :
  boot_done st0 ->
  exists st1,
    page_init st0 = Ret tt st1 /\
    forall j, 0 <= j < npage st0 ->
      pp_ref (pages st1 j) =
      if (1 <=? j) && (j <? 160) || (first_free_ppn st0 <=? j) then 0 else 1.
Proof.
  intros (Hk & Hlo & Hhi). set (k := first_free_ppn st0) in *.
  change (PPN EXTPHYSMEM) with 256 in Hlo.
  assert (EP : PADDR (ROUNDUP (boot_freemem st0) PGSIZE) st0 =
               Ret (ROUNDUP (boot_freemem st0) PGSIZE - KERNBASE) st0).
  { unfold PADDR.
    destruct (Z.ltb_spec (ROUNDUP (boot_freemem st0) PGSIZE) KERNBASE) as [?|_];
      [lia|reflexivity]. }
  unfold page_init. kstep_refl. kstep EP. kstep_refl. rewrite !for_range_eq.
  kstep (set_pp_ref_eq 0 1 (mkState (maxpa st0) (npage st0) (boot_freemem st0)
                                    (pages st0) None (mem st0) (tlb_flushed st0))).
  change (PPN IOPHYSMEM) with 160. change (PPN EXTPHYSMEM) with 256.
  change (Z.to_nat (160 - 1)) with 159%nat. change (Z.to_nat (256 - 160)) with 96%nat.
  fold (first_free_ppn st0). fold k.
  set (sA := with_ref _ 0 1).
  destruct (insert_loop 159 1 sA []) as (sB & EB & NB & CB & DB & RB);
    [reflexivity|constructor|intros i []|].
  kstep EB.
  destruct (mark_loop 1 96 160 sB) as (sC & EC & NC & HC & LC & RC). kstep EC.
  destruct (mark_loop 1 (Z.to_nat (k - 256)) 256 sC) as (sD & ED & ND & HD & LD & RD).
  kstep ED. kstep_refl.
  assert (CD : chain (pages sD) LinkHead (page_free_list sD) (rev (zrange 1 159) ++ [])).
  { rewrite HD, HC. revert CB. apply chain_ext. intros i _.
    destruct (LD i), (LC i). split; congruence. }
  assert (Hlt : forall i, In i (rev (zrange 1 159) ++ []) -> i < k).
  { intros i Hi. rewrite app_nil_r, <- in_rev, In_zrange in Hi. lia. }
  replace (npage sD) with (npage st0) by (rewrite ND, NC, NB; reflexivity).
  destruct (insert_loop (Z.to_nat (npage st0 - k)) k sD _ CD DB Hlt)
    as (sE & EE & NE & CE & DE & RE).
  rewrite for_range_eq. exists sE. split; [exact EE|].
  intros j Hj. rewrite RE, RD, RC, RB. case_in_range;
    destruct (Z.leb_spec 1 j), (Z.ltb_spec j 160), (Z.leb_spec k j);
    cbn [andb orb]; try reflexivity; try lia.
  assert (j = 0) by lia. subst j. unfold sA. now rewrite with_ref_same.
Qed.

(** page_init, on a machine whose bootstrap cursor lies past the I/O hole
    and within detected memory: frame 0, the I/O hole and the frames up to
    the cursor get count 1 and stay off the free list; every other frame gets
    count 0 and is on it, so that list membership is exactly a zero count;
    the list holds the frames above the cursor, highest first, then frames
    159 down to 1; and nothing has been handed out yet. *)
Theorem page_init_reserves_and_frees (st0 : State) :
  boot_done st0 ->
  exists st1,
    page_init st0 = Ret tt st1 /\ npage st1 = npage st0 /\
    (forall j, 0 <= j < npage st0 ->
       pp_ref (pages st1 j) =
       if (1 <=? j) && (j <? 160) || (first_free_ppn st0 <=? j) then 0 else 1) /\
    free_iff_unreferenced st1 /\
    free_list_from (Z.to_nat (npage st0)) (pages st1) (page_free_list st1) =
      rev (zrange (first_free_ppn st0) (Z.to_nat (npage st0 - first_free_ppn st0)))
      ++ rev (zrange 1 159).
Proof.
  intros Hb. destruct (page_init_inv st0 Hb) as (st1 & l & E & I & Np & Hl).
  destruct (page_init_counts st0 Hb) as (st1' & E' & Hc).
  rewrite E in E'. injection E' as <-.
  exists st1. split; [exact E|]. split; [exact Np|]. split; [exact Hc|]. split.
  - intros pp Hp. rewrite (db_inv_on_list _ _ _ I). split.
    + apply (inv_free _ _ _ I).
    + intros Hz. destruct (inv_zero _ _ _ I pp Hp Hz) as [H|[]]. exact H.
  - pose proof (chain_walk _ _ _ _ (inv_chain _ _ _ I)) as Hw.
    rewrite <- Hl.
    assert (Hlen : S (List.length l) = Z.to_nat (npage st0)
                   \/ (S (List.length l) < Z.to_nat (npage st0))%nat).
    { destruct Hb as (_ & Hlo & Hhi). change (PPN EXTPHYSMEM) with 256 in Hlo.
      rewrite Hl, length_app, !length_rev.
      assert (Hz : forall n lo, List.length (zrange lo n) = n).
      { induction n as [|n IH]; intros lo; cbn; [reflexivity|now rewrite IH]. }
      rewrite !Hz. lia. }
    destruct Hlen as [<-|Hlt]; [exact Hw|].
    revert Hw. generalize (inv_chain _ _ _ I).
    generalize (page_free_list st1), LinkHead.
    assert (Hgen : forall n l c p,
              chain (pages st1) p c l -> (List.length l < n)%nat ->
              free_list_from n (pages st1) c = l).
    { induction n as [|n IH]; intros l0 c p Hch Hn; [lia|].
      destruct l0 as [|x l0]; cbn in Hch.
      - subst c. reflexivity.
      - destruct Hch as (-> & _ & Hch). cbn [free_list_from]. f_equal.
        apply (IH _ _ _ Hch). cbn in Hn. lia. }
    intros c p Hch _. apply (Hgen _ _ _ _ Hch). lia.
Qed.

Lemma page_init_reserves_and_frees_witness :
  exists st1,
    page_init example_boot = Ret tt st1 /\
    pp_ref (pages st1 0) = 1 /\ pp_ref (pages st1 200) = 1 /\
    pp_ref (pages st1 271) = 1 /\ pp_ref (pages st1 272) = 0 /\
    hd 0 (free_list_from 280 (pages st1) (page_free_list st1)) = 279.
Proof.
  destruct (page_init_reserves_and_frees example_boot) as (st1 & E & _ & Hc & _ & Hl).
  - unfold boot_done. split; [|split]; vm_compute; discriminate.
  - exists st1. split; [exact E|].
    change (npage example_boot) with 280 in *.
    change (first_free_ppn example_boot) with 272 in *.
    rewrite (Hc 0), (Hc 200), (Hc 271), (Hc 272) by lia.
    change (Z.to_nat 280) with 280%nat in Hl. rewrite Hl.
    repeat split; reflexivity.
Defined.

(** ** More on the walkers *)

Lemma KADDR_inv (pa : Z) (st : State) (x : Z) (st' : State) :
  KADDR pa st = Ret x st' ->
  st' = st /\ x = u32 (pa + KERNBASE) /\ PPN pa < npage st.
Proof.
  cbv [KADDR bind gets panic ret].
  destruct (Z.leb_spec (npage st) (PPN pa)); [discriminate|].
  intros E. injection E as <- <-. auto.
Qed.

Lemma page2pa_low_bits (pp n : Z) : n < 12 -> Z.testbit (page2pa pp) n = false.
Proof.
  intros Hn. destruct (Z_lt_le_dec n 0) as [Hneg|Hpos].
  - now apply Z.testbit_neg_r.
  - unfold page2pa, page2ppn, u32, PGSHIFT.
    rewrite Z.testbit_mod_pow2, Z.shiftl_spec by lia.
    rewrite (Z.testbit_neg_r pp) by lia. now rewrite andb_false_r.
Qed.

Lemma page2pa_no_flags (pp f : Z) : 0 <= f < PGSIZE -> Z.land (page2pa pp) f = 0.
Proof.
  intros Hf. apply Z.bits_inj'. intros n Hn. rewrite Z.land_spec, Z.bits_0.
  destruct (Z_lt_le_dec n 12).
  - now rewrite page2pa_low_bits.
  - rewrite (testbit_small f 12 n); [apply andb_false_r|exact Hf|lia].
Qed.

Lemma has_flag_page2pa_lor (pp f flag : Z) :
  0 <= flag < PGSIZE ->
  has_flag (Z.lor (page2pa pp) f) flag = has_flag f flag.
Proof.
  intros Hf. unfold has_flag.
  now rewrite Z.land_lor_distr_l, page2pa_no_flags, Z.lor_0_l.
Qed.

Lemma pgdir_walk_present (st : State) (pgdir va create : Z) :
  has_flag (mem st (entry pgdir (PDX va))) PTE_P = true ->
  pgdir_walk pgdir va create st =
  if has_flag (mem st (entry pgdir (PDX va))) PTE_PS
  then Ret (entry pgdir (PDX va)) st
  else (t <- KADDR (PTE_ADDR (mem st (entry pgdir (PDX va)))) ;;
        ret (entry t (PTX va))) st.
Proof.
  intros H. unfold pgdir_walk. cbv zeta. kstep_refl. cbv beta. rewrite H.
  destruct (has_flag (mem st (entry pgdir (PDX va))) PTE_PS); reflexivity.
Qed.

Lemma pgdir_walk_present_same_state (st : State) (pgdir va create p : Z) (st' : State) :
  has_flag (mem st (entry pgdir (PDX va))) PTE_P = true ->
  pgdir_walk pgdir va create st = Ret p st' -> st' = st.
Proof.
  intros H. rewrite (pgdir_walk_present st pgdir va create H).
  destruct (has_flag (mem st (entry pgdir (PDX va))) PTE_PS).
  - intros E. now injection E.
  - unfold bind.
    destruct (KADDR (PTE_ADDR (mem st (entry pgdir (PDX va)))) st) as [t s| |] eqn:EK;
      [|discriminate|discriminate].
    apply KADDR_inv in EK. destruct EK as (-> & _). unfold ret.
    intros E. now injection E.
Qed.

(** The two walkers are the same function wherever no table has to be
    allocated: for create modes 0 and 2, and for any mode when the directory
    entry is present, boot_pgdir_walk and pgdir_walk return the same pointer
    and the same state, or panic alike.  In mode 0 a walk that returns has
    changed nothing. *)
Theorem walkers_agree_without_allocation (kernel_end pgdir va create : Z) (st : State) :
  (create = 0 \/ create = 2 \/
   has_flag (mem st (entry pgdir (PDX va))) PTE_P = true ->
   boot_pgdir_walk kernel_end pgdir va create st = pgdir_walk pgdir va create st) /\
  (forall p st', pgdir_walk pgdir va 0 st = Ret p st' -> st' = st).
Proof.
  split.
  - intros H. unfold boot_pgdir_walk, pgdir_walk. cbv zeta. do 2 kstep_refl. cbv beta.
    destruct (has_flag (mem st (entry pgdir (PDX va))) PTE_P) eqn:EP; [reflexivity|].
    destruct H as [->|[->|H]]; [reflexivity|reflexivity|discriminate H].
  - intros p st' E.
    destruct (has_flag (mem st (entry pgdir (PDX va))) PTE_P) eqn:EP.
    + exact (pgdir_walk_present_same_state _ _ _ _ _ _ EP E).
    + rewrite (pgdir_walk_absent _ _ _ _ EP) in E. cbn in E. now injection E.
Qed.

Lemma walkers_agree_without_allocation_witness :
  boot_pgdir_walk 0 example_pgdir 0x1000 1 example_mapped =
  pgdir_walk example_pgdir 0x1000 1 example_mapped.
Proof.
  apply (proj1 (walkers_agree_without_allocation 0 example_pgdir 0x1000 1 example_mapped)).
  right. right. reflexivity.
Defined.

(** A walk is stable.  Once pgdir_walk, in whatever mode, has returned a
    non-null entry pointer, walking the same address again in any mode
    returns the same pointer and changes nothing: a table or a large-page
    entry is created at most once. *)
Theorem pgdir_walk_stable (pgdir va create p : Z) (st st' : State) :
  pgdir_walk pgdir va create st = Ret p st' -> p <> NULL ->
  forall create', pgdir_walk pgdir va create' st' = Ret p st'.
Proof.
  intros E Hp create'.
  destruct (has_flag (mem st (entry pgdir (PDX va))) PTE_P) eqn:EP.
  - pose proof (pgdir_walk_present_same_state _ _ _ _ _ _ EP E) as ->.
    rewrite <- E. now rewrite !(pgdir_walk_present st pgdir va _ EP).
  - rewrite (pgdir_walk_absent _ _ _ _ EP) in E.
    destruct (create =? 0); [injection E as <- _; contradiction|].
    destruct (create =? 2).
    + destruct (negb (JPGOFF va =? 0)); [discriminate|]. injection E as <- <-.
      rewrite pgdir_walk_present; cbn [mem with_mem]; rewrite upd_same; reflexivity.
    + unfold bind at 1 in E.
      destruct (page_alloc st) as [[r o] sa| |]; [|discriminate|discriminate].
      destruct r as [|r|r]; [|injection E as <- _; contradiction
                              |injection E as <- _; contradiction].
      destruct o as [h|]; [|injection E as <- _; contradiction].
      rewrite (bind_Ret _ _ _ _ _ (set_pp_ref_eq h 1 sa)) in E.
      unfold bind at 1 in E. unfold page2kva in E.
      destruct (KADDR (page2pa h) (with_ref sa h 1)) as [kva s| |] eqn:EK;
        [|discriminate|discriminate].
      apply KADDR_inv in EK. destruct EK as (-> & -> & Hh).
      do 3 (erewrite bind_Ret in E by reflexivity). cbv beta in E.
      cbn [mem] in E. rewrite upd_same in E.
      unfold bind at 1 in E.
      match type of E with
      | context [KADDR ?pa ?s] =>
          destruct (KADDR pa s) as [t s2| |] eqn:EK2; [|discriminate|discriminate]
      end.
      pose proof EK2 as EK2'. apply KADDR_inv in EK2'. destruct EK2' as (-> & _ & _).
      unfold ret in E. injection E as <- <-.
      rewrite pgdir_walk_present; cbn [mem]; rewrite upd_same.
      * rewrite lor_flags3, has_flag_page2pa_lor by (cbv; split; [discriminate|reflexivity]).
        change (has_flag (Z.lor (Z.lor PTE_P PTE_W) PTE_U) PTE_PS) with false.
        cbv iota. rewrite <- lor_flags3. now kstep EK2.
      * rewrite lor_flags3, has_flag_page2pa_lor by (cbv; split; [discriminate|reflexivity]).
        reflexivity.
Qed.

Lemma pgdir_walk_stable_witness :
  exists p st',
    pgdir_walk example_pgdir 0x1000000 1 example_mapped = Ret p st' /\
    pgdir_walk example_pgdir 0x1000000 1 st' = Ret p st' /\
    pgdir_walk example_pgdir 0x1000000 0 st' = Ret p st'.
Proof.
  destruct (pgdir_walk_new_table example_mapped example_pgdir 0x1000000 700)
    as (sa & _ & Ew); try reflexivity.
  - vm_compute. split; [discriminate|reflexivity].
  - vm_compute. discriminate.
  - eexists. eexists. split; [exact Ew|].
    split; apply (pgdir_walk_stable _ _ _ _ _ _ Ew); discriminate.
Defined.

(** ** More on the mapping operations *)

Lemma leaf_not_slot_no_PS (st : State) (pgdir va pte : Z) :
  leaf_of st pgdir va = Some pte -> pte <> entry pgdir (PDX va) ->
  has_flag (mem st (entry pgdir (PDX va))) PTE_P = true /\
  has_flag (mem st (entry pgdir (PDX va))) PTE_PS = false /\
  PPN (PTE_ADDR (mem st (entry pgdir (PDX va)))) < npage st /\
  pte = entry (u32 (PTE_ADDR (mem st (entry pgdir (PDX va))) + KERNBASE)) (PTX va).
Proof.
  unfold leaf_of. cbv zeta.
  destruct (has_flag (mem st (entry pgdir (PDX va))) PTE_P); [|discriminate].
  destruct (has_flag (mem st (entry pgdir (PDX va))) PTE_PS).
  - intros E N. injection E as <-. contradiction.
  - destruct (Z.ltb_spec (PPN (PTE_ADDR (mem st (entry pgdir (PDX va))))) (npage st));
      [|discriminate].
    intros E _. injection E as <-. auto.
Qed.

Lemma check_va2pa_maps (st : State) (pgdir va pte pp : Z) :
  maps st pgdir va pte pp -> check_va2pa pgdir va st = Ret (page2pa pp) st.
Proof.
  intros (Hl & _ & Hp & Hf & _). subst pp. rewrite page2pa_PPN_PTE_ADDR.
  unfold check_va2pa. kstep_refl. cbv beta.
  unfold leaf_of in Hl. cbv zeta in Hl.
  destruct (has_flag (mem st (entry pgdir (PDX va))) PTE_P); [|discriminate].
  cbn [negb].
  destruct (has_flag (mem st (entry pgdir (PDX va))) PTE_PS).
  - now injection Hl as <-.
  - destruct (Z.ltb_spec (PPN (PTE_ADDR (mem st (entry pgdir (PDX va))))) (npage st));
      [|discriminate].
    injection Hl as <-. kstep (KADDR_ok _ _ H). kstep_refl. cbv beta. now rewrite Hp.
Qed.

Lemma check_va2pa_unmapped (st : State) (pgdir va : Z) :
  unmapped st pgdir va -> check_va2pa pgdir va st = Ret (u32 (-1)) st.
Proof.
  intros [Ha|(Hps & pte & Hl & Hp)]; unfold check_va2pa; kstep_refl; cbv beta.
  - now rewrite Ha.
  - unfold leaf_of in Hl. cbv zeta in Hl. rewrite Hps in *.
    destruct (has_flag (mem st (entry pgdir (PDX va))) PTE_P); [|reflexivity].
    cbn [negb].
    destruct (Z.ltb_spec (PPN (PTE_ADDR (mem st (entry pgdir (PDX va))))) (npage st));
      [|discriminate].
    injection Hl as <-. kstep (KADDR_ok _ _ H). kstep_refl. cbv beta. now rewrite Hp.
Qed.

(** check_va2pa and page_lookup read the tables alike: where page_lookup
    finds frame [pp], check_va2pa returns the physical address of [pp], for a
    large page as for a small one; where nothing is mapped, page_lookup
    returns null and check_va2pa returns ~0.  Neither changes the state. *)
Theorem check_va2pa_agrees_with_lookup (pgdir va : Z) (st : State) :
  (forall pte pp, maps st pgdir va pte pp ->
     page_lookup pgdir va st = Ret (Some (pp, pte)) st /\
     check_va2pa pgdir va st = Ret (page2pa pp) st /\
     page2pa pp <> 0xFFFFFFFF) /\
  (unmapped st pgdir va ->
     page_lookup pgdir va st = Ret None st /\
     check_va2pa pgdir va st = Ret 0xFFFFFFFF st).
Proof.
  split.
  - intros pte pp Hm. split; [now apply page_lookup_maps|].
    split; [now apply check_va2pa_maps with (pte := pte)|].
    intros E. pose proof (page2pa_low_bits pp 0) as H. rewrite E in H.
    specialize (H ltac:(lia)). discriminate H.
  - intros Hu. split; [now apply page_lookup_unmapped|].
    now apply check_va2pa_unmapped.
Qed.

Lemma check_va2pa_agrees_with_lookup_witness :
  check_va2pa example_pgdir 0x1000 example_mapped = Ret 0x12C000 example_mapped /\
  check_va2pa example_pgdir 0x8ABCDE example_mapped = Ret 0x400000 example_mapped /\
  check_va2pa example_pgdir 0 example_mapped = Ret 0xFFFFFFFF example_mapped.
Proof.
  pose proof (check_va2pa_agrees_with_lookup example_pgdir 0x1000 example_mapped) as H1.
  pose proof (check_va2pa_agrees_with_lookup example_pgdir 0x8ABCDE example_mapped) as H2.
  pose proof (check_va2pa_agrees_with_lookup example_pgdir 0 example_mapped) as H3.
  split; [|split].
  - apply (proj1 H1 (KERNBASE + 0x201004) 300).
    unfold maps. split; [reflexivity|]. split; [discriminate|].
    split; [reflexivity|]. split; reflexivity.
  - apply (proj1 H2 (example_pgdir + 8) 1024).
    unfold maps. split; [reflexivity|]. split; [discriminate|].
    split; [reflexivity|]. split; reflexivity.
  - apply (proj2 H3). right. split; [reflexivity|].
    exists (KERNBASE + 0x201000). split; reflexivity.
Defined.

Lemma page_insert_fresh (w pgdir pp va perm pte : Z) (st : State) :
  leaf_of st pgdir va = Some pte -> pte <> NULL ->
  has_flag (mem st pte) PTE_P = false ->
  page_insert w pgdir pp va perm st =
  Ret 0 (with_mem (with_ref st pp (ref_wrap w (pp_ref (pages st pp) + 1)))
                  (upd (mem st) pte (Z.lor (Z.lor (page2pa pp) PTE_P) (u32 perm)))).
Proof.
  intros Hl Hn Hp. unfold page_insert.
  kstep (pgdir_walk_leaf st pgdir va 1 pte Hl).
  destruct (Z.eqb_spec pte NULL); [contradiction|].
  kstep_refl. cbv beta.
  kstep (set_pp_ref_eq pp (ref_wrap w (pp_ref (pages st pp) + 1)) st).
  kstep_refl. cbv beta. cbn [mem with_ref]. rewrite Hp. unfold when.
  kstep_refl. kstep_refl. reflexivity.
Qed.

Lemma maps_after_store (st st' : State) (pgdir va pte pp perm : Z) :
  leaf_of st pgdir va = Some pte -> pte <> NULL -> pte <> entry pgdir (PDX va) ->
  npage st' = npage st ->
  mem st' = upd (mem st) pte (Z.lor (Z.lor (page2pa pp) PTE_P) (u32 perm)) ->
  0 <= pp < npage st -> npage st <= 2 ^ 20 -> 0 <= perm < PGSIZE ->
  maps st' pgdir va pte pp.
Proof.
  intros Hl Hn Hs Np Hm Hpp H20 Hperm. unfold maps.
  split.
  { rewrite <- Hl. apply leaf_of_ext; [|exact Np].
    rewrite Hm. apply upd_other. congruence. }
  split; [exact Hn|]. rewrite Hm, upd_same.
  split; [apply has_flag_P_set|].
  split; [apply PPN_PTE_ADDR_leaf; (assumption || lia)|lia].
Qed.

(** Insert, then look up.  At an address whose second-level slot exists and
    is empty, page_insert of frame [pp] returns 0 without invalidating
    anything; page_lookup at that address then returns [pp] and check_va2pa
    its physical address; the count of [pp] is one higher, and no other
    descriptor, no other word of memory and not the free list has changed. *)
Theorem page_insert_then_lookup (w pgdir pp va perm pte : Z) (st : State) :
  leaf_of st pgdir va = Some pte -> pte <> NULL -> pte <> entry pgdir (PDX va) ->
  has_flag (mem st pte) PTE_P = false ->
  0 <= pp < npage st -> npage st <= 2 ^ 20 -> 0 <= perm < PGSIZE ->
  0 <= pp_ref (pages st pp) < 2 ^ w - 1 ->
  exists st',
    page_insert w pgdir pp va perm st = Ret 0 st' /\
    page_lookup pgdir va st' = Ret (Some (pp, pte)) st' /\
    check_va2pa pgdir va st' = Ret (page2pa pp) st' /\
    pp_ref (pages st' pp) = pp_ref (pages st pp) + 1 /\
    (forall j, j <> pp -> pages st' j = pages st j) /\
    page_free_list st' = page_free_list st /\
    (forall a, a <> pte -> mem st' a = mem st a) /\
    tlb_flushed st' = tlb_flushed st.
Proof.
  intros Hl Hn Hs Hp Hpp H20 Hperm Hr.
  rewrite (page_insert_fresh w _ _ _ _ _ _ Hl Hn Hp). eexists. split; [reflexivity|].
  set (st' := with_mem _ _).
  assert (Hm : maps st' pgdir va pte pp).
  { apply (maps_after_store st st' pgdir va pte pp perm); try assumption; reflexivity. }
  split; [now apply page_lookup_maps|].
  split; [now apply check_va2pa_maps with (pte := pte)|].
  cbn [st' with_mem with_ref pages page_free_list mem tlb_flushed].
  split; [rewrite upd_same; cbn [pp_ref]; unfold ref_wrap; apply Z.mod_small; lia|].
  split; [intros j Hj; now apply upd_other|].
  split; [reflexivity|]. split; [intros a Ha; now apply upd_other|reflexivity].
Qed.

Lemma page_insert_then_lookup_witness :
  exists st',
    page_insert 16 example_pgdir 301 0x2000 PTE_U example_mapped = Ret 0 st' /\
    page_lookup example_pgdir 0x2000 st' = Ret (Some (301, KERNBASE + 0x201008)) st' /\
    pp_ref (pages st' 301) = 3 /\ tlb_flushed st' = [].
Proof.
  destruct (page_insert_then_lookup 16 example_pgdir 301 0x2000 PTE_U
              (KERNBASE + 0x201008) example_mapped)
    as (st' & E & Hl & _ & Hr & _ & _ & _ & Ht).
  - reflexivity.
  - discriminate.
  - vm_compute. discriminate.
  - reflexivity.
  - vm_compute; split; [discriminate|reflexivity].
  - vm_compute. discriminate.
  - vm_compute; split; [discriminate|reflexivity].
  - vm_compute; split; [discriminate|reflexivity].
  - exists st'. split; [exact E|]. split; [exact Hl|]. split; [exact Hr|exact Ht].
Defined.

Lemma page_decref_frame (w pp : Z) (st : State) :
  exists st',
    page_decref w pp st = Ret tt st' /\
    mem st' = mem st /\ npage st' = npage st /\ tlb_flushed st' = tlb_flushed st.
Proof.
  rewrite page_decref_unfold. cbv zeta.
  destruct (ref_wrap w (pp_ref (pages st pp) - 1) =? 0).
  - destruct (LIST_INSERT_HEAD_spec pp
                (with_ref st pp (ref_wrap w (pp_ref (pages st pp) - 1))))
      as (s & E & (_ & Gn & _) & Gm & Gt & _).
    exists s. repeat split; assumption.
  - eexists. repeat split.
Qed.

Lemma unmapped_after_clear (st st' : State) (pgdir va pte pp : Z) :
  maps st pgdir va pte pp ->
  mem st' = upd (mem st) pte 0 -> npage st' = npage st ->
  unmapped st' pgdir va.
Proof.
  intros (Hl & _ & _) Hm Np. unfold unmapped. cbv zeta.
  destruct (Z.eq_dec pte (entry pgdir (PDX va))) as [->|N].
  - left. rewrite Hm, upd_same. reflexivity.
  - destruct (leaf_not_slot_no_PS _ _ _ _ Hl N) as (HP & HPS & _ & _).
    assert (Hs : mem st' (entry pgdir (PDX va)) = mem st (entry pgdir (PDX va))).
    { rewrite Hm. apply upd_other. congruence. }
    right. rewrite Hs. split; [exact HPS|]. exists pte. split.
    + rewrite <- Hl. now apply leaf_of_ext.
    + rewrite Hm, upd_same. reflexivity.
Qed.

(** Remove, then look up.  After page_remove at an address where a frame was
    mapped, through a small page or a large one, page_lookup returns null
    and check_va2pa returns ~0 there, and a second page_remove is a no-op. *)
Theorem page_remove_then_lookup (w pgdir va pte pp : Z) (st : State) :
  maps st pgdir va pte pp ->
  exists st',
    page_remove w pgdir va st = Ret tt st' /\
    page_lookup pgdir va st' = Ret None st' /\
    check_va2pa pgdir va st' = Ret 0xFFFFFFFF st' /\
    page_remove w pgdir va st' = Ret tt st'.
Proof.
  intros Hm. rewrite (page_remove_maps w _ _ _ _ _ Hm).
  destruct (page_decref_frame w pp (with_flush (with_mem st (upd (mem st) pte 0)) va))
    as (s & E & Gm & Gn & _).
  exists s. split; [exact E|].
  assert (Hu : unmapped s pgdir va).
  { apply (unmapped_after_clear st s pgdir va pte pp Hm); assumption. }
  split; [now apply page_lookup_unmapped|].
  split; [now apply check_va2pa_unmapped|now apply page_remove_unmapped].
Qed.

Lemma page_remove_then_lookup_witness :
  (exists st',
     page_remove 16 example_pgdir 0x1000 example_mapped = Ret tt st' /\
     page_lookup example_pgdir 0x1000 st' = Ret None st') /\
  (exists st',
     page_remove 16 example_pgdir 0x8ABCDE example_mapped = Ret tt st' /\
     page_lookup example_pgdir 0x8ABCDE st' = Ret None st').
Proof.
  split.
  - destruct (page_remove_then_lookup 16 example_pgdir 0x1000
                (KERNBASE + 0x201004) 300 example_mapped) as (st' & E & Hl & _).
    + unfold maps. split; [reflexivity|]. split; [discriminate|].
      split; [reflexivity|]. split; reflexivity.
    + exists st'. split; [exact E|exact Hl].
  - destruct (page_remove_then_lookup 16 example_pgdir 0x8ABCDE
                (example_pgdir + 8) 1024 example_mapped) as (st' & E & Hl & _).
    + unfold maps. split; [reflexivity|]. split; [discriminate|].
      split; [reflexivity|]. split; reflexivity.
    + exists st'. split; [exact E|exact Hl].
Defined.

(** One frame at two addresses.  Inserting frame [pp] at two addresses whose
    second-level slots are distinct and empty raises its count by 2 and maps
    it at both; removing the first mapping then leaves the count one above
    the original, the frame off the free list as before, nothing mapped at
    the first address and [pp] still mapped at the second. *)
Theorem page_shared_by_two_mappings
        (w pgdir pp va1 va2 perm1 perm2 pte1 pte2 : Z) (st : State) :
  leaf_of st pgdir va1 = Some pte1 -> leaf_of st pgdir va2 = Some pte2 ->
  pte1 <> NULL -> pte2 <> NULL -> pte1 <> pte2 ->
  pte1 <> entry pgdir (PDX va1) -> pte1 <> entry pgdir (PDX va2) ->
  pte2 <> entry pgdir (PDX va1) -> pte2 <> entry pgdir (PDX va2) ->
  has_flag (mem st pte1) PTE_P = false -> has_flag (mem st pte2) PTE_P = false ->
  0 <= pp < npage st -> npage st <= 2 ^ 20 ->
  0 <= perm1 < PGSIZE -> 0 <= perm2 < PGSIZE ->
  0 < w -> 0 <= pp_ref (pages st pp) < 2 ^ w - 2 ->
  exists s1 s2 s3,
    page_insert w pgdir pp va1 perm1 st = Ret 0 s1 /\
    page_insert w pgdir pp va2 perm2 s1 = Ret 0 s2 /\
    pp_ref (pages s2 pp) = pp_ref (pages st pp) + 2 /\
    page_lookup pgdir va1 s2 = Ret (Some (pp, pte1)) s2 /\
    page_lookup pgdir va2 s2 = Ret (Some (pp, pte2)) s2 /\
    page_remove w pgdir va1 s2 = Ret tt s3 /\
    pp_ref (pages s3 pp) = pp_ref (pages st pp) + 1 /\
    page_free_list s3 = page_free_list st /\
    page_lookup pgdir va1 s3 = Ret None s3 /\
    page_lookup pgdir va2 s3 = Ret (Some (pp, pte2)) s3.
Proof.
  intros Hl1 Hl2 Hn1 Hn2 Hne Hs11 Hs12 Hs21 Hs22 Hp1 Hp2 Hpp H20 Hperm1 Hperm2 Hw Hr.
  pose proof (pow2_ge2 w Hw) as Hpow.
  set (r := pp_ref (pages st pp)) in *.
  set (v1 := Z.lor (Z.lor (page2pa pp) PTE_P) (u32 perm1)).
  set (v2 := Z.lor (Z.lor (page2pa pp) PTE_P) (u32 perm2)).
  (* first insert *)
  pose proof (page_insert_fresh w pgdir pp va1 perm1 pte1 st Hl1 Hn1 Hp1) as E1.
  fold r in E1. fold v1 in E1.
  assert (W1 : ref_wrap w (r + 1) = r + 1) by (unfold ref_wrap; apply Z.mod_small; lia).
  rewrite W1 in E1. set (s1 := with_mem (with_ref st pp (r + 1)) (upd (mem st) pte1 v1)) in *.
  assert (M1 : maps s1 pgdir va1 pte1 pp).
  { apply (maps_after_store st s1 pgdir va1 pte1 pp perm1); try assumption; reflexivity. }
  (* second insert *)
  assert (Hl2' : leaf_of s1 pgdir va2 = Some pte2).
  { rewrite <- Hl2. apply leaf_of_ext; [|reflexivity].
    cbn [s1 with_mem mem]. apply upd_other. congruence. }
  assert (Hp2' : has_flag (mem s1 pte2) PTE_P = false).
  { cbn [s1 with_mem mem]. rewrite upd_other by congruence. exact Hp2. }
  pose proof (page_insert_fresh w pgdir pp va2 perm2 pte2 s1 Hl2' Hn2 Hp2') as E2.
  assert (R1 : pp_ref (pages s1 pp) = r + 1).
  { cbn [s1 with_mem pages]. now rewrite with_ref_same. }
  rewrite R1 in E2. fold v2 in E2.
  assert (W2 : ref_wrap w (r + 1 + 1) = r + 2) by (unfold ref_wrap; rewrite Z.mod_small; lia).
  rewrite W2 in E2. set (s2 := with_mem (with_ref s1 pp (r + 2)) (upd (mem s1) pte2 v2)) in *.
  assert (M2 : maps s2 pgdir va2 pte2 pp).
  { apply (maps_after_store s1 s2 pgdir va2 pte2 pp perm2); try assumption; reflexivity. }
  assert (M1' : maps s2 pgdir va1 pte1 pp).
  { destruct M1 as (A & B & C & D & F). unfold maps.
    split.
    { rewrite <- A. apply leaf_of_ext; [|reflexivity].
      cbn [s2 with_mem mem]. apply upd_other. congruence. }
    split; [exact B|]. cbn [s2 with_mem mem]. rewrite upd_other by congruence.
    split; [exact C|]. split; [exact D|exact F]. }
  assert (R2 : pp_ref (pages s2 pp) = r + 2).
  { cbn [s2 with_mem pages]. now rewrite with_ref_same. }
  (* remove the first *)
  set (s2' := with_flush (with_mem s2 (upd (mem s2) pte1 0)) va1).
  assert (Hr2 : 0 <= pp_ref (pages s2' pp) < 2 ^ w) by (change (pages s2') with (pages s2); lia).
  destruct (page_decref_effect w pp s2' Hw Hr2)
    as (s3 & E3 & (_ & Gn & _) & Gm & _ & Gr & _ & _ & Gkeep).
  change (pages s2') with (pages s2) in Gr, Gkeep. rewrite R2 in Gr, Gkeep.
  assert (E3' : page_remove w pgdir va1 s2 = Ret tt s3).
  { now rewrite (page_remove_maps w _ _ _ _ _ M1'). }
  assert (W3 : ref_wrap w (r + 2 - 1) = r + 1) by (unfold ref_wrap; rewrite Z.mod_small; lia).
  destruct Gkeep as (_ & Gh & _); [lia|].
  assert (U3 : unmapped s3 pgdir va1).
  { apply (unmapped_after_clear s2 s3 pgdir va1 pte1 pp M1'); assumption. }
  assert (M3 : maps s3 pgdir va2 pte2 pp).
  { destruct M2 as (A & B & C & D & F). unfold maps.
    split.
    { rewrite <- A. apply leaf_of_ext; [|exact Gn].
      rewrite Gm. cbn [s2' with_flush with_mem mem]. apply upd_other. congruence. }
    split; [exact B|]. rewrite Gm. cbn [s2' with_flush with_mem mem].
    rewrite upd_other by congruence.
    split; [exact C|]. split; [exact D|]. rewrite Gn. exact F. }
  exists s1, s2, s3.
  split; [exact E1|]. split; [exact E2|]. split; [exact R2|].
  split; [now apply page_lookup_maps|]. split; [now apply page_lookup_maps|].
  split; [exact E3'|]. split; [now rewrite Gr, W3|].
  split; [exact Gh|].
  split; [now apply page_lookup_unmapped|now apply page_lookup_maps].
Qed.

Lemma page_shared_by_two_mappings_witness :
  exists s1 s2 s3,
    page_insert 16 example_pgdir 301 0x2000 PTE_U example_mapped = Ret 0 s1 /\
    page_insert 16 example_pgdir 301 0x3000 PTE_W s1 = Ret 0 s2 /\
    pp_ref (pages s2 301) = 4 /\
    page_remove 16 example_pgdir 0x2000 s2 = Ret tt s3 /\
    pp_ref (pages s3 301) = 3 /\
    page_lookup example_pgdir 0x3000 s3 = Ret (Some (301, KERNBASE + 0x20100C)) s3.
Proof.
  destruct (page_shared_by_two_mappings 16 example_pgdir 301 0x2000 0x3000 PTE_U PTE_W
              (KERNBASE + 0x201008) (KERNBASE + 0x20100C) example_mapped)
    as (s1 & s2 & s3 & E1 & E2 & R2 & _ & _ & E3 & R3 & _ & _ & L3).
  - reflexivity.
  - reflexivity.
  - discriminate.
  - discriminate.
  - discriminate.
  - vm_compute. discriminate.
  - vm_compute. discriminate.
  - vm_compute. discriminate.
  - vm_compute. discriminate.
  - reflexivity.
  - reflexivity.
  - vm_compute; split; [discriminate|reflexivity].
  - vm_compute. discriminate.
  - vm_compute; split; [discriminate|reflexivity].
  - vm_compute; split; [discriminate|reflexivity].
  - reflexivity.
  - vm_compute; split; [discriminate|reflexivity].
  - exists s1, s2, s3. repeat (split; [assumption|]). exact L3.
Defined.

Lemma PTX_range (va : Z) : 0 <= PTX va < 1024.
Proof.
  unfold PTX. change 0x3FF with (Z.ones 10). rewrite Z.land_ones by lia.
  change (2 ^ 10) with 1024. apply Z.mod_pos_bound. lia.
Qed.

Lemma PDX_range (va : Z) : 0 <= PDX va < 1024.
Proof.
  unfold PDX. change 0x3FF with (Z.ones 10). rewrite Z.land_ones by lia.
  change (2 ^ 10) with 1024. apply Z.mod_pos_bound. lia.
Qed.

Lemma has_flag_table_entry (pp : Z) :
  has_flag (Z.lor (Z.lor (Z.lor (page2pa pp) PTE_P) PTE_W) PTE_U) PTE_P = true /\
  has_flag (Z.lor (Z.lor (Z.lor (page2pa pp) PTE_P) PTE_W) PTE_U) PTE_PS = false.
Proof.
  rewrite lor_flags3.
  rewrite !has_flag_page2pa_lor by (cbv; split; [discriminate|reflexivity]).
  split; reflexivity.
Qed.

(** Insert where no table exists yet.  With the directory entry of [va]
    absent, a well-linked free list headed by frame [h], physical memory
    inside the kernel window and the directory slot outside the page of [h]:
    page_insert of another frame [pp] returns 0; [h] has become the
    second-level table, with count 1, and the free list starts at its
    successor; [pp] has one more reference and page_lookup at [va] returns
    it, through a slot of the new table; nothing was invalidated. *)
Theorem page_insert_allocates_table (w pgdir pp va perm h : Z) (st : State) :
  let slot := entry pgdir (PDX va) in
  let kva := page2pa h + KERNBASE in
  has_flag (mem st slot) PTE_P = false ->
  page_free_list st = Some h -> le_prev (pages st h) = LinkHead ->
  0 <= h < npage st -> npage st * PGSIZE + KERNBASE <= 2 ^ 32 ->
  ~ (kva <= slot < kva + PGSIZE) ->
  pp <> h -> 0 <= pp < npage st -> 0 <= perm < PGSIZE ->
  0 <= pp_ref (pages st pp) < 2 ^ w - 1 ->
  exists st',
    page_insert w pgdir pp va perm st = Ret 0 st' /\
    mem st' slot = Z.lor (Z.lor (Z.lor (page2pa h) PTE_P) PTE_W) PTE_U /\
    pp_ref (pages st' h) = 1 /\
    page_free_list st' = le_next (pages st h) /\
    pp_ref (pages st' pp) = pp_ref (pages st pp) + 1 /\
    page_lookup pgdir va st' = Ret (Some (pp, entry kva (PTX va))) st' /\
    check_va2pa pgdir va st' = Ret (page2pa pp) st' /\
    tlb_flushed st' = tlb_flushed st.
Proof.
  intros slot kva Ha Hf Hp Hh Hwin Hout Hne Hpp Hperm Hr.
  unfold KERNBASE, PGSIZE in Hwin. change (2 ^ 32) with 4294967296 in Hwin.
  assert (Hn20 : npage st <= 2 ^ 20) by (change (2 ^ 20) with 1048576; lia).
  assert (Hh20 : 0 <= h < 2 ^ 20) by lia.
  assert (Hpa : page2pa h = h * 4096) by (now apply page2pa_small).
  assert (Hk : u32 (page2pa h + KERNBASE) = kva).
  { apply u32_small. unfold kva. rewrite Hpa. unfold KERNBASE.
    change (2 ^ 32) with 4294967296. lia. }
  destruct (pgdir_walk_new_table st pgdir va h Ha Hf Hp Hh Hn20) as (sa & Ea & Ew).
  destruct (page_alloc_head st h Hf Hp) as (sa' & Ea' & Gh & Gp & (_ & Gn & _) & Gm & Gt & Go).
  rewrite Ea in Ea'. injection Ea' as <-.
  rewrite Hk in Ew. fold slot in Ew.
  set (pte := entry kva (PTX va)) in *.
  set (tv := Z.lor (Z.lor (Z.lor (page2pa h) PTE_P) PTE_W) PTE_U) in *.
  set (s1 := with_mem (with_ref sa h 1) (upd (fill (mem st) kva PGSIZE 0) slot tv)) in *.
  pose proof (PTX_range va) as Hx.
  assert (Hin : kva <= pte < kva + PGSIZE) by (unfold pte, entry, PGSIZE; lia).
  assert (Hps : pte <> slot) by (intros E; rewrite E in Hin; contradiction).
  assert (Hnn : pte <> NULL).
  { unfold NULL, pte, entry, kva, KERNBASE. lia. }
  assert (Hz : mem s1 pte = 0).
  { cbn [s1 with_mem mem]. rewrite upd_other by exact Hps. unfold fill.
    destruct (Z.leb_spec kva pte), (Z.ltb_spec pte (kva + PGSIZE)); cbn; lia. }
  assert (Hrp : pp_ref (pages s1 pp) = pp_ref (pages st pp)).
  { cbn [s1 with_mem pages]. rewrite with_ref_other by exact Hne. rewrite (Go pp Hne).
    destruct (match le_next (pages st h) with Some n => pp =? n | None => false end);
      reflexivity. }
  unfold page_insert. kstep Ew.
  destruct (Z.eqb_spec pte NULL); [contradiction|].
  kstep_refl. cbv beta.
  kstep (set_pp_ref_eq pp (ref_wrap w (pp_ref (pages s1 pp) + 1)) s1).
  kstep_refl. cbv beta. cbn [mem with_ref]. rewrite Hz.
  change (has_flag 0 PTE_P) with false. unfold when. kstep_refl. kstep_refl.
  unfold ret. eexists. split; [reflexivity|].
  set (s2 := mkState _ _ _ _ _ _ _).
  assert (Hs2 : mem s2 slot = tv).
  { cbn [s2 mem]. rewrite upd_other by congruence. cbn [s1 with_mem mem].
    apply upd_same. }
  assert (Hm : maps s2 pgdir va pte pp).
  { unfold maps. destruct (has_flag_table_entry h) as (F1 & F2). fold tv in F1, F2.
    split.
    { unfold leaf_of. cbv zeta. fold slot. rewrite Hs2, F1, F2.
      unfold tv. rewrite lor_flags3, PTE_ADDR_page2pa_flags
        by (assumption || exact flags_PWU_small).
      rewrite PPN_page2pa by assumption.
      change (npage s2) with (npage sa). rewrite Gn.
      destruct (Z.ltb_spec h (npage st)); [|lia]. now rewrite Hk. }
    split; [exact Hnn|]. cbn [s2 mem]. rewrite upd_same.
    split; [apply has_flag_P_set|].
    split; [apply PPN_PTE_ADDR_leaf; (assumption || lia)|].
    change (npage s2) with (npage sa). rewrite Gn. lia. }
  assert (Hpg : pages s2 =
                pages (with_ref s1 pp (ref_wrap w (pp_ref (pages s1 pp) + 1))))
    by reflexivity.
  split; [exact Hs2|].
  split.
  { rewrite Hpg, with_ref_other by congruence. cbn [s1 with_mem pages].
    now rewrite with_ref_same. }
  split; [exact Gh|].
  split.
  { rewrite Hpg, with_ref_same. cbn [pp_ref]. rewrite Hrp.
    unfold ref_wrap. apply Z.mod_small. lia. }
  split; [now apply page_lookup_maps|].
  split; [now apply check_va2pa_maps with (pte := pte)|exact Gt].
Qed.

Lemma page_insert_allocates_table_witness :
  exists st',
    page_insert 16 example_pgdir 301 0x1000000 PTE_U example_mapped = Ret 0 st' /\
    pp_ref (pages st' 700) = 1 /\ page_free_list st' = Some 701 /\
    pp_ref (pages st' 301) = 3 /\
    page_lookup example_pgdir 0x1000000 st' = Ret (Some (301, KERNBASE + 0x2BC000)) st'.
Proof.
  destruct (page_insert_allocates_table 16 example_pgdir 301 0x1000000 PTE_U 700
              example_mapped)
    as (st' & E & _ & Hh & Hf & Hr & Hl & _).
  - reflexivity.
  - reflexivity.
  - reflexivity.
  - vm_compute; split; [discriminate|reflexivity].
  - vm_compute. discriminate.
  - vm_compute. intros (A & B). apply A. reflexivity.
  - discriminate.
  - vm_compute; split; [discriminate|reflexivity].
  - vm_compute; split; [discriminate|reflexivity].
  - vm_compute; split; [discriminate|reflexivity].
  - exists st'. repeat (split; [assumption|]). exact Hl.
Defined.

(** ** Aggregate permissions *)

Lemma has_flag_bit (v k : Z) : 0 <= k -> has_flag v (2 ^ k) = Z.testbit v k.
Proof.
  intros Hk. unfold has_flag.
  assert (Hb : Z.testbit (Z.land v (2 ^ k)) k = Z.testbit v k).
  { rewrite Z.land_spec, Z.pow2_bits_true by assumption. apply andb_true_r. }
  destruct (Z.eqb_spec (Z.land v (2 ^ k)) 0) as [E|E].
  - rewrite E, Z.bits_0 in Hb. now rewrite <- Hb.
  - destruct (Z.testbit v k) eqn:T; [reflexivity|]. exfalso. apply E.
    apply Z.bits_inj'. intros n Hn. rewrite Z.land_spec, Z.bits_0.
    destruct (Z.eq_dec n k) as [->|N].
    + now rewrite T.
    + rewrite Z.pow2_bits_false by congruence. apply andb_false_r.
Qed.

Lemma has_flag_bits (v : Z) :
  has_flag v PTE_P = Z.testbit v 0 /\ has_flag v PTE_W = Z.testbit v 1 /\
  has_flag v PTE_U = Z.testbit v 2 /\ has_flag v PTE_PS = Z.testbit v 7.
Proof.
  repeat split; [apply (has_flag_bit v 0)|apply (has_flag_bit v 1)
                |apply (has_flag_bit v 2)|apply (has_flag_bit v 7)]; lia.
Qed.

Lemma testbit_add128_low (x n : Z) :
  0 <= n < 7 -> Z.testbit (x + 128) n = Z.testbit x n.
Proof.
  intros Hn.
  assert (H : forall a, Z.testbit a n = Z.testbit (a mod 2 ^ 7) n).
  { intros a. rewrite Z.testbit_mod_pow2 by lia.
    destruct (Z.ltb_spec n 7); [reflexivity|lia]. }
  rewrite (H (x + 128)), (H x). f_equal.
  change 128 with (1 * 2 ^ 7). apply Z.mod_add. discriminate.
Qed.

Lemma testbit_add128_7 (x : Z) : Z.testbit (x + 128) 7 = negb (Z.testbit x 7).
Proof.
  rewrite !Z.testbit_odd, !Z.shiftr_div_pow2 by lia. change (2 ^ 7) with 128.
  replace (x + 128) with (x + 1 * 128) by lia. rewrite Z.div_add by lia.
  rewrite Z.odd_add. cbn. now destruct (Z.odd (x / 128)).
Qed.

Lemma PGOFF_bit (x n : Z) : 0 <= n < 12 -> Z.testbit (PGOFF x) n = Z.testbit x n.
Proof.
  intros Hn. unfold PGOFF. change 0xFFF with (Z.ones 12).
  rewrite Z.land_spec, Z.ones_spec_low by lia. apply andb_true_r.
Qed.

Lemma PGOFF_range (x : Z) : 0 <= PGOFF x < 4096.
Proof.
  unfold PGOFF. change 0xFFF with (Z.ones 12). rewrite Z.land_ones by lia.
  change (2 ^ 12) with 4096. apply Z.mod_pos_bound. lia.
Qed.

Lemma vaperms_bit (pde e n : Z) :
  0 <= n <= 7 ->
  Z.testbit (Z.land (u32 (PGOFF (Z.land pde e) + PTE_PS)) (Z.lor pde e)) n =
  if n =? 7 then xorb (Z.testbit pde 7) (Z.testbit e 7)
  else Z.testbit pde n && Z.testbit e n.
Proof.
  intros Hn. pose proof (PGOFF_range (Z.land pde e)) as Hr.
  rewrite u32_small by (unfold PTE_PS; change (2 ^ 32) with 4294967296; lia).
  rewrite Z.land_spec, Z.lor_spec. unfold PTE_PS.
  destruct (Z.eqb_spec n 7) as [->|N].
  - rewrite testbit_add128_7, PGOFF_bit, Z.land_spec by lia.
    destruct (Z.testbit pde 7), (Z.testbit e 7); reflexivity.
  - rewrite testbit_add128_low, PGOFF_bit, Z.land_spec by lia.
    destruct (Z.testbit pde n), (Z.testbit e n); reflexivity.
Qed.

Lemma has_flag_lor (a b f : Z) :
  has_flag (Z.lor a b) f = has_flag a f || has_flag b f.
Proof.
  unfold has_flag. rewrite Z.land_lor_distr_l.
  destruct (Z.eqb_spec (Z.land a f) 0) as [Ea|Ea],
           (Z.eqb_spec (Z.land b f) 0) as [Eb|Eb]; cbn.
  - rewrite Ea, Eb. reflexivity.
  - rewrite Ea, Z.lor_0_l. now destruct (Z.eqb_spec (Z.land b f) 0).
  - rewrite Eb, Z.lor_0_r. now destruct (Z.eqb_spec (Z.land a f) 0).
  - destruct (Z.eqb_spec (Z.lor (Z.land a f) (Z.land b f)) 0) as [E|E]; [|reflexivity].
    apply Z.lor_eq_0_iff in E. tauto.
Qed.

Lemma get_vaperms_leaf (st : State) (pgdir va pte : Z) :
  leaf_of st pgdir va = Some pte -> pte <> NULL ->
  has_flag (mem st pte) PTE_P = true ->
  get_vaperms pgdir va st =
  Ret (Z.land (u32 (PGOFF (Z.land (mem st (entry pgdir (PDX va))) (mem st pte)) + PTE_PS))
              (Z.lor (mem st (entry pgdir (PDX va))) (mem st pte))) st.
Proof.
  intros Hl Hn Hp. unfold get_vaperms. cbv zeta.
  kstep (pgdir_walk_leaf st pgdir va 0 pte Hl).
  destruct (Z.eqb_spec pte NULL); [contradiction|].
  kstep_refl. cbv beta. rewrite Hp. cbn [negb].
  kstep_refl. kstep_refl. reflexivity.
Qed.

Lemma vaperms_flags (pde e : Z) :
  let r := Z.land (u32 (PGOFF (Z.land pde e) + PTE_PS)) (Z.lor pde e) in
  has_flag r PTE_P = has_flag pde PTE_P && has_flag e PTE_P /\
  has_flag r PTE_W = has_flag pde PTE_W && has_flag e PTE_W /\
  has_flag r PTE_U = has_flag pde PTE_U && has_flag e PTE_U /\
  has_flag r PTE_PS = xorb (has_flag pde PTE_PS) (has_flag e PTE_PS).
Proof.
  intros r.
  destruct (has_flag_bits pde) as (Ep1 & Ep2 & Ep3 & Ep4).
  destruct (has_flag_bits e) as (Ee1 & Ee2 & Ee3 & Ee4).
  destruct (has_flag_bits r) as (Er1 & Er2 & Er3 & Er4).
  rewrite Er1, Er2, Er3, Er4, Ep1, Ep2, Ep3, Ep4, Ee1, Ee2, Ee3, Ee4.
  unfold r. rewrite !vaperms_bit by lia. cbn [Z.eqb Pos.eqb].
  repeat split; reflexivity.
Qed.

(** get_vaperms.  Where nothing is mapped it returns 0.  Where a frame is
    mapped, the result has the present bit, has PTE_W exactly when both the
    directory entry and the leaf entry have it, and likewise PTE_U; and it
    has PTE_PS exactly when one of the two entries has it and the other does
    not, because the sum in the returned expression carries out of that bit
    when both have it.  For a large page, where the leaf is the directory
    entry itself, PTE_PS is therefore never reported. *)
Theorem get_vaperms_combines_both_levels (pgdir va : Z) (st : State) :
  (unmapped st pgdir va -> get_vaperms pgdir va st = Ret 0 st) /\
  (forall pte pp, maps st pgdir va pte pp ->
     let pde := mem st (entry pgdir (PDX va)) in
     let e := mem st pte in
     exists r,
       get_vaperms pgdir va st = Ret r st /\
       has_flag r PTE_P = true /\
       has_flag r PTE_W = has_flag pde PTE_W && has_flag e PTE_W /\
       has_flag r PTE_U = has_flag pde PTE_U && has_flag e PTE_U /\
       has_flag r PTE_PS = xorb (has_flag pde PTE_PS) (has_flag e PTE_PS) /\
       (pte = entry pgdir (PDX va) -> has_flag r PTE_PS = false)).
Proof.
  split.
  - intros [Ha|(_ & pte & Hl & Hp)]; unfold get_vaperms; cbv zeta.
    + rewrite (bind_Ret _ _ st NULL st); [reflexivity|].
      now rewrite pgdir_walk_absent.
    + kstep (pgdir_walk_leaf st pgdir va 0 pte Hl).
      destruct (pte =? NULL); [reflexivity|].
      kstep_refl. cbv beta. now rewrite Hp.
  - intros pte pp (Hl & Hn & Hp & _) pde e.
    assert (HP : has_flag pde PTE_P = true).
    { unfold leaf_of in Hl. cbv zeta in Hl. fold pde in Hl.
      destruct (has_flag pde PTE_P); [reflexivity|discriminate]. }
    eexists. split; [exact (get_vaperms_leaf st pgdir va pte Hl Hn Hp)|].
    fold pde. fold e. fold e in Hp.
    destruct (vaperms_flags pde e) as (F1 & F2 & F3 & F4). cbv zeta in F1, F2, F3, F4.
    rewrite F1, F2, F3, F4, HP, Hp.
    split; [reflexivity|]. split; [reflexivity|]. split; [reflexivity|].
    split; [reflexivity|]. intros ->. fold pde in e. subst e.
    now destruct (has_flag pde PTE_PS).
Qed.

Lemma get_vaperms_combines_both_levels_witness :
  get_vaperms example_pgdir 0 example_mapped = Ret 0 example_mapped /\
  get_vaperms example_pgdir 0x1000 example_mapped = Ret 5 example_mapped /\
  get_vaperms example_pgdir 0x8ABCDE example_mapped = Ret 3 example_mapped.
Proof.
  pose proof (get_vaperms_combines_both_levels example_pgdir 0 example_mapped) as H0.
  pose proof (get_vaperms_combines_both_levels example_pgdir 0x1000 example_mapped) as H1.
  pose proof (get_vaperms_combines_both_levels example_pgdir 0x8ABCDE example_mapped) as H2.
  split; [|split].
  - apply (proj1 H0). right. split; [reflexivity|].
    exists (KERNBASE + 0x201000). split; reflexivity.
  - destruct (proj2 H1 (KERNBASE + 0x201004) 300) as (r & E & _).
    + unfold maps. split; [reflexivity|]. split; [discriminate|].
      split; [reflexivity|]. split; reflexivity.
    + rewrite E. vm_compute in E. injection E as <-. reflexivity.
  - destruct (proj2 H2 (example_pgdir + 8) 1024) as (r & E & _).
    + unfold maps. split; [reflexivity|]. split; [discriminate|].
      split; [reflexivity|]. split; reflexivity.
    + rewrite E. vm_compute in E. injection E as <-. reflexivity.
Defined.

(** ** Boot-time mappings *)

Lemma PDX_PTX_div (va : Z) :
  0 <= va < 2 ^ 32 ->
  PDX va = va / PGSIZE / 1024 /\ PTX va = (va / PGSIZE) mod 1024.
Proof.
  intros H. unfold PDX, PTX, PDXSHIFT, PTXSHIFT, PGSIZE.
  change 0x3FF with (Z.ones 10). rewrite !Z.land_ones, !Z.shiftr_div_pow2 by lia.
  change (2 ^ 10) with 1024. change (2 ^ 12) with 4096.
  change (2 ^ 22) with 4194304. change (2 ^ 32) with 4294967296 in H.
  split; [|reflexivity]. Z.div_mod_to_equations. lia.
Qed.

Lemma page_index (vpn off : Z) :
  0 <= vpn < 2 ^ 20 -> 0 <= off < PGSIZE ->
  0 <= vpn * PGSIZE + off < 2 ^ 32 /\
  PDX (vpn * PGSIZE + off) = vpn / 1024 /\
  PTX (vpn * PGSIZE + off) = vpn mod 1024.
Proof.
  intros Hv Ho. unfold PGSIZE in *. change (2 ^ 20) with 1048576 in Hv.
  assert (Hr : 0 <= vpn * 4096 + off < 2 ^ 32)
    by (change (2 ^ 32) with 4294967296; lia).
  split; [exact Hr|].
  destruct (PDX_PTX_div _ Hr) as (-> & ->). unfold PGSIZE.
  replace ((vpn * 4096 + off) / 4096) with vpn
    by (Z.div_mod_to_equations; lia).
  split; reflexivity.
Qed.

Lemma u32_add_l (a b : Z) : u32 (u32 a + b) = u32 (a + b).
Proof. unfold u32. apply Z.add_mod_idemp_l. discriminate. Qed.

Lemma ROUNDUP_aligned (a n : Z) :
  0 < n -> 0 <= a -> a + n - 1 < 2 ^ 32 -> a mod n = 0 -> ROUNDUP a n = a.
Proof.
  intros Hn Ha Hb Hm. destruct (ROUNDUP_spec a n Hn Ha Hb) as (Hr & Hl).
  assert (E : ROUNDUP a n - a = n * ((ROUNDUP a n - a) / n))
    by (apply Z.div_exact; [lia|];
        rewrite Zminus_mod, Hr, Hm; reflexivity).
  remember ((ROUNDUP a n - a) / n) as q.
  assert (q < 1) by (apply Z.nle_gt; intros Hq; nia).
  assert (0 <= q) by (apply Z.nlt_ge; intros Hq; nia).
  nia.
Qed.

Lemma PTE_ADDR_aligned (x f : Z) :
  0 <= x < 2 ^ 32 -> x mod PGSIZE = 0 -> 0 <= f < PGSIZE ->
  PTE_ADDR (Z.lor x f) = x /\ PPN x = x / PGSIZE.
Proof.
  intros Hx Hm Hf. unfold PGSIZE in *.
  assert (E : x = x / 4096 * 4096) by (Z.div_mod_to_equations; lia).
  assert (Hp : 0 <= x / 4096 < 2 ^ 20).
  { change (2 ^ 32) with 4294967296 in Hx. change (2 ^ 20) with 1048576.
    Z.div_mod_to_equations. lia. }
  split.
  - rewrite E at 1 2. rewrite <- (page2pa_small _ Hp) at 1 2.
    rewrite PTE_ADDR_page2pa_flags by assumption.
    rewrite page2pa_small by assumption. unfold PGSIZE. lia.
  - unfold PPN, PTXSHIFT. now rewrite Z.shiftr_div_pow2 by lia.
Qed.

Lemma has_flag_PWU (x : Z) :
  0 <= x < 2 ^ 32 -> x mod PGSIZE = 0 ->
  has_flag (Z.lor (Z.lor (Z.lor x PTE_P) PTE_W) PTE_U) PTE_P = true /\
  has_flag (Z.lor (Z.lor (Z.lor x PTE_P) PTE_W) PTE_U) PTE_PS = false.
Proof.
  intros Hx Hm. unfold PGSIZE in *.
  assert (E : x = page2pa (x / 4096)).
  { rewrite page2pa_small.
    - unfold PGSIZE. Z.div_mod_to_equations. lia.
    - change (2 ^ 32) with 4294967296 in Hx. change (2 ^ 20) with 1048576.
      Z.div_mod_to_equations. lia. }
  rewrite E. apply has_flag_table_entry.
Qed.

Lemma table_entry_WU (x : Z) :
  has_flag (Z.lor (Z.lor (Z.lor x PTE_P) PTE_W) PTE_U) PTE_W = true /\
  has_flag (Z.lor (Z.lor (Z.lor x PTE_P) PTE_W) PTE_U) PTE_U = true.
Proof.
  rewrite !has_flag_lor. split.
  - change (has_flag PTE_W PTE_W) with true. now rewrite orb_true_r.
  - change (has_flag PTE_U PTE_U) with true. apply orb_true_r.
Qed.

(** The allocating path of the boot walker, with the state it leaves. *)
Lemma boot_pgdir_walk_fresh (kernel_end : Z) (st : State) (pgdir la create c : Z) :
  has_flag (mem st (entry pgdir (PDX la))) PTE_P = false ->
  create <> 0 -> create <> 2 ->
  boot_freemem st = c -> c mod PGSIZE = 0 -> KERNBASE <= c ->
  c + PGSIZE <= KERNBASE + maxpa st -> KERNBASE + maxpa st < 2 ^ 32 ->
  (c - KERNBASE) / PGSIZE < npage st ->
  boot_pgdir_walk kernel_end pgdir la create st =
  Ret (entry c (PTX la))
      (mkState (maxpa st) (npage st) (c + PGSIZE) (pages st) (page_free_list st)
               (upd (fill (mem st) c PGSIZE 0) (entry pgdir (PDX la))
                    (Z.lor (Z.lor (Z.lor (c - KERNBASE) PTE_P) PTE_W) PTE_U))
               (tlb_flushed st)).
Proof.
  intros Habs Hc0 Hc2 Hbf Hal Hk Hfit Hmax Hnp.
  unfold boot_pgdir_walk. cbv zeta. kstep_refl. cbv beta. rewrite Habs.
  destruct (Z.eqb_spec create 0); [contradiction|].
  destruct (Z.eqb_spec create 2); [contradiction|].
  assert (Hcur : boot_cursor kernel_end st = c).
  { unfold boot_cursor. rewrite Hbf.
    destruct (Z.eqb_spec c 0); [unfold KERNBASE in Hk; lia|reflexivity]. }
  assert (H32 : 2 ^ 32 = 4294967296) by reflexivity.
  assert (Hru : ROUNDUP c PGSIZE = c).
  { apply ROUNDUP_aligned; unfold PGSIZE, KERNBASE in *; lia. }
  assert (Ha : boot_alloc kernel_end PGSIZE PGSIZE st =
               Ret c (with_boot_freemem st (c + PGSIZE))).
  { rewrite boot_alloc_unfold. cbv zeta. rewrite Hcur, Hru.
    rewrite u32_small by (unfold PGSIZE, KERNBASE in *; lia).
    destruct (Z.ltb_spec (c + PGSIZE) KERNBASE);
      [unfold PGSIZE, KERNBASE in *; lia|].
    destruct (Z.ltb_spec (maxpa st) (c + PGSIZE - KERNBASE)); [lia|reflexivity]. }
  kstep Ha. kstep_refl. unfold PADDR.
  destruct (Z.ltb_spec c KERNBASE); [lia|].
  kstep_refl. kstep_refl. kstep_refl. cbv beta.
  cbn [mem with_boot_freemem npage maxpa pages page_free_list tlb_flushed boot_freemem].
  rewrite upd_same.
  destruct (PTE_ADDR_aligned (c - KERNBASE) (Z.lor (Z.lor PTE_P PTE_W) PTE_U))
    as (Hpa & Hppn);
    [unfold PGSIZE, KERNBASE in *; lia
    |unfold PGSIZE, KERNBASE in *; change 3221225472 with (786432 * 4096);
     rewrite Zminus_mod, Hal, Z.mod_mul by lia; reflexivity
    |exact flags_PWU_small|].
  rewrite lor_flags3, Hpa.
  match goal with
  | |- context [KADDR ?pa ?k ?s] =>
      assert (Hka : KADDR pa s = Ret (u32 (pa + KERNBASE)) s)
        by (apply KADDR_ok; cbn [npage]; rewrite Hppn; exact Hnp)
  | |- context [bind (KADDR ?pa) ?k ?s] =>
      assert (Hka : KADDR pa s = Ret (u32 (pa + KERNBASE)) s)
        by (apply KADDR_ok; cbn [npage]; rewrite Hppn; exact Hnp)
  end.
  kstep Hka.
  replace (c - KERNBASE + KERNBASE) with c by lia.
  rewrite u32_small by (unfold PGSIZE, KERNBASE in *; lia).
  reflexivity.
Qed.

Lemma fill_in (f : Z -> Z) (lo len v x : Z) :
  lo <= x < lo + len -> fill f lo len v x = v.
Proof.
  intros H. unfold fill.
  destruct (Z.leb_spec lo x), (Z.ltb_spec x (lo + len)); cbn; try reflexivity; lia.
Qed.

Lemma fill_out (f : Z -> Z) (lo len v x : Z) :
  x < lo \/ lo + len <= x -> fill f lo len v x = f x.
Proof.
  intros H. unfold fill.
  destruct (Z.leb_spec lo x), (Z.ltb_spec x (lo + len)); cbn; try reflexivity; lia.
Qed.

Lemma PTE_ADDR_u32 (x : Z) : PTE_ADDR (u32 x) = PTE_ADDR x.
Proof.
  apply Z.bits_inj'. intros n Hn. rewrite !PTE_ADDR_spec by assumption.
  unfold u32. rewrite Z.testbit_mod_pow2 by lia.
  destruct (n <? 32), (Z.testbit x n), (12 <=? n); reflexivity.
Qed.

Lemma PTE_ADDR_idem (x : Z) : PTE_ADDR (PTE_ADDR x) = PTE_ADDR x.
Proof.
  apply Z.bits_inj'. intros n Hn. rewrite !PTE_ADDR_spec by assumption.
  destruct (Z.testbit x n), (12 <=? n), (n <? 32); reflexivity.
Qed.

(** One iteration of the 4KB loop of boot_map_segment: the walk in creating
    mode and the store of the entry. *)
Lemma boot_map_one (kernel_end pgdir vpn c e : Z) (st : State) :
  let slot := entry pgdir (vpn / 1024) in
  let absent := negb (has_flag (mem st slot) PTE_P) in
  0 <= vpn < 2 ^ 20 ->
  boot_freemem st = c -> c mod PGSIZE = 0 -> KERNBASE <= c -> pgdir + PGSIZE <= c ->
  maxpa st = npage st * PGSIZE -> KERNBASE + maxpa st < 2 ^ 32 ->
  table_below st pgdir c (vpn / 1024) ->
  (absent = true -> c + PGSIZE <= KERNBASE + maxpa st) ->
  exists s1,
    (pte <- boot_pgdir_walk kernel_end pgdir (u32 (vpn * PGSIZE)) 1 ;; store pte e) st
      = Ret tt s1 /\
    (maxpa s1 = maxpa st /\ npage s1 = npage st /\ pages s1 = pages st /\
     page_free_list s1 = page_free_list st /\ tlb_flushed s1 = tlb_flushed st) /\
    boot_freemem s1 = (if absent then c + PGSIZE else c) /\
    has_flag (mem s1 slot) PTE_P = true /\
    table_below s1 pgdir (boot_freemem s1) (vpn / 1024) /\
    mem s1 (entry (u32 (PTE_ADDR (mem s1 slot) + KERNBASE)) (vpn mod 1024)) = e /\
    (absent = false -> mem s1 slot = mem st slot) /\
    (absent = true -> u32 (PTE_ADDR (mem s1 slot) + KERNBASE) = c) /\
    (absent = true ->
       has_flag (mem s1 slot) PTE_W = true /\ has_flag (mem s1 slot) PTE_U = true) /\
    (forall a,
       ~ (a = slot /\ absent = true) -> ~ (c <= a < boot_freemem s1) ->
       a <> entry (u32 (PTE_ADDR (mem s1 slot) + KERNBASE)) (vpn mod 1024) ->
       mem s1 a = mem st a).
Proof.
  intros slot absent Hv Hbf Hal Hk Hdir Hmp Hmax Htb Hroom.
  destruct (page_index vpn 0 Hv) as (Hr & Hpdx & Hptx); [unfold PGSIZE; lia|].
  rewrite Z.add_0_r in Hr, Hpdx, Hptx.
  rewrite (u32_small _ Hr).
  assert (Hx : 0 <= vpn mod 1024 < 1024) by (apply Z.mod_pos_bound; lia).
  assert (Hd : 0 <= vpn / 1024 < 1024)
    by (change (2 ^ 20) with 1048576 in Hv; Z.div_mod_to_equations; lia).
  assert (H32 : 2 ^ 32 = 4294967296) by reflexivity.
  subst absent. destruct (has_flag (mem st slot) PTE_P) eqn:HP; cbn [negb] in *.
  - (* the table exists *)
    destruct (Htb HP) as (Hps & Hnp & HT & Hdis). cbv zeta in HT, Hdis.
    fold slot in Hps, Hnp, HT, Hdis.
    set (t := u32 (PTE_ADDR (mem st slot) + KERNBASE)) in *.
    assert (Hleaf : leaf_of st pgdir (vpn * PGSIZE) = Some (entry t (vpn mod 1024))).
    { unfold leaf_of. cbv zeta. rewrite Hpdx, Hptx. fold slot. rewrite HP, Hps.
      destruct (Z.ltb_spec (PPN (PTE_ADDR (mem st slot))) (npage st)); [reflexivity|lia]. }
    assert (Hne : entry t (vpn mod 1024) <> slot)
      by (unfold slot, entry, PGSIZE in *; lia).
    exists (with_mem st (upd (mem st) (entry t (vpn mod 1024)) e)).
    kstep (boot_pgdir_walk_leaf kernel_end st pgdir (vpn * PGSIZE) 1 _ Hleaf).
    rewrite store_eq. cbn [with_mem mem maxpa npage pages page_free_list
                                    tlb_flushed boot_freemem].
    rewrite (upd_other _ _ _ slot) by congruence. fold t. rewrite upd_same.
    split; [reflexivity|]. split; [repeat split|]. split; [exact Hbf|].
    split; [exact HP|]. split.
    { unfold table_below. cbv zeta. cbn [with_mem mem npage]. fold slot.
      rewrite (upd_other _ _ _ slot) by congruence. fold t. rewrite Hbf.
      intros _. repeat split; assumption. }
    split; [reflexivity|]. split; [reflexivity|]. split; [discriminate|].
    split; [discriminate|].
    intros a _ _ Ha. now rewrite upd_other by exact Ha.
  - (* a table is allocated *)
    specialize (Hroom eq_refl).
    assert (Hnpc : (c - KERNBASE) / PGSIZE < npage st)
      by (unfold PGSIZE, KERNBASE in *; Z.div_mod_to_equations; lia).
    assert (Hw := boot_pgdir_walk_fresh kernel_end st pgdir (vpn * PGSIZE) 1 c).
    rewrite Hpdx, Hptx in Hw. fold slot in Hw.
    specialize (Hw HP ltac:(discriminate) ltac:(discriminate) Hbf Hal Hk Hroom Hmax Hnpc).
    set (pdev := Z.lor (Z.lor (Z.lor (c - KERNBASE) PTE_P) PTE_W) PTE_U) in *.
    assert (Hcr : 0 <= c - KERNBASE < 2 ^ 32) by (unfold PGSIZE, KERNBASE in *; lia).
    assert (Hcm : (c - KERNBASE) mod PGSIZE = 0).
    { unfold PGSIZE, KERNBASE in *. change 3221225472 with (786432 * 4096).
      rewrite Zminus_mod, Hal, Z.mod_mul by lia. reflexivity. }
    destruct (PTE_ADDR_aligned (c - KERNBASE) (Z.lor (Z.lor PTE_P PTE_W) PTE_U)
                Hcr Hcm flags_PWU_small) as (Hpa & Hppn).
    rewrite <- lor_flags3 in Hpa. fold pdev in Hpa.
    destruct (has_flag_PWU (c - KERNBASE) Hcr Hcm) as (HP1 & HPS1). fold pdev in HP1, HPS1.
    assert (Ht : u32 (PTE_ADDR pdev + KERNBASE) = c).
    { rewrite Hpa. replace (c - KERNBASE + KERNBASE) with c by lia.
      apply u32_small. unfold PGSIZE, KERNBASE in *. lia. }
    assert (Hne : entry c (vpn mod 1024) <> slot)
      by (unfold slot, entry, PGSIZE in *; lia).
    exists (mkState (maxpa st) (npage st) (c + PGSIZE) (pages st) (page_free_list st)
              (upd (upd (fill (mem st) c PGSIZE 0) slot pdev)
                   (entry c (vpn mod 1024)) e)
              (tlb_flushed st)).
    kstep Hw. rewrite store_eq.
    cbn [with_mem mem maxpa npage pages page_free_list tlb_flushed boot_freemem].
    rewrite (upd_other _ _ _ slot) by congruence. rewrite upd_same, Ht, upd_same.
    split; [reflexivity|]. split; [repeat split|]. split; [reflexivity|].
    split; [exact HP1|]. split.
    { unfold table_below. cbv zeta. cbn [with_mem mem npage]. fold slot.
      rewrite (upd_other _ _ _ slot) by congruence. rewrite upd_same, Ht.
      intros _. split; [exact HPS1|]. split; [rewrite Hpa, Hppn; exact Hnpc|].
      split; [lia|right; exact Hdir]. }
    split; [reflexivity|]. split; [discriminate|]. split; [reflexivity|].
    split; [intros _; exact (table_entry_WU (c - KERNBASE))|].
    intros a Hs Hc Ha. rewrite upd_other by exact Ha.
    rewrite upd_other by (intros ->; apply Hs; split; reflexivity).
    apply fill_out. lia.
Qed.

Lemma tables_needed_nonneg (st : State) (pgdir vpn m : Z) :
  0 <= tables_needed st pgdir vpn m.
Proof.
  unfold tables_needed. destruct (Z.leb_spec m 0); [lia|].
  destruct (has_flag _ _); Z.div_mod_to_equations; lia.
Qed.

Lemma next_page_index (vpn : Z) :
  ((vpn + 1) / 1024 = vpn / 1024 /\ (vpn + 1) mod 1024 = vpn mod 1024 + 1) \/
  ((vpn + 1) / 1024 = vpn / 1024 + 1 /\ (vpn + 1) mod 1024 = 0).
Proof. Z.div_mod_to_equations. lia. Qed.

(** The 4KB loop of boot_map_segment, from any iteration on. *)
Lemma boot_map_loop_pages (kernel_end pgdir perm size : Z) (m : nat) :
  forall (fuel : nat) (st : State) (vpn i pa c cend : Z),
  (m < fuel)%nat ->
  0 <= vpn -> vpn + Z.of_nat m <= 2 ^ 20 ->
  0 <= i -> size <= i + Z.of_nat m * PGSIZE ->
  (forall j, 0 <= j < Z.of_nat m -> i + j * PGSIZE < size) ->
  size <= 2 ^ 32 - PGSIZE ->
  boot_freemem st = c -> c mod PGSIZE = 0 -> KERNBASE <= c -> pgdir + PGSIZE <= c ->
  maxpa st = npage st * PGSIZE -> cend <= KERNBASE + maxpa st ->
  KERNBASE + maxpa st < 2 ^ 32 ->
  (0 < Z.of_nat m -> table_below st pgdir c (vpn / 1024)) ->
  (forall d, vpn / 1024 < d <= (vpn + Z.of_nat m - 1) / 1024 ->
             has_flag (mem st (entry pgdir d)) PTE_P = false) ->
  cend = c + tables_needed st pgdir vpn (Z.of_nat m) * PGSIZE ->
  exists st',
    boot_map_loop kernel_end fuel pgdir PGSIZE 1 size perm i (u32 (vpn * PGSIZE)) pa st
      = Some (Ret tt st') /\
    (maxpa st' = maxpa st /\ npage st' = npage st /\ pages st' = pages st /\
     page_free_list st' = page_free_list st /\ tlb_flushed st' = tlb_flushed st) /\
    boot_freemem st' = cend /\
    (forall k, 0 <= k < Z.of_nat m ->
       let pde := mem st' (entry pgdir ((vpn + k) / 1024)) in
       has_flag pde PTE_P = true /\ has_flag pde PTE_PS = false /\
       PPN (PTE_ADDR pde) < npage st' /\
       mem st' (entry (u32 (PTE_ADDR pde + KERNBASE)) ((vpn + k) mod 1024)) =
       Z.lor (Z.lor (PTE_ADDR (u32 (pa + k * PGSIZE))) PTE_P) (u32 perm) /\
       (has_flag (mem st (entry pgdir ((vpn + k) / 1024))) PTE_P = false ->
        has_flag pde PTE_W = true /\ has_flag pde PTE_U = true)) /\
    (forall a, ~ boot_map_writes st pgdir vpn (Z.of_nat m) c cend a ->
               mem st' a = mem st a).
Proof.
  induction m as [|m IH];
    intros fuel st vpn i pa c cend Hfuel Hv0 Hv1 Hi0 Hsz Hall Hlim Hbf Hal Hk Hdir
           Hmp Hce Hmax Htb Hlater Hcend.
  - destruct fuel as [|fuel]; [lia|]. cbn [boot_map_loop].
    destruct (Z.ltb_spec i size); [cbn in Hsz; lia|].
    exists st. unfold tables_needed in Hcend. cbn in Hcend.
    split; [reflexivity|]. split; [repeat split|]. split; [lia|].
    split; [intros k Hk0; lia|]. intros; reflexivity.
  - destruct fuel as [|fuel]; [lia|]. cbn [boot_map_loop].
    destruct (Z.ltb_spec i size) as [Hlt|Hge]; [|specialize (Hall 0); lia].
    assert (H32 : 2 ^ 32 = 4294967296) by reflexivity.
    assert (H20 : 2 ^ 20 = 1048576) by reflexivity.
    specialize (Htb ltac:(lia)).
    set (slot := entry pgdir (vpn / 1024)) in *.
    set (e0 := Z.lor (Z.lor (PTE_ADDR pa) PTE_P) (u32 perm)).
    set (last := (vpn + Z.of_nat (S m) - 1) / 1024) in *.
    assert (Hlast : vpn / 1024 <= last < 1024)
      by (subst last; Z.div_mod_to_equations; lia).
    assert (Hx0 : 0 <= vpn mod 1024 < 1024) by (apply Z.mod_pos_bound; lia).
    assert (Hq0 : 0 <= vpn / 1024) by (apply Z.div_pos; lia).
    pose proof (tables_needed_nonneg st pgdir vpn (Z.of_nat (S m))) as Htn0.
    unfold tables_needed in Hcend, Htn0. fold slot last in Hcend, Htn0.
    destruct (Z.leb_spec (Z.of_nat (S m)) 0) as [Hbad|_]; [lia|].
    destruct (boot_map_one kernel_end pgdir vpn c e0 st)
      as (s1 & Hstep & Hg1 & Hbf1 & HP1 & Htb1 & He1 & Hsame1 & Hnew1 & Hwu1 & Hfr1);
      try assumption; [lia| |].
    { fold slot. destruct (has_flag (mem st slot) PTE_P); [discriminate|].
      intros _. unfold PGSIZE in *. lia. }
    cbv zeta in He1, Hsame1, Hnew1, Hwu1, Hfr1, Hbf1.
    fold slot in He1, Hsame1, Hnew1, Hwu1, Hfr1, HP1, Hbf1.
    destruct (Htb1 HP1) as (HPS1 & Hnp1 & HT1 & Hdis1). cbv zeta in HT1, Hdis1.
    fold slot in HPS1, Hnp1, HT1, Hdis1.
    set (t1 := u32 (PTE_ADDR (mem s1 slot) + KERNBASE)) in *.
    set (c1 := boot_freemem s1) in *.
    destruct Hg1 as (Hg1a & Hg1b & Hg1c & Hg1d & Hg1e).
    assert (Hc1 : c <= c1 /\ c1 mod PGSIZE = 0 /\
                  c1 + (last - vpn / 1024) * PGSIZE = cend /\
                  (has_flag (mem st slot) PTE_P = false -> c1 = c + PGSIZE)).
    { rewrite Hbf1. destruct (has_flag (mem st slot) PTE_P); cbn [negb].
      - repeat split; try assumption; try lia; try discriminate.
      - repeat split; try lia.
        unfold PGSIZE in *. Z.div_mod_to_equations. lia. }
    destruct Hc1 as (Hc1a & Hc1b & Hc1c & Hc1d).
    assert (Hslots : forall d, 0 <= d < 1024 -> d <> vpn / 1024 ->
                       mem s1 (entry pgdir d) = mem st (entry pgdir d)).
    { intros d Hd Hne. apply Hfr1.
      - intros (E & _). unfold slot, entry in E. lia.
      - unfold entry, PGSIZE in *. lia.
      - unfold entry, PGSIZE in *. lia. }
    pose proof (next_page_index vpn) as Hdm.
    assert (Hnx : 0 < Z.of_nat m -> (vpn + 1) / 1024 <= last)
      by (intros; unfold last; Z.div_mod_to_equations; lia).
    assert (Hpte0 : boot_map_writes st pgdir vpn (Z.of_nat (S m)) c cend
                      (entry t1 (vpn mod 1024))).
    { split; [lia|]. right. fold slot.
      destruct (has_flag (mem st slot) PTE_P) eqn:HP.
      - left. split; [reflexivity|]. exists (vpn mod 1024). split; [lia|].
        unfold t1. now rewrite (Hsame1 eq_refl).
      - right. rewrite (Hnew1 eq_refl). unfold entry, PGSIZE in *. lia. }
    assert (HW : forall a,
               boot_map_writes s1 pgdir (vpn + 1) (Z.of_nat m) c1 cend a ->
               a <> slot /\ a <> entry t1 (vpn mod 1024) /\
               boot_map_writes st pgdir vpn (Z.of_nat (S m)) c cend a).
    { intros a (Hm0 & [(d & Hd & -> & Habs)|[(Hpres & x & Hx & ->)|Hrange]]).
      - assert (Hdn : d <> vpn / 1024) by (intros ->; fold slot in Habs; congruence).
        replace (vpn + 1 + Z.of_nat m - 1) with (vpn + Z.of_nat (S m) - 1) in Hd by lia.
        fold last in Hd.
        assert (Hd' : vpn / 1024 <= d <= last) by lia.
        split; [unfold slot, entry; lia|].
        split; [unfold entry, PGSIZE in *; lia|].
        split; [lia|]. left. exists d. split; [exact Hd'|]. split; [reflexivity|].
        rewrite <- Hslots by lia. exact Habs.
      - destruct Hdm as [(Eq & Em)|(Eq & Em)].
        + rewrite Eq in Hpres |- *. fold slot t1. fold slot in Hpres.
          split; [unfold slot, entry, PGSIZE in *; lia|].
          split; [unfold entry; lia|].
          split; [lia|]. right. fold slot.
          destruct (has_flag (mem st slot) PTE_P) eqn:HP.
          * left. split; [reflexivity|]. exists x. split; [lia|].
            unfold t1. now rewrite (Hsame1 eq_refl).
          * right. fold t1 in Hnew1. rewrite (Hnew1 eq_refl).
            unfold entry, PGSIZE in *. lia.
        + exfalso. specialize (Hnx Hm0).
          rewrite Eq in Hpres. rewrite Hslots in Hpres by lia.
          rewrite Hlater in Hpres; [discriminate|lia].
      - split; [unfold slot, entry, PGSIZE in *; lia|].
        split; [unfold entry, PGSIZE in *; lia|].
        split; [lia|]. right. right. lia. }
    rewrite Hstep.
    replace (u32 (u32 (vpn * PGSIZE) + PGSIZE)) with (u32 ((vpn + 1) * PGSIZE))
      by (rewrite u32_add_l; f_equal; lia).
    rewrite (u32_small (i + PGSIZE)) by (unfold PGSIZE in *; lia).
    destruct (IH fuel s1 (vpn + 1) (i + PGSIZE) (u32 (pa + PGSIZE)) c1 cend)
      as (st' & Hrun & Hg & Hbf' & Hleaf & Hframe).
    + lia.
    + lia.
    + lia.
    + unfold PGSIZE. lia.
    + unfold PGSIZE in *. lia.
    + intros j Hj. specialize (Hall (j + 1)). unfold PGSIZE in *. lia.
    + exact Hlim.
    + reflexivity.
    + exact Hc1b.
    + lia.
    + lia.
    + now rewrite Hg1a, Hg1b.
    + now rewrite Hg1a.
    + now rewrite Hg1a.
    + intros Hm0. destruct Hdm as [(Eq & Em)|(Eq & Em)].
      * rewrite Eq. exact Htb1.
      * unfold table_below. cbv zeta. rewrite Eq. intros Hpres. exfalso.
        specialize (Hnx Hm0).
        rewrite Hslots in Hpres by lia. rewrite Hlater in Hpres; [discriminate|lia].
    + intros d Hd.
      replace (vpn + 1 + Z.of_nat m - 1) with (vpn + Z.of_nat (S m) - 1) in Hd by lia.
      fold last in Hd.
      assert (vpn / 1024 <= (vpn + 1) / 1024) by (Z.div_mod_to_equations; lia).
      rewrite Hslots by lia. apply Hlater. fold last. lia.
    + unfold tables_needed.
      replace (vpn + 1 + Z.of_nat m - 1) with (vpn + Z.of_nat (S m) - 1) by lia.
      fold last.
      destruct (Z.leb_spec (Z.of_nat m) 0) as [Hm0|Hm0].
      * assert (last = vpn / 1024)
          by (subst last; replace (vpn + Z.of_nat (S m) - 1) with vpn by lia; reflexivity).
        lia.
      * destruct Hdm as [(Eq & Em)|(Eq & Em)].
        -- rewrite Eq. fold slot. rewrite HP1. lia.
        -- specialize (Hnx Hm0). rewrite Eq. rewrite Hslots by lia.
           rewrite Hlater by lia. lia.
    + exists st'. split; [exact Hrun|].
      destruct Hg as (Hga & Hgb & Hgc & Hgd & Hge').
      split; [repeat split; congruence|]. split; [exact Hbf'|].
      assert (Hs' : mem st' slot = mem s1 slot)
        by (apply Hframe; intros Hw; apply HW in Hw; tauto).
      assert (Hp' : mem st' (entry t1 (vpn mod 1024)) = e0)
        by (rewrite Hframe; [exact He1|intros Hw; apply HW in Hw; tauto]).
      split.
      * intros k Hk0. cbv zeta. destruct (Z.eq_dec k 0) as [->|Hkne].
        -- rewrite !Z.add_0_r. fold slot. rewrite Hs'. fold t1. rewrite Hp'.
           rewrite Hgb. split; [exact HP1|]. split; [exact HPS1|].
           split; [exact Hnp1|]. split; [unfold e0; now rewrite PTE_ADDR_u32|].
           intros Habs0. apply Hwu1. now rewrite Habs0.
        -- specialize (Hleaf (k - 1) ltac:(lia)). cbv zeta in Hleaf.
           replace (vpn + 1 + (k - 1)) with (vpn + k) in Hleaf by lia.
           replace (u32 (u32 (pa + PGSIZE) + (k - 1) * PGSIZE))
             with (u32 (pa + k * PGSIZE)) in Hleaf
             by (rewrite u32_add_l; f_equal; unfold PGSIZE; lia).
           destruct Hleaf as (L1 & L2 & L3 & L4 & L5).
           split; [exact L1|]. split; [exact L2|]. split; [exact L3|].
           split; [exact L4|]. intros Habsk.
           destruct (Z.eq_dec ((vpn + k) / 1024) (vpn / 1024)) as [Eq|Hdk].
           ++ rewrite Eq in Habsk |- *. fold slot in Habsk |- *. rewrite Hs'.
              apply Hwu1. now rewrite Habsk.
           ++ apply L5. rewrite Hslots; [exact Habsk| |exact Hdk].
              unfold last in Hlast. Z.div_mod_to_equations. lia.
      * intros a Hnw. rewrite Hframe by (intros Hw; apply HW in Hw; tauto).
        apply Hfr1.
        -- intros (-> & Habs). apply Hnw. split; [lia|]. left.
           exists (vpn / 1024). split; [lia|]. split; [reflexivity|].
           fold slot. now destruct (has_flag (mem st slot) PTE_P).
        -- intros Hr. apply Hnw. split; [lia|]. right. right.
           fold c1 in Hr. pose proof (tables_needed_nonneg s1 pgdir 0 0). 
           unfold PGSIZE in *. lia.
        -- intros ->. apply Hnw. exact Hpte0.
Qed.

Lemma check_va2pa_table (st : State) (pgdir va : Z) :
  let pde := mem st (entry pgdir (PDX va)) in
  let e := mem st (entry (u32 (PTE_ADDR pde + KERNBASE)) (PTX va)) in
  has_flag pde PTE_P = true -> has_flag pde PTE_PS = false ->
  PPN (PTE_ADDR pde) < npage st ->
  check_va2pa pgdir va st =
  Ret (if has_flag e PTE_P then PTE_ADDR e else u32 (-1)) st.
Proof.
  intros pde e HP HPS Hnp. unfold check_va2pa. kstep_refl. cbv beta.
  fold pde. rewrite HP, HPS. cbn [negb].
  kstep (KADDR_ok _ _ Hnp). kstep_refl. cbv beta. fold e.
  now destruct (has_flag e PTE_P).
Qed.

Lemma PTE_ADDR_leaf (x perm : Z) :
  0 <= perm < PGSIZE ->
  PTE_ADDR (Z.lor (Z.lor (PTE_ADDR x) PTE_P) (u32 perm)) = PTE_ADDR x.
Proof.
  intros Hp. rewrite !PTE_ADDR_lor, PTE_ADDR_idem.
  rewrite (PTE_ADDR_flags PTE_P) by (cbv; split; [discriminate|reflexivity]).
  rewrite u32_small by (unfold PGSIZE in Hp; change (2 ^ 32) with 4294967296; lia).
  rewrite (PTE_ADDR_flags perm) by exact Hp. now rewrite !Z.lor_0_r.
Qed.

(** boot_pgdir_walk where the directory entry is absent and [create] is
    neither 0 nor 2, with the cursor page-aligned in the kernel window and
    one page of detected memory left above it.  The walker takes that page
    from boot_alloc, whatever the frame database says: it returns the slot of
    [la] in it, the cursor has moved one page up, the page is zero, the
    directory entry holds its physical address with present, writable and
    user set, and no other word has changed.  Every address of the 4MB
    region of [la] now reaches a table and is still unmapped. *)
Theorem boot_pgdir_walk_allocates_zeroed_table
  (kernel_end pgdir la create : Z) (st : State) :
  let slot := entry pgdir (PDX la) in
  let c := boot_freemem st in
  has_flag (mem st slot) PTE_P = false -> create <> 0 -> create <> 2 ->
  c mod PGSIZE = 0 -> KERNBASE <= c ->
  c + PGSIZE <= KERNBASE + maxpa st -> KERNBASE + maxpa st < 2 ^ 32 ->
  maxpa st = npage st * PGSIZE ->
  slot < c \/ c + PGSIZE <= slot ->
  exists st',
    boot_pgdir_walk kernel_end pgdir la create st = Ret (entry c (PTX la)) st' /\
    boot_freemem st' = c + PGSIZE /\
    (maxpa st' = maxpa st /\ npage st' = npage st /\ pages st' = pages st /\
     page_free_list st' = page_free_list st /\ tlb_flushed st' = tlb_flushed st) /\
    mem st' slot = Z.lor (Z.lor (Z.lor (c - KERNBASE) PTE_P) PTE_W) PTE_U /\
    (forall a, c <= a < c + PGSIZE -> mem st' a = 0) /\
    (forall a, a <> slot -> a < c \/ c + PGSIZE <= a -> mem st' a = mem st a) /\
    (forall va, PDX va = PDX la -> check_va2pa pgdir va st' = Ret (u32 (-1)) st').
Proof.
  intros slot c Habs Hc0 Hc2 Hal Hk Hfit Hmax Hmp Hout.
  assert (H32 : 2 ^ 32 = 4294967296) by reflexivity.
  assert (Hnpc : (c - KERNBASE) / PGSIZE < npage st)
    by (unfold PGSIZE, KERNBASE in *; Z.div_mod_to_equations; lia).
  pose proof (boot_pgdir_walk_fresh kernel_end st pgdir la create c
                Habs Hc0 Hc2 eq_refl Hal Hk Hfit Hmax Hnpc) as Hw.
  fold slot in Hw.
  set (pdev := Z.lor (Z.lor (Z.lor (c - KERNBASE) PTE_P) PTE_W) PTE_U) in *.
  eexists. split; [exact Hw|].
  cbn [boot_freemem maxpa npage pages page_free_list tlb_flushed mem].
  split; [reflexivity|]. split; [repeat split|].
  split; [apply upd_same|].
  assert (Hz : forall a, c <= a < c + PGSIZE ->
                 upd (fill (mem st) c PGSIZE 0) slot pdev a = 0).
  { intros a Ha. rewrite upd_other by lia. now apply fill_in. }
  split; [exact Hz|]. split.
  { intros a Hne Ha. rewrite upd_other by exact Hne. now apply fill_out. }
  intros va Hva.
  assert (Hcr : 0 <= c - KERNBASE < 2 ^ 32) by (unfold PGSIZE, KERNBASE in *; lia).
  assert (Hcm : (c - KERNBASE) mod PGSIZE = 0).
  { unfold PGSIZE, KERNBASE in *. change 3221225472 with (786432 * 4096).
    rewrite Zminus_mod, Hal, Z.mod_mul by lia. reflexivity. }
  destruct (PTE_ADDR_aligned (c - KERNBASE) (Z.lor (Z.lor PTE_P PTE_W) PTE_U)
              Hcr Hcm flags_PWU_small) as (Hpa & Hppn).
  rewrite <- lor_flags3 in Hpa. fold pdev in Hpa.
  destruct (has_flag_PWU (c - KERNBASE) Hcr Hcm) as (HP1 & HPS1). fold pdev in HP1, HPS1.
  rewrite check_va2pa_table; cbn [mem npage]; rewrite Hva; fold slot;
    rewrite ?upd_same; try assumption.
  - rewrite Hpa. replace (c - KERNBASE + KERNBASE) with c by lia.
    rewrite (u32_small c) by (unfold PGSIZE, KERNBASE in *; lia).
    rewrite Hz; [reflexivity|].
    pose proof (PTX_range va). unfold entry, PGSIZE. lia.
  - rewrite Hpa, Hppn. exact Hnpc.
Qed.

Lemma boot_pgdir_walk_allocates_zeroed_table_witness :
  exists st',
    boot_pgdir_walk 0 example_boot_pgdir 0x1000 1 example_boot =
      Ret (KERNBASE + 0x110004) st' /\
    boot_freemem st' = KERNBASE + 0x111000 /\
    check_va2pa example_boot_pgdir 0x1000 st' = Ret (u32 (-1)) st'.
Proof.
  destruct (boot_pgdir_walk_allocates_zeroed_table 0 example_boot_pgdir 0x1000 1
              example_boot) as (st' & Hw & Hc & _ & _ & _ & _ & Hv).
  - reflexivity.
  - discriminate.
  - discriminate.
  - reflexivity.
  - vm_compute. discriminate.
  - vm_compute. discriminate.
  - vm_compute. reflexivity.
  - reflexivity.
  - left. vm_compute. reflexivity.
  - exists st'. split; [exact Hw|]. split; [exact Hc|]. apply Hv. reflexivity.
Defined.

Lemma PTE_ADDR_no_flag (x f : Z) : 0 <= f < PGSIZE -> has_flag (PTE_ADDR x) f = false.
Proof.
  intros Hf. unfold has_flag.
  replace (Z.land (PTE_ADDR x) f) with 0; [reflexivity|].
  symmetry. apply Z.bits_inj'. intros n Hn.
  rewrite Z.land_spec, Z.bits_0, PTE_ADDR_spec by assumption.
  destruct (Z.leb_spec 12 n) as [H12|H12].
  - rewrite (testbit_small f 12 n) by (unfold PGSIZE in Hf; lia). apply andb_false_r.
  - now rewrite andb_false_r.
Qed.

Lemma leaf_flags (x perm f : Z) :
  0 <= perm < PGSIZE -> 0 <= f < PGSIZE -> has_flag PTE_P f = false ->
  has_flag (Z.lor (Z.lor (PTE_ADDR x) PTE_P) (u32 perm)) f = has_flag perm f.
Proof.
  intros Hp Hf HPf. rewrite !has_flag_lor, PTE_ADDR_no_flag, HPf by exact Hf.
  rewrite u32_small by (unfold PGSIZE in Hp; change (2 ^ 32) with 4294967296; lia).
  reflexivity.
Qed.

(** What boot_map_segment leaves when it maps fresh 4KB pages. *)
Lemma boot_map_segment_fresh
  (kernel_end pgdir vpn n pa perm : Z) (fuel : nat) (st : State) :
  let c := boot_freemem st in
  let tables := (vpn + n - 1) / 1024 - vpn / 1024 + 1 in
  0 <= vpn -> 0 < n < 2 ^ 20 -> vpn + n <= 2 ^ 20 ->
  has_flag perm PTE_PS = false ->
  c mod PGSIZE = 0 -> KERNBASE <= c -> pgdir + PGSIZE <= c ->
  maxpa st = npage st * PGSIZE -> KERNBASE + maxpa st < 2 ^ 32 ->
  c + tables * PGSIZE <= KERNBASE + maxpa st ->
  pdes_absent st pgdir vpn n ->
  (Z.to_nat n < fuel)%nat ->
  exists st',
    boot_map_segment kernel_end fuel pgdir (vpn * PGSIZE) (n * PGSIZE) pa perm st
      = Some (Ret tt st') /\
    boot_freemem st' = c + tables * PGSIZE /\
    (maxpa st' = maxpa st /\ npage st' = npage st /\ pages st' = pages st /\
     page_free_list st' = page_free_list st /\ tlb_flushed st' = tlb_flushed st) /\
    (forall va, 0 <= va < 2 ^ 32 -> vpn <= va / PGSIZE < vpn + n ->
       let pde := mem st' (entry pgdir (PDX va)) in
       has_flag pde PTE_P = true /\ has_flag pde PTE_PS = false /\
       has_flag pde PTE_W = true /\ has_flag pde PTE_U = true /\
       PPN (PTE_ADDR pde) < npage st' /\
       mem st' (entry (u32 (PTE_ADDR pde + KERNBASE)) (PTX va)) =
       Z.lor (Z.lor (PTE_ADDR (u32 (pa + (va / PGSIZE - vpn) * PGSIZE))) PTE_P)
             (u32 perm)) /\
    (forall a, a < c \/ c + tables * PGSIZE <= a ->
       (forall d, vpn / 1024 <= d <= (vpn + n - 1) / 1024 -> a <> entry pgdir d) ->
       mem st' a = mem st a).
Proof.
  intros c tables Hv Hn Hvn Hps Hal Hk Hdir Hmp Hmax Hroom Habs Hfuel.
  assert (H32 : 2 ^ 32 = 4294967296) by reflexivity.
  assert (H20 : 2 ^ 20 = 1048576) by reflexivity.
  assert (Hpde : forall d, vpn / 1024 <= d <= (vpn + n - 1) / 1024 ->
                   has_flag (mem st (entry pgdir d)) PTE_P = false).
  { intros d Hd.
    assert (Hex : exists k, 0 <= k < n /\ (vpn + k) / 1024 = d).
    { destruct (Z.eq_dec d (vpn / 1024)) as [->|Hne].
      - exists 0. split; [lia|]. now rewrite Z.add_0_r.
      - exists (d * 1024 - vpn). split; [Z.div_mod_to_equations; lia|].
        replace (vpn + (d * 1024 - vpn)) with (d * 1024) by lia.
        apply Z.div_mul. lia. }
    destruct Hex as (k & Hk0 & <-). specialize (Habs k Hk0).
    destruct (page_index (vpn + k) 0) as (_ & Hpdx & _); [lia|unfold PGSIZE; lia|].
    rewrite Z.add_0_r in Hpdx. now rewrite Hpdx in Habs. }
  assert (Hfirst : has_flag (mem st (entry pgdir (vpn / 1024))) PTE_P = false)
    by (apply Hpde; Z.div_mod_to_equations; lia).
  unfold boot_map_segment.
  assert (Hoff : PGOFF (vpn * PGSIZE) = 0).
  { unfold PGOFF, PGSIZE. change 0xFFF with (Z.ones 12).
    rewrite Z.land_ones by lia. change (2 ^ 12) with 4096. apply Z.mod_mul. lia. }
  rewrite Hoff. cbn [Z.eqb negb]. rewrite Hps.
  rewrite <- (u32_small (vpn * PGSIZE)) by (unfold PGSIZE; lia).
  pose proof (boot_map_loop_pages kernel_end pgdir perm (n * PGSIZE) (Z.to_nat n)
                fuel st vpn 0 pa c (c + tables * PGSIZE)) as HL.
  rewrite Z2Nat.id in HL by lia.
  assert (H5 : n * PGSIZE <= 0 + n * PGSIZE) by lia.
  assert (H6 : forall j, 0 <= j < n -> 0 + j * PGSIZE < n * PGSIZE)
    by (unfold PGSIZE; intros j Hj; lia).
  assert (H7 : n * PGSIZE <= 2 ^ 32 - PGSIZE) by (unfold PGSIZE; lia).
  assert (H15 : 0 < n -> table_below st pgdir c (vpn / 1024)).
  { intros _. unfold table_below. cbv zeta. rewrite Hfirst. discriminate. }
  assert (H16 : forall d, vpn / 1024 < d <= (vpn + n - 1) / 1024 ->
                  has_flag (mem st (entry pgdir d)) PTE_P = false)
    by (intros d Hd; apply Hpde; lia).
  assert (H17 : c + tables * PGSIZE = c + tables_needed st pgdir vpn n * PGSIZE).
  { unfold tables_needed. destruct (Z.leb_spec n 0); [lia|]. now rewrite Hfirst. }
  destruct (HL Hfuel Hv Hvn (Z.le_refl 0) H5 H6 H7 eq_refl Hal Hk Hdir Hmp Hroom Hmax
               H15 H16 H17) as (st' & Hrun & Hg & Hbf & Hleaf & Hframe).
  clear HL.
  exists st'. split; [exact Hrun|]. split; [exact Hbf|]. split; [exact Hg|].
  split.
  - intros va Hva Hpg. specialize (Hleaf (va / PGSIZE - vpn) ltac:(lia)).
    cbv zeta in Hleaf.
    replace (vpn + (va / PGSIZE - vpn)) with (va / PGSIZE) in Hleaf by lia.
    destruct (PDX_PTX_div va Hva) as (Hpdx & Hptx).
    rewrite <- Hpdx, <- Hptx in Hleaf.
    destruct Hleaf as (HP & HPS & Hnp & He & Hwu).
    destruct Hwu as (HW & HU).
    { apply Hpde. rewrite Hpdx. Z.div_mod_to_equations. lia. }
    cbv zeta. repeat split; assumption.
  - intros a Ha Hnd. apply Hframe. intros (_ & [(d & Hd & -> & _)|[(Hp & _)|Hr]]).
    + now apply (Hnd d).
    + congruence.
    + lia.
Qed.

(** boot_map_segment with 4KB pages over a fresh region: [n] pages from the
    page-aligned address [vpn * PGSIZE] on, with flags that fit in the low 12
    bits and lack PTE_PS, all directory entries of the range absent, the
    directory below the page-aligned cursor, and detected memory left for
    one table per directory entry of the range.  With more than [n] units of
    fuel the call returns; it has taken exactly that many pages from
    boot_alloc and left the frame database alone; check_va2pa sends every
    address of page [k] of the range to the page of [pa + k * PGSIZE]; and
    outside the new tables and the directory entries of the range no word
    of memory has changed. *)
Theorem boot_map_segment_maps_fresh_pages
  (kernel_end pgdir vpn n pa perm : Z) (fuel : nat) (st : State) :
  let c := boot_freemem st in
  let tables := (vpn + n - 1) / 1024 - vpn / 1024 + 1 in
  0 <= vpn -> 0 < n < 2 ^ 20 -> vpn + n <= 2 ^ 20 ->
  0 <= perm < PGSIZE -> has_flag perm PTE_PS = false ->
  c mod PGSIZE = 0 -> KERNBASE <= c -> pgdir + PGSIZE <= c ->
  maxpa st = npage st * PGSIZE -> KERNBASE + maxpa st < 2 ^ 32 ->
  c + tables * PGSIZE <= KERNBASE + maxpa st ->
  pdes_absent st pgdir vpn n ->
  (Z.to_nat n < fuel)%nat ->
  exists st',
    boot_map_segment kernel_end fuel pgdir (vpn * PGSIZE) (n * PGSIZE) pa perm st
      = Some (Ret tt st') /\
    boot_freemem st' = c + tables * PGSIZE /\
    (maxpa st' = maxpa st /\ npage st' = npage st /\ pages st' = pages st /\
     page_free_list st' = page_free_list st /\ tlb_flushed st' = tlb_flushed st) /\
    (forall va, 0 <= va < 2 ^ 32 -> vpn <= va / PGSIZE < vpn + n ->
       check_va2pa pgdir va st' =
       Ret (PTE_ADDR (u32 (pa + (va / PGSIZE - vpn) * PGSIZE))) st') /\
    (forall a, a < c \/ c + tables * PGSIZE <= a ->
       (forall d, vpn / 1024 <= d <= (vpn + n - 1) / 1024 -> a <> entry pgdir d) ->
       mem st' a = mem st a).
Proof.
  intros c tables Hv Hn Hvn Hperm Hps Hal Hk Hdir Hmp Hmax Hroom Habs Hfuel.
  destruct (boot_map_segment_fresh kernel_end pgdir vpn n pa perm fuel st
              Hv Hn Hvn Hps Hal Hk Hdir Hmp Hmax Hroom Habs Hfuel)
    as (st' & Hrun & Hbf & Hg & Hleaf & Hframe).
  exists st'. split; [exact Hrun|]. split; [exact Hbf|]. split; [exact Hg|].
  split; [|exact Hframe].
  intros va Hva Hpg. destruct (Hleaf va Hva Hpg) as (HP & HPS & _ & _ & Hnp & He).
  rewrite check_va2pa_table by assumption. cbv zeta.
  rewrite He, has_flag_P_set. now rewrite PTE_ADDR_leaf.
Qed.

Lemma boot_map_segment_maps_fresh_pages_witness :
  exists st',
    boot_map_segment 0 3 example_boot_pgdir (1023 * PGSIZE) (2 * PGSIZE) 0x5000 PTE_W
                     example_boot = Some (Ret tt st') /\
    boot_freemem st' = KERNBASE + 0x112000 /\
    check_va2pa example_boot_pgdir 0x3FF123 st' = Ret 0x5000 st' /\
    check_va2pa example_boot_pgdir 0x400123 st' = Ret 0x6000 st'.
Proof.
  destruct (boot_map_segment_maps_fresh_pages 0 example_boot_pgdir 1023 2 0x5000 PTE_W
              3%nat example_boot) as (st' & Hrun & Hbf & _ & Hva & _).
  - discriminate.
  - split; reflexivity.
  - vm_compute. discriminate.
  - split; [discriminate|reflexivity].
  - reflexivity.
  - reflexivity.
  - vm_compute. discriminate.
  - vm_compute. discriminate.
  - reflexivity.
  - vm_compute. reflexivity.
  - vm_compute. discriminate.
  - intros k _. reflexivity.
  - vm_compute. lia.
  - exists st'. split; [exact Hrun|]. split; [exact Hbf|]. split.
    + apply (Hva 0x3FF123); vm_compute; split; (discriminate || reflexivity).
    + apply (Hva 0x400123); vm_compute; split; (discriminate || reflexivity).
Defined.

(** The permissions of fresh 4KB boot mappings.  After the same call,
    get_vaperms at every address of the range returns an entry with the
    present bit, with PTE_W exactly when [perm] has it, with PTE_U exactly
    when [perm] has it, and without PTE_PS: the new directory entries allow
    everything, so the leaf entries decide. *)
Theorem boot_map_segment_pages_get_perm
  (kernel_end pgdir vpn n pa perm : Z) (fuel : nat) (st : State) :
  let c := boot_freemem st in
  let tables := (vpn + n - 1) / 1024 - vpn / 1024 + 1 in
  0 <= vpn -> 0 < n < 2 ^ 20 -> vpn + n <= 2 ^ 20 ->
  0 <= perm < PGSIZE -> has_flag perm PTE_PS = false ->
  c mod PGSIZE = 0 -> KERNBASE <= c -> pgdir + PGSIZE <= c ->
  maxpa st = npage st * PGSIZE -> KERNBASE + maxpa st < 2 ^ 32 ->
  c + tables * PGSIZE <= KERNBASE + maxpa st ->
  pdes_absent st pgdir vpn n ->
  (Z.to_nat n < fuel)%nat ->
  exists st',
    boot_map_segment kernel_end fuel pgdir (vpn * PGSIZE) (n * PGSIZE) pa perm st
      = Some (Ret tt st') /\
    (forall va, 0 <= va < 2 ^ 32 -> vpn <= va / PGSIZE < vpn + n ->
       exists r,
         get_vaperms pgdir va st' = Ret r st' /\
         has_flag r PTE_P = true /\
         has_flag r PTE_W = has_flag perm PTE_W /\
         has_flag r PTE_U = has_flag perm PTE_U /\
         has_flag r PTE_PS = false).
Proof.
  intros c tables Hv Hn Hvn Hperm Hps Hal Hk Hdir Hmp Hmax Hroom Habs Hfuel.
  destruct (boot_map_segment_fresh kernel_end pgdir vpn n pa perm fuel st
              Hv Hn Hvn Hps Hal Hk Hdir Hmp Hmax Hroom Habs Hfuel)
    as (st' & Hrun & Hbf & (Hga & Hgb & _) & Hleaf & Hframe).
  exists st'. split; [exact Hrun|].
  intros va Hva Hpg.
  destruct (Hleaf va Hva Hpg) as (HP & HPS & HW & HU & Hnp & He). cbv zeta in *.
  set (pde := mem st' (entry pgdir (PDX va))) in *.
  set (pte := entry (u32 (PTE_ADDR pde + KERNBASE)) (PTX va)) in *.
  assert (Hl : leaf_of st' pgdir va = Some pte).
  { unfold leaf_of. cbv zeta. fold pde. rewrite HP, HPS.
    destruct (Z.ltb_spec (PPN (PTE_ADDR pde)) (npage st')); [reflexivity|lia]. }
  assert (Hnn : pte <> NULL).
  { pose proof (PTX_range va) as Hx.
    assert (Hpa : 0 <= PTE_ADDR pde /\ PTE_ADDR pde < npage st' * PGSIZE).
    { rewrite PTE_ADDR_div in Hnp |- *. unfold PPN, PTXSHIFT in Hnp.
      rewrite Z.shiftr_div_pow2 in Hnp by lia. change (2 ^ 12) with 4096 in Hnp.
      unfold PGSIZE in *. rewrite Z.div_mul in Hnp by lia.
      assert (0 <= pde mod 2 ^ 32) by (apply Z.mod_pos_bound; reflexivity).
      Z.div_mod_to_equations. lia. }
    unfold pte, entry, NULL.
    rewrite u32_small by (rewrite Hgb, <- Hmp in Hpa; unfold KERNBASE in *;
                          change (2 ^ 32) with 4294967296 in *; lia).
    unfold KERNBASE. lia. }
  assert (Hpp : has_flag (mem st' pte) PTE_P = true)
    by (rewrite He; apply has_flag_P_set).
  eexists. split; [exact (get_vaperms_leaf st' pgdir va pte Hl Hnn Hpp)|].
  fold pde. destruct (vaperms_flags pde (mem st' pte)) as (F1 & F2 & F3 & F4).
  cbv zeta in F1, F2, F3, F4. rewrite F1, F2, F3, F4, HP, HPS, HW, HU, Hpp.
  rewrite He. cbn [andb xorb].
  rewrite !leaf_flags by (first [exact Hperm | reflexivity
                                | cbv; split; [discriminate|reflexivity]]).
  rewrite Hps. repeat split; reflexivity.
Qed.

Lemma boot_map_segment_pages_get_perm_witness :
  exists st' r,
    boot_map_segment 0 3 example_boot_pgdir (1023 * PGSIZE) (2 * PGSIZE) 0x5000 PTE_W
                     example_boot = Some (Ret tt st') /\
    get_vaperms example_boot_pgdir 0x400123 st' = Ret r st' /\
    has_flag r PTE_W = true /\ has_flag r PTE_U = false.
Proof.
  destruct (boot_map_segment_pages_get_perm 0 example_boot_pgdir 1023 2 0x5000 PTE_W
              3%nat example_boot) as (st' & Hrun & Hva).
  - discriminate.
  - split; reflexivity.
  - vm_compute. discriminate.
  - split; [discriminate|reflexivity].
  - reflexivity.
  - reflexivity.
  - vm_compute. discriminate.
  - vm_compute. discriminate.
  - reflexivity.
  - vm_compute. reflexivity.
  - vm_compute. discriminate.
  - intros k _. reflexivity.
  - vm_compute. lia.
  - destruct (Hva 0x400123) as (r & Hr & _ & HW & HU & _).
    + split; [discriminate|reflexivity].
    + split; [discriminate|reflexivity].
    + exists st', r. split; [exact Hrun|]. split; [exact Hr|].
      split; [exact HW|exact HU].
Defined.

(** ** Boot-time large pages *)

Lemma jumbo_index (dpn : Z) :
  0 <= dpn < 1024 ->
  0 <= dpn * JPGSIZE < 2 ^ 32 /\ PDX (dpn * JPGSIZE) = dpn /\
  JPGOFF (dpn * JPGSIZE) = 0.
Proof.
  intros Hd.
  assert (E : dpn * JPGSIZE = dpn * 1024 * PGSIZE + 0) by (cbv [JPGSIZE PTSIZE PGSIZE]; lia).
  destruct (page_index (dpn * 1024) 0) as (Hr & Hpdx & _);
    [change (2 ^ 20) with 1048576; lia|unfold PGSIZE; lia|].
  rewrite <- E in Hr, Hpdx. split; [exact Hr|]. split.
  - rewrite Hpdx. apply Z.div_mul. lia.
  - unfold JPGOFF. change (JPGSIZE - 1) with (Z.ones 22).
    rewrite Z.land_ones by lia. change JPGSIZE with (2 ^ 22). apply Z.mod_mul. lia.
Qed.

(** One iteration of the large-page loop of boot_map_segment. *)
Lemma boot_map_one_jumbo (kernel_end pgdir dpn e : Z) (st : State) :
  let slot := entry pgdir dpn in
  0 <= dpn < 1024 ->
  has_flag (mem st slot) PTE_P = false \/ has_flag (mem st slot) PTE_PS = true ->
  exists s1,
    (pte <- boot_pgdir_walk kernel_end pgdir (u32 (dpn * JPGSIZE)) 2 ;; store pte e) st
      = Ret tt s1 /\
    (maxpa s1 = maxpa st /\ npage s1 = npage st /\ boot_freemem s1 = boot_freemem st /\
     pages s1 = pages st /\ page_free_list s1 = page_free_list st /\
     tlb_flushed s1 = tlb_flushed st) /\
    mem s1 slot = e /\
    (forall a, a <> slot -> mem s1 a = mem st a).
Proof.
  intros slot Hd Hpde. destruct (jumbo_index dpn Hd) as (Hr & Hpdx & Hoff).
  rewrite (u32_small _ Hr).
  destruct (has_flag (mem st slot) PTE_P) eqn:HP.
  - destruct Hpde as [Hp|Hps]; [discriminate|].
    assert (Hleaf : leaf_of st pgdir (dpn * JPGSIZE) = Some slot).
    { unfold leaf_of. cbv zeta. rewrite Hpdx. fold slot. now rewrite HP, Hps. }
    exists (with_mem st (upd (mem st) slot e)).
    kstep (boot_pgdir_walk_leaf kernel_end st pgdir (dpn * JPGSIZE) 2 _ Hleaf).
    rewrite store_eq. split; [reflexivity|]. split; [repeat split|].
    cbn [with_mem mem]. split; [apply upd_same|].
    intros a Ha. now rewrite upd_other.
  - pose proof (boot_pgdir_walk_absent_jumbo kernel_end st pgdir (dpn * JPGSIZE)) as Hw.
    rewrite Hpdx, Hoff in Hw. fold slot in Hw. specialize (Hw HP). cbn [Z.eqb negb] in Hw.
    eexists. kstep Hw. rewrite store_eq. split; [reflexivity|]. split; [repeat split|].
    cbn [with_mem mem]. split; [apply upd_same|].
    intros a Ha. now rewrite !upd_other.
Qed.

(** The large-page loop of boot_map_segment, from any iteration on. *)
Lemma boot_map_loop_jumbo (kernel_end pgdir perm size : Z) (m : nat) :
  forall (fuel : nat) (st : State) (dpn i pa : Z),
  (m < fuel)%nat ->
  0 <= dpn -> dpn + Z.of_nat m <= 1024 ->
  0 <= i -> size <= i + Z.of_nat m * JPGSIZE ->
  (forall j, 0 <= j < Z.of_nat m -> i + j * JPGSIZE < size) ->
  size <= 2 ^ 32 - JPGSIZE ->
  (forall d, dpn <= d < dpn + Z.of_nat m ->
     has_flag (mem st (entry pgdir d)) PTE_P = false \/
     has_flag (mem st (entry pgdir d)) PTE_PS = true) ->
  exists st',
    boot_map_loop kernel_end fuel pgdir JPGSIZE 2 size perm i (u32 (dpn * JPGSIZE)) pa st
      = Some (Ret tt st') /\
    (maxpa st' = maxpa st /\ npage st' = npage st /\ boot_freemem st' = boot_freemem st /\
     pages st' = pages st /\ page_free_list st' = page_free_list st /\
     tlb_flushed st' = tlb_flushed st) /\
    (forall k, 0 <= k < Z.of_nat m ->
       mem st' (entry pgdir (dpn + k)) =
       Z.lor (Z.lor (PTE_ADDR (u32 (pa + k * JPGSIZE))) PTE_P) (u32 perm)) /\
    (forall a, (forall d, dpn <= d < dpn + Z.of_nat m -> a <> entry pgdir d) ->
               mem st' a = mem st a).
Proof.
  induction m as [|m IH];
    intros fuel st dpn i pa Hfuel Hd0 Hd1 Hi0 Hsz Hall Hlim Hpde.
  - destruct fuel as [|fuel]; [lia|]. cbn [boot_map_loop].
    destruct (Z.ltb_spec i size); [cbn in Hsz; lia|].
    exists st. split; [reflexivity|]. split; [repeat split|].
    split; [intros k Hk0; lia|]. intros; reflexivity.
  - destruct fuel as [|fuel]; [lia|]. cbn [boot_map_loop].
    destruct (Z.ltb_spec i size) as [Hlt|Hge]; [|specialize (Hall 0); lia].
    assert (H32 : 2 ^ 32 = 4294967296) by reflexivity.
    assert (HJ : JPGSIZE = 4194304) by reflexivity.
    set (e0 := Z.lor (Z.lor (PTE_ADDR pa) PTE_P) (u32 perm)).
    destruct (boot_map_one_jumbo kernel_end pgdir dpn e0 st)
      as (s1 & Hstep & Hg1 & He1 & Hfr1); [lia|apply Hpde; lia|].
    rewrite Hstep.
    replace (u32 (u32 (dpn * JPGSIZE) + JPGSIZE)) with (u32 ((dpn + 1) * JPGSIZE))
      by (rewrite u32_add_l; f_equal; lia).
    rewrite (u32_small (i + JPGSIZE)) by lia.
    destruct (IH fuel s1 (dpn + 1) (i + JPGSIZE) (u32 (pa + JPGSIZE)))
      as (st' & Hrun & Hg & Hleaf & Hframe).
    + lia.
    + lia.
    + lia.
    + lia.
    + lia.
    + intros j Hj. specialize (Hall (j + 1)). lia.
    + exact Hlim.
    + intros d Hd. rewrite Hfr1 by (unfold entry; lia). apply Hpde. lia.
    + exists st'. split; [exact Hrun|].
      destruct Hg1 as (? & ? & ? & ? & ? & ?), Hg as (? & ? & ? & ? & ? & ?).
      split; [repeat split; congruence|]. split.
      * intros k Hk0. destruct (Z.eq_dec k 0) as [->|Hkne].
        -- rewrite Z.add_0_r. rewrite Hframe by (intros d Hd; unfold entry; lia).
           rewrite He1. unfold e0. cbn [Z.mul]. rewrite Z.add_0_r.
           now rewrite PTE_ADDR_u32.
        -- specialize (Hleaf (k - 1) ltac:(lia)).
           replace (dpn + 1 + (k - 1)) with (dpn + k) in Hleaf by lia.
           replace (u32 (u32 (pa + JPGSIZE) + (k - 1) * JPGSIZE))
             with (u32 (pa + k * JPGSIZE)) in Hleaf
             by (rewrite u32_add_l; f_equal; lia).
           exact Hleaf.
      * intros a Ha. rewrite Hframe by (intros d Hd; apply Ha; lia).
        apply Hfr1. apply Ha. lia.
Qed.

(** What boot_map_segment leaves when it maps large pages. *)
Lemma boot_map_segment_jumbo
  (kernel_end pgdir dpn n pa perm : Z) (fuel : nat) (st : State) :
  0 <= dpn -> 0 < n < 1024 -> dpn + n <= 1024 ->
  has_flag perm PTE_PS = true -> JPGOFF pa = 0 ->
  (forall d, dpn <= d < dpn + n ->
     has_flag (mem st (entry pgdir d)) PTE_P = false \/
     has_flag (mem st (entry pgdir d)) PTE_PS = true) ->
  (Z.to_nat n < fuel)%nat ->
  exists st',
    boot_map_segment kernel_end fuel pgdir (dpn * JPGSIZE) (n * JPGSIZE) pa perm st
      = Some (Ret tt st') /\
    (maxpa st' = maxpa st /\ npage st' = npage st /\ boot_freemem st' = boot_freemem st /\
     pages st' = pages st /\ page_free_list st' = page_free_list st /\
     tlb_flushed st' = tlb_flushed st) /\
    (forall va, 0 <= va < 2 ^ 32 -> dpn <= va / JPGSIZE < dpn + n ->
       mem st' (entry pgdir (PDX va)) =
       Z.lor (Z.lor (PTE_ADDR (u32 (pa + (va / JPGSIZE - dpn) * JPGSIZE))) PTE_P)
             (u32 perm)) /\
    (forall a, (forall d, dpn <= d < dpn + n -> a <> entry pgdir d) ->
               mem st' a = mem st a).
Proof.
  intros Hd Hn Hdn Hps Hpa Hpde Hfuel.
  assert (H32 : 2 ^ 32 = 4294967296) by reflexivity.
  assert (HJ : JPGSIZE = 4194304) by reflexivity.
  destruct (jumbo_index dpn ltac:(lia)) as (Hr & Hpdx & Hoff).
  unfold boot_map_segment.
  assert (Hpg : PGOFF (dpn * JPGSIZE) = 0).
  { unfold PGOFF. change 0xFFF with (Z.ones 12). rewrite Z.land_ones by lia.
    rewrite HJ. change (2 ^ 12) with 4096. Z.div_mod_to_equations. lia. }
  rewrite Hpg, Hps, Hoff, Hpa. cbn [Z.eqb negb orb].
  rewrite <- (u32_small (dpn * JPGSIZE)) by exact Hr.
  pose proof (boot_map_loop_jumbo kernel_end pgdir perm (n * JPGSIZE) (Z.to_nat n)
                fuel st dpn 0 pa) as HL.
  rewrite Z2Nat.id in HL by lia.
  destruct (HL Hfuel Hd Hdn (Z.le_refl 0) ltac:(lia)
               ltac:(intros j Hj; lia) ltac:(lia) Hpde)
    as (st' & Hrun & Hg & Hleaf & Hframe).
  exists st'. split; [exact Hrun|]. split; [exact Hg|]. split; [|exact Hframe].
  intros va Hva Hreg. specialize (Hleaf (va / JPGSIZE - dpn) ltac:(lia)).
  replace (dpn + (va / JPGSIZE - dpn)) with (va / JPGSIZE) in Hleaf by lia.
  destruct (PDX_PTX_div va Hva) as (Hpdxv & _).
  assert (Hq : va / JPGSIZE = PDX va).
  { rewrite Hpdxv, HJ. unfold PGSIZE. Z.div_mod_to_equations. lia. }
  rewrite Hq in Hleaf. rewrite Hleaf. now rewrite Hq.
Qed.

Lemma jumbo_leaf_PS (x perm : Z) :
  0 <= perm < PGSIZE -> has_flag perm PTE_PS = true ->
  has_flag (Z.lor (Z.lor (PTE_ADDR x) PTE_P) (u32 perm)) PTE_PS = true.
Proof.
  intros Hperm Hps. rewrite has_flag_lor.
  rewrite (u32_small perm)
    by (unfold PGSIZE in Hperm; change (2 ^ 32) with 4294967296; lia).
  rewrite Hps. apply orb_true_r.
Qed.

(** boot_map_segment with large pages: [n] directory entries from the
    4MB-aligned address [dpn * JPGSIZE] on, each absent or already a large
    page, with flags that fit in the low 12 bits and include PTE_PS, and a
    4MB-aligned [pa].  With more than [n] units of fuel the call returns; it
    allocates nothing and leaves the frame database alone; check_va2pa sends
    every address of the [k]-th 4MB region to [pa + k * JPGSIZE], the base of
    its large page; and no word of memory outside those [n] directory
    entries has changed. *)
Theorem boot_map_segment_maps_large_pages
  (kernel_end pgdir dpn n pa perm : Z) (fuel : nat) (st : State) :
  0 <= dpn -> 0 < n < 1024 -> dpn + n <= 1024 ->
  0 <= perm < PGSIZE -> has_flag perm PTE_PS = true -> JPGOFF pa = 0 ->
  (forall d, dpn <= d < dpn + n ->
     has_flag (mem st (entry pgdir d)) PTE_P = false \/
     has_flag (mem st (entry pgdir d)) PTE_PS = true) ->
  (Z.to_nat n < fuel)%nat ->
  exists st',
    boot_map_segment kernel_end fuel pgdir (dpn * JPGSIZE) (n * JPGSIZE) pa perm st
      = Some (Ret tt st') /\
    (maxpa st' = maxpa st /\ npage st' = npage st /\ boot_freemem st' = boot_freemem st /\
     pages st' = pages st /\ page_free_list st' = page_free_list st /\
     tlb_flushed st' = tlb_flushed st) /\
    (forall va, 0 <= va < 2 ^ 32 -> dpn <= va / JPGSIZE < dpn + n ->
       check_va2pa pgdir va st' =
       Ret (PTE_ADDR (u32 (pa + (va / JPGSIZE - dpn) * JPGSIZE))) st') /\
    (forall a, (forall d, dpn <= d < dpn + n -> a <> entry pgdir d) ->
               mem st' a = mem st a).
Proof.
  intros Hd Hn Hdn Hperm Hps Hpa Hpde Hfuel.
  destruct (boot_map_segment_jumbo kernel_end pgdir dpn n pa perm fuel st
              Hd Hn Hdn Hps Hpa Hpde Hfuel) as (st' & Hrun & Hg & Hleaf & Hframe).
  exists st'. split; [exact Hrun|]. split; [exact Hg|]. split; [|exact Hframe].
  intros va Hva Hreg. specialize (Hleaf va Hva Hreg).
  unfold check_va2pa. kstep_refl. cbv beta.
  rewrite Hleaf, has_flag_P_set. cbn [negb].
  rewrite (jumbo_leaf_PS _ perm Hperm Hps).
  now rewrite PTE_ADDR_leaf by exact Hperm.
Qed.

Lemma boot_map_segment_maps_large_pages_witness :
  exists st',
    boot_map_segment 0 3 example_boot_pgdir (768 * JPGSIZE) (2 * JPGSIZE) 0
                     (Z.lor PTE_W PTE_PS) example_boot = Some (Ret tt st') /\
    boot_freemem st' = boot_freemem example_boot /\
    check_va2pa example_boot_pgdir (KERNBASE + 0x412345) st' = Ret 0x400000 st'.
Proof.
  destruct (boot_map_segment_maps_large_pages 0 example_boot_pgdir 768 2 0
              (Z.lor PTE_W PTE_PS) 3%nat example_boot)
    as (st' & Hrun & (_ & _ & Hbf & _) & Hva & _).
  - discriminate.
  - split; reflexivity.
  - vm_compute. discriminate.
  - split; [discriminate|reflexivity].
  - reflexivity.
  - reflexivity.
  - intros d _. left. reflexivity.
  - vm_compute. lia.
  - exists st'. split; [exact Hrun|]. split; [exact Hbf|].
    apply (Hva (KERNBASE + 0x412345)); vm_compute; split; (discriminate || reflexivity).
Defined.

(** The permissions of boot-time large pages.  After the same call,
    get_vaperms at every address of the range returns an entry with the
    present bit, with PTE_W and PTE_U exactly as in [perm], and without
    PTE_PS, although the mapping is a large page: the directory entry is
    both levels at once, and the sum in get_vaperms carries out of the
    PTE_PS bit. *)
Theorem boot_map_segment_large_pages_get_perm
  (kernel_end pgdir dpn n pa perm : Z) (fuel : nat) (st : State) :
  0 < pgdir ->
  0 <= dpn -> 0 < n < 1024 -> dpn + n <= 1024 ->
  0 <= perm < PGSIZE -> has_flag perm PTE_PS = true -> JPGOFF pa = 0 ->
  (forall d, dpn <= d < dpn + n ->
     has_flag (mem st (entry pgdir d)) PTE_P = false \/
     has_flag (mem st (entry pgdir d)) PTE_PS = true) ->
  (Z.to_nat n < fuel)%nat ->
  exists st',
    boot_map_segment kernel_end fuel pgdir (dpn * JPGSIZE) (n * JPGSIZE) pa perm st
      = Some (Ret tt st') /\
    (forall va, 0 <= va < 2 ^ 32 -> dpn <= va / JPGSIZE < dpn + n ->
       exists r,
         get_vaperms pgdir va st' = Ret r st' /\
         has_flag r PTE_P = true /\
         has_flag r PTE_W = has_flag perm PTE_W /\
         has_flag r PTE_U = has_flag perm PTE_U /\
         has_flag r PTE_PS = false).
Proof.
  intros Hpg Hd Hn Hdn Hperm Hps Hpa Hpde Hfuel.
  destruct (boot_map_segment_jumbo kernel_end pgdir dpn n pa perm fuel st
              Hd Hn Hdn Hps Hpa Hpde Hfuel) as (st' & Hrun & Hg & Hleaf & Hframe).
  exists st'. split; [exact Hrun|].
  intros va Hva Hreg. specialize (Hleaf va Hva Hreg).
  set (slot := entry pgdir (PDX va)) in *.
  set (e := Z.lor (Z.lor (PTE_ADDR (u32 (pa + (va / JPGSIZE - dpn) * JPGSIZE))) PTE_P)
                  (u32 perm)) in *.
  assert (HP : has_flag e PTE_P = true) by apply has_flag_P_set.
  assert (HPS : has_flag e PTE_PS = true) by (apply jumbo_leaf_PS; assumption).
  assert (Hl : leaf_of st' pgdir va = Some slot).
  { unfold leaf_of. cbv zeta. fold slot. now rewrite Hleaf, HP, HPS. }
  assert (Hnn : slot <> NULL).
  { pose proof (PDX_range va). unfold slot, entry, NULL. lia. }
  assert (Hpp : has_flag (mem st' slot) PTE_P = true) by (now rewrite Hleaf).
  eexists. split; [exact (get_vaperms_leaf st' pgdir va slot Hl Hnn Hpp)|].
  fold slot. rewrite Hleaf.
  destruct (vaperms_flags e e) as (F1 & F2 & F3 & F4).
  cbv zeta in F1, F2, F3, F4. rewrite F1, F2, F3, F4, HP, HPS.
  rewrite !andb_diag. unfold e.
  rewrite !leaf_flags by (first [exact Hperm | reflexivity
                                | cbv; split; [discriminate|reflexivity]]).
  repeat split; reflexivity.
Qed.

Lemma boot_map_segment_large_pages_get_perm_witness :
  exists st' r,
    boot_map_segment 0 3 example_boot_pgdir (768 * JPGSIZE) (2 * JPGSIZE) 0
                     (Z.lor PTE_W PTE_PS) example_boot = Some (Ret tt st') /\
    get_vaperms example_boot_pgdir (KERNBASE + 0x412345) st' = Ret r st' /\
    has_flag r PTE_W = true /\ has_flag r PTE_PS = false.
Proof.
  destruct (boot_map_segment_large_pages_get_perm 0 example_boot_pgdir 768 2 0
              (Z.lor PTE_W PTE_PS) 3%nat example_boot) as (st' & Hrun & Hva).
  - reflexivity.
  - discriminate.
  - split; reflexivity.
  - vm_compute. discriminate.
  - split; [discriminate|reflexivity].
  - reflexivity.
  - reflexivity.
  - intros d _. left. reflexivity.
  - vm_compute. lia.
  - destruct (Hva (KERNBASE + 0x412345)) as (r & Hr & _ & HW & _ & HPS).
    + split; [discriminate|reflexivity].
    + split; [discriminate|reflexivity].
    + exists st', r. split; [exact Hrun|]. split; [exact Hr|].
      split; [exact HW|exact HPS].
Defined.

(** boot_map_segment asked for large pages at a linear or physical address
    that is not 4MB-aligned panics before it walks or stores anything,
    whatever the size, also a size of 0. *)
Theorem boot_map_segment_rejects_unaligned_large_pages
  (kernel_end pgdir la size pa perm : Z) (fuel : nat) (st : State) :
  has_flag perm PTE_PS = true ->
  JPGOFF la <> 0 \/ JPGOFF pa <> 0 ->
  boot_map_segment kernel_end fuel pgdir la size pa perm st =
  Some (Panic "Tried to map a Jumbo page at an unaligned address!").
Proof.
  intros Hps Hoff. unfold boot_map_segment. rewrite Hps.
  destruct (Z.eqb_spec (JPGOFF la) 0) as [Ela|Ela]; [|reflexivity].
  destruct (Z.eqb_spec (JPGOFF pa) 0) as [Epa|Epa]; [|reflexivity].
  destruct Hoff; contradiction.
Qed.

Lemma boot_map_segment_rejects_unaligned_large_pages_witness :
  boot_map_segment 0 0 example_boot_pgdir KERNBASE 0 0x1000 (Z.lor PTE_W PTE_PS)
                   example_boot =
  Some (Panic "Tried to map a Jumbo page at an unaligned address!").
Proof.
  apply (boot_map_segment_rejects_unaligned_large_pages 0 example_boot_pgdir
           KERNBASE 0 0x1000 (Z.lor PTE_W PTE_PS) 0%nat example_boot).
  - reflexivity.
  - right. vm_compute. discriminate.
Defined.

(** The loop counter of boot_map_segment wraps before it can reach a size
    within one step of 4GB. *)
Lemma boot_map_loop_never_exits (kernel_end pgdir step create size perm : Z) :
  0 < step -> (step | 2 ^ 32) -> 2 ^ 32 - step < size ->
  forall (fuel : nat) (i la pa : Z) (st st' : State),
    0 <= i < 2 ^ 32 -> i mod step = 0 ->
    boot_map_loop kernel_end fuel pgdir step create size perm i la pa st
      <> Some (Ret tt st').
Proof.
  intros Hs (q32 & Hq) Hsz.
  induction fuel as [|fuel IH]; intros i la pa st st' Hi Hm; [discriminate|].
  cbn [boot_map_loop].
  assert (Hle : i <= 2 ^ 32 - step).
  { apply Z.div_exact in Hm; [|lia]. remember (i / step) as q.
    assert (q < q32) by (apply Z.nle_gt; intros Hq'; nia). nia. }
  destruct (Z.ltb_spec i size); [|lia].
  destruct ((pte <- boot_pgdir_walk kernel_end pgdir la create ;;
             store pte (Z.lor (Z.lor (PTE_ADDR pa) PTE_P) (u32 perm))) st);
    [|discriminate|discriminate].
  apply IH.
  - unfold u32. apply Z.mod_pos_bound. reflexivity.
  - unfold u32. rewrite Z.mod_mod_divide by (exists q32; exact Hq).
    rewrite <- Zplus_mod_idemp_l, Hm. cbn [Z.add]. apply Z_mod_same_full.
Qed.

(** boot_map_segment never returns for a size within one step of 4GB: with
    a page-aligned [la] and a size above [2^32 - PGSIZE], or above
    [2^32 - JPGSIZE] when large pages are asked for, the 32-bit loop counter
    wraps to 0 before it reaches the size, so no amount of fuel lets the
    call return; it loops, unless a walk panics first. *)
Theorem boot_map_segment_never_returns_near_4GB
  (kernel_end pgdir la size pa perm : Z) (fuel : nat) (st : State) :
  PGOFF la = 0 ->
  2 ^ 32 - (if has_flag perm PTE_PS then JPGSIZE else PGSIZE) < size ->
  ~ exists st',
      boot_map_segment kernel_end fuel pgdir la size pa perm st = Some (Ret tt st').
Proof.
  intros Hoff Hsz (st' & H). unfold boot_map_segment in H.
  rewrite Hoff in H. cbn [Z.eqb negb] in H.
  destruct (has_flag perm PTE_PS).
  - destruct (negb (JPGOFF la =? 0) || negb (JPGOFF pa =? 0)); [discriminate|].
    revert H. apply boot_map_loop_never_exits;
      [reflexivity|exists 1024; reflexivity|exact Hsz
      |split; [discriminate|reflexivity]|reflexivity].
  - revert H. apply boot_map_loop_never_exits;
      [reflexivity|exists 1048576; reflexivity|exact Hsz
      |split; [discriminate|reflexivity]|reflexivity].
Qed.

Lemma boot_map_segment_never_returns_near_4GB_witness :
  ~ exists st',
      boot_map_segment 0 5 example_boot_pgdir 0 0xFFFFF001 0 PTE_W example_boot
      = Some (Ret tt st').
Proof.
  apply (boot_map_segment_never_returns_near_4GB 0 example_boot_pgdir 0 0xFFFFF001 0
           PTE_W 5%nat example_boot).
  - reflexivity.
  - vm_compute. reflexivity.
Defined.

(** ** The run-once helpers *)

Section OnceProofs.

Variable S : Type.
Variable init_fn : S -> S.

Lemma goto_same (wd : Parlib.once_world S) (t : nat) (pc : Parlib.once_pc) :
  Parlib.goto S wd t pc t = pc.
Proof. unfold Parlib.goto. now rewrite Nat.eqb_refl. Qed.

Lemma goto_other (wd : Parlib.once_world S) (t u : nat) (pc : Parlib.once_pc) :
  u <> t -> Parlib.goto S wd t pc u = Parlib.callers S wd u.
Proof.
  intros H. unfold Parlib.goto. destruct (Nat.eqb_spec u t); [contradiction|reflexivity].
Qed.

Lemma once_inv_start (s : S) : Parlib.once_inv S init_fn s (Parlib.once_start S s).
Proof. left. repeat split. intros t. now left. Qed.

Lemma once_inv_step (s : S) (t : nat) (wd : Parlib.once_world S) :
  Parlib.once_inv S init_fn s wd ->
  Parlib.once_inv S init_fn s (Parlib.once_step S init_fn t wd).
Proof.
  unfold Parlib.once_inv, Parlib.waiting.
  intros [(Hc & Hn & Hp & Hall)
         |[(w & Hc & Hn & Hp & Hw & Hall)
          |[(w & Hc & Hn & Hp & Hw & Hall)
           |(Hc & Hn & Hp & Hall)]]];
    unfold Parlib.once_step.
  - destruct (Hall t) as [Ht|Ht]; rewrite Ht, Hc; cbn.
    + left. repeat split; try assumption. intros u.
      destruct (Nat.eq_dec u t) as [->|Hne];
        [rewrite goto_same; now right|rewrite goto_other by exact Hne; apply Hall].
    + right. left. exists t. rewrite goto_same. repeat split; try assumption.
      intros u Hne. rewrite goto_other by exact Hne.
      destruct (Hall u) as [E|E]; rewrite E; tauto.
  - destruct (Nat.eq_dec t w) as [->|Hne].
    + rewrite Hw, Hc. cbn. right. right. left. exists w. rewrite goto_same.
      rewrite Hn, Hp. repeat split.
      intros u Hu. rewrite goto_other by exact Hu. now apply Hall.
    + right. left. exists w.
      destruct (Hall t Hne) as [Ht|[Ht|Ht]]; rewrite Ht, Hc; cbn;
        rewrite goto_other by congruence;
        (repeat split; try assumption; intros u Hu;
         destruct (Nat.eq_dec u t) as [->|Hut];
         [rewrite goto_same; tauto|rewrite goto_other by exact Hut; now apply Hall]).
  - destruct (Nat.eq_dec t w) as [->|Hne].
    + rewrite Hw, Hc. cbn. right. right. right. repeat split; try assumption.
      intros u. destruct (Nat.eq_dec u w) as [->|Hu];
        [rewrite goto_same; now right|rewrite goto_other by exact Hu; left; now apply Hall].
    + right. right. left. exists w.
      destruct (Hall t Hne) as [Ht|[Ht|Ht]]; rewrite Ht, Hc; cbn;
        rewrite goto_other by congruence;
        (repeat split; try assumption; intros u Hu;
         destruct (Nat.eq_dec u t) as [->|Hut];
         [rewrite goto_same; tauto|rewrite goto_other by exact Hut; now apply Hall]).
  - right. right. right.
    destruct (Hall t) as [[Ht|[Ht|Ht]]|Ht]; rewrite Ht; try rewrite Hc; cbn;
      first [ solve [repeat split; assumption]
            | repeat split; try assumption; intros u;
              destruct (Nat.eq_dec u t) as [->|Hut];
              [rewrite goto_same; tauto|rewrite goto_other by exact Hut; now apply Hall] ].
Qed.

Lemma once_inv_run (s : S) (sched : list nat) :
  forall wd, Parlib.once_inv S init_fn s wd ->
             Parlib.once_inv S init_fn s (Parlib.once_run S init_fn sched wd).
Proof.
  induction sched as [|t rest IH]; intros wd H; [exact H|].
  cbn [Parlib.once_run]. apply IH. now apply once_inv_step.
Qed.

Lemma once_run_app (a b : list nat) (wd : Parlib.once_world S) :
  Parlib.once_run S init_fn (a ++ b) wd =
  Parlib.once_run S init_fn b (Parlib.once_run S init_fn a wd).
Proof. revert wd. induction a as [|t a IH]; intros wd; [reflexivity|apply IH]. Qed.

(** parlib_run_once, any number of callers on a fresh control block, in any
    interleaving: [init_fn] has been called at most once, and as soon as one
    caller has returned it has been called exactly once, the control block
    says so, and the program state is the one [init_fn] left. *)
Theorem parlib_run_once_calls_init_once (s : S) (sched : list nat) :
  let wd := Parlib.once_run S init_fn sched (Parlib.once_start S s) in
  (Parlib.init_calls S wd <= 1)%nat /\
  (forall t, Parlib.callers S wd t = Parlib.AtReturn ->
     Parlib.init_calls S wd = 1%nat /\
     Parlib.ran_once (Parlib.ctl S wd) = true /\
     Parlib.prog S wd = init_fn s).
Proof.
  intros wd.
  pose proof (once_inv_run s sched _ (once_inv_start s)) as H. fold wd in H.
  unfold Parlib.once_inv, Parlib.waiting in H.
  destruct H as [(Hc & Hn & Hp & Hall)
                |[(w & Hc & Hn & Hp & Hw & Hall)
                 |[(w & Hc & Hn & Hp & Hw & Hall)
                  |(Hc & Hn & Hp & Hall)]]].
  - split; [lia|]. intros t Ht. destruct (Hall t); congruence.
  - split; [lia|]. intros t Ht. destruct (Nat.eq_dec t w) as [->|Hne]; [congruence|].
    destruct (Hall t Hne) as [E|[E|E]]; congruence.
  - split; [lia|]. intros t Ht. destruct (Nat.eq_dec t w) as [->|Hne]; [congruence|].
    destruct (Hall t Hne) as [E|[E|E]]; congruence.
  - split; [lia|]. intros t _. rewrite Hc. repeat split; assumption.
Qed.

Ltac once_eval :=
  repeat first
    [ rewrite goto_same
    | match goal with
      | H : Parlib.callers _ ?wd ?t = _ |- context [Parlib.callers _ ?wd ?t] => rewrite H
      end
    | match goal with
      | H : Parlib.ctl _ ?wd = _ |- context [Parlib.ctl _ ?wd] => rewrite H
      end
    | progress cbn [Parlib.callers Parlib.ctl Parlib.prog Parlib.init_calls
                    Parlib.ran_once Parlib.is_running negb orb] ].

Lemma once_returns_when_published (s : S) (t : nat) (wd : Parlib.once_world S) :
  Parlib.ctl S wd = Parlib.mk_once true true ->
  Parlib.waiting (Parlib.callers S wd t) \/ Parlib.callers S wd t = Parlib.AtReturn ->
  Parlib.callers S (Parlib.once_run S init_fn [t; t] wd) t = Parlib.AtReturn.
Proof.
  intros Hc Ht. cbn [Parlib.once_run].
  destruct Ht as [[Ht|[Ht|Ht]]|Ht];
    (unfold Parlib.once_step at 2; once_eval); (unfold Parlib.once_step at 1; once_eval); reflexivity.
Qed.

(** parlib_run_once never strands a caller: from every world that callers
    on a fresh control block can reach, every caller has a continuation of
    the schedule after which it has returned: its own steps if nobody has
    won the race yet, otherwise the remaining steps of the winner followed
    by its own. *)
Theorem parlib_run_once_every_caller_can_return (s : S) (sched : list nat) (t : nat) :
  exists more,
    Parlib.callers S
      (Parlib.once_run S init_fn (sched ++ more) (Parlib.once_start S s)) t
    = Parlib.AtReturn.
Proof.
  pose proof (once_inv_run s sched _ (once_inv_start s)) as H.
  set (wd := Parlib.once_run S init_fn sched (Parlib.once_start S s)) in *.
  unfold Parlib.once_inv in H.
  destruct H as [(Hc & Hn & Hp & Hall)
                |[(w & Hc & Hn & Hp & Hw & Hall)
                 |[(w & Hc & Hn & Hp & Hw & Hall)
                  |(Hc & Hn & Hp & Hall)]]].
  - exists [t; t; t; t]. rewrite once_run_app. fold wd. cbn [Parlib.once_run].
    destruct (Hall t) as [Ht|Ht];
      (unfold Parlib.once_step at 4; once_eval); (unfold Parlib.once_step at 3; once_eval); (unfold Parlib.once_step at 2; once_eval); (unfold Parlib.once_step at 1; once_eval); reflexivity.
  - exists ([w; w] ++ [t; t]). rewrite !once_run_app. fold wd.
    apply (once_returns_when_published s).
    + cbn [Parlib.once_run]. (unfold Parlib.once_step at 2; once_eval). (unfold Parlib.once_step at 1; once_eval). reflexivity.
    + cbn [Parlib.once_run]. destruct (Nat.eq_dec t w) as [->|Hne]; [right|left];
        (unfold Parlib.once_step at 2; once_eval);
        (unfold Parlib.once_step at 1; once_eval); [reflexivity|].
      repeat (rewrite goto_other by exact Hne; cbn [Parlib.callers]).
      now apply Hall.
  - exists ([w] ++ [t; t]). rewrite !once_run_app. fold wd.
    apply (once_returns_when_published s).
    + cbn [Parlib.once_run]. (unfold Parlib.once_step at 1; once_eval). reflexivity.
    + cbn [Parlib.once_run]. destruct (Nat.eq_dec t w) as [->|Hne]; [right|left];
        (unfold Parlib.once_step at 1; once_eval); [reflexivity|].
      repeat (rewrite goto_other by exact Hne; cbn [Parlib.callers]).
      now apply Hall.
  - exists [t; t]. rewrite once_run_app. fold wd.
    apply (once_returns_when_published s); [exact Hc|apply Hall].
Qed.

(** parlib_run_once_racy, called [n] times in a row on one control block:
    [init_fn] runs once, at the first call, if the block had not run and
    [n] is not 0, and not at all otherwise; in particular never after
    parlib_set_ran_once.  The [is_running] field is never touched. *)
Theorem parlib_run_once_racy_runs_first_call_only
  (n : nat) (once_ctl : Parlib.parlib_once_t) (s : S) :
  Parlib.run_once_times S n once_ctl init_fn s =
    (if Parlib.ran_once once_ctl || Nat.eqb n 0 then (once_ctl, s)
     else (Parlib.mk_once true (Parlib.is_running once_ctl), init_fn s)) /\
  Parlib.run_once_times S n (Parlib.parlib_set_ran_once once_ctl) init_fn s =
    (Parlib.parlib_set_ran_once once_ctl, s).
Proof.
  assert (Hran : forall k c x, Parlib.ran_once c = true ->
                   Parlib.run_once_times S k c init_fn x = (c, x)).
  { induction k as [|k IH]; intros c x Hc; [reflexivity|].
    cbn [Parlib.run_once_times]. unfold Parlib.parlib_run_once_racy.
    rewrite Hc. cbn [negb]. now apply IH. }
  split; [|now apply Hran].
  destruct (Parlib.ran_once once_ctl) eqn:Hc; cbn [orb].
  - now apply Hran.
  - destruct n as [|n]; [reflexivity|]. cbn [Nat.eqb Parlib.run_once_times].
    unfold Parlib.parlib_run_once_racy. rewrite Hc. cbn [negb].
    now apply Hran.
Qed.

End OnceProofs.

Lemma parlib_run_once_calls_init_once_witness :
  let wd := Parlib.once_run nat Datatypes.S [0; 0; 1; 1; 0; 0; 1]%nat
                            (Parlib.once_start nat 0%nat) in
  Parlib.init_calls nat wd = 1%nat /\ Parlib.prog nat wd = 1%nat.
Proof.
  destruct (parlib_run_once_calls_init_once nat Datatypes.S 0%nat
              [0; 0; 1; 1; 0; 0; 1]%nat) as (_ & H).
  destruct (H 1%nat eq_refl) as (Hn & _ & Hp).
  split; [exact Hn|exact Hp].
Defined.

(** ** page_insert at its edges *)

(** page_insert fails atomically: with the directory entry of [va] absent
    and no free frame for a table it returns -E_NO_MEM and the state is the
    one it started from; in particular the count of [pp] has not been
    raised, and nothing is mapped at [va]. *)
Theorem page_insert_no_memory_changes_nothing (w pgdir pp va perm : Z) (st : State) :
  has_flag (mem st (entry pgdir (PDX va))) PTE_P = false ->
  page_free_list st = None ->
  page_insert w pgdir pp va perm st = Ret (- E_NO_MEM) st /\
  page_lookup pgdir va st = Ret None st.
Proof.
  intros Ha Hf. split.
  - unfold page_insert. now kstep (pgdir_walk_no_memory st pgdir va Ha Hf).
  - apply page_lookup_unmapped. now left.
Qed.

Lemma page_insert_no_memory_changes_nothing_witness :
  page_insert 16 example_pgdir 300 0xC00000 PTE_W example_exhausted =
    Ret (- E_NO_MEM) example_exhausted /\
  page_lookup example_pgdir 0xC00000 example_exhausted = Ret None example_exhausted.
Proof.
  apply (page_insert_no_memory_changes_nothing 16 example_pgdir 300 0xC00000 PTE_W
           example_exhausted); reflexivity.
Defined.

(** What page_insert leaves when the walk returns a large-page entry. *)
Lemma page_insert_large_page_effect (w pgdir pp va perm old : Z) (st : State) :
  let slot := entry pgdir (PDX va) in
  maps st pgdir va slot old ->
  exists st',
    page_insert w pgdir pp va perm st = Ret 0 st' /\
    npage st' = npage st /\
    mem st' slot = Z.lor (Z.lor (page2pa pp) PTE_P) (u32 perm) /\
    (forall a, a <> slot -> mem st' a = mem st a) /\
    tlb_flushed st' = va :: tlb_flushed st.
Proof.
  intros slot Hm.
  rewrite (page_insert_over w pgdir pp va perm slot old st Hm).
  set (s1 := with_ref st pp (ref_wrap w (pp_ref (pages st pp) + 1))).
  assert (Hm1 : maps s1 pgdir va slot old) by (revert Hm; now apply maps_ext).
  set (s2 := with_flush (with_mem s1 (upd (mem s1) slot 0)) va).
  destruct (page_decref_frame w old s2) as (s3 & E3 & Hm3 & Hn3 & Ht3).
  assert (Hrem : page_remove w pgdir va s1 = Ret tt s3)
    by (rewrite (page_remove_maps w s1 pgdir va slot old Hm1); exact E3).
  set (e := Z.lor (Z.lor (page2pa pp) PTE_P) (u32 perm)).
  exists (with_mem s3 (upd (mem s3) slot e)).
  kstep Hrem. rewrite (bind_Ret _ _ _ _ _ (store_eq slot e s3)).
  split; [reflexivity|]. cbn [with_mem mem tlb_flushed npage].
  split; [rewrite Hn3; reflexivity|]. split; [apply upd_same|].
  split; [|rewrite Ht3; reflexivity].
  intros a Ha. rewrite upd_other by exact Ha. rewrite Hm3.
  cbn [s2 with_flush with_mem mem]. now rewrite upd_other by exact Ha.
Qed.

(** A directory entry rewritten as a small-page entry for frame [pp] makes
    the page of [pp] the second-level table of its 4MB region. *)
Lemma frame_taken_for_table (st' : State) (pgdir pp va perm : Z) :
  mem st' (entry pgdir (PDX va)) = Z.lor (Z.lor (page2pa pp) PTE_P) (u32 perm) ->
  0 <= pp < npage st' -> pp < 2 ^ 20 ->
  0 <= perm < PGSIZE -> has_flag perm PTE_PS = false ->
  has_flag (mem st' (entry pgdir (PDX va))) PTE_PS = false /\
  forall va', PDX va' = PDX va ->
    leaf_of st' pgdir va' = Some (entry (u32 (page2pa pp + KERNBASE)) (PTX va')).
Proof.
  intros Hs Hpp H20 Hperm Hps.
  set (e := Z.lor (Z.lor (page2pa pp) PTE_P) (u32 perm)) in *.
  assert (HeP : has_flag e PTE_P = true) by apply has_flag_P_set.
  assert (HePS : has_flag e PTE_PS = false).
  { unfold e. rewrite <- Z.lor_assoc.
    rewrite has_flag_page2pa_lor by (cbv; split; [discriminate|reflexivity]).
    rewrite has_flag_lor.
    rewrite u32_small by (unfold PGSIZE in Hperm; change (2 ^ 32) with 4294967296; lia).
    now rewrite Hps. }
  assert (Hppn : PPN (PTE_ADDR e) = pp) by (apply PPN_PTE_ADDR_leaf; [lia|exact Hperm]).
  assert (Hpa : PTE_ADDR e = page2pa pp)
    by (rewrite <- (page2pa_PPN_PTE_ADDR e), Hppn; reflexivity).
  split; [rewrite Hs; exact HePS|].
  intros va' Hva. unfold leaf_of. cbv zeta. rewrite Hva, Hs, HeP, HePS, Hppn, Hpa.
  destruct (Z.ltb_spec pp (npage st')); [reflexivity|lia].
Qed.



(** ** page_insert outside the amended conditions of C3 and C5 *)

Lemma table_slot_not_null (pde np x : Z) :
  PPN (PTE_ADDR pde) < np -> np * PGSIZE + KERNBASE < 2 ^ 32 -> 0 <= x ->
  entry (u32 (PTE_ADDR pde + KERNBASE)) x <> NULL.
Proof.
  intros Hnp Hmax Hx.
  assert (Hpa : 0 <= PTE_ADDR pde /\ PTE_ADDR pde < np * PGSIZE).
  { rewrite PTE_ADDR_div in Hnp |- *. unfold PPN, PTXSHIFT in Hnp.
    rewrite Z.shiftr_div_pow2 in Hnp by lia. change (2 ^ 12) with 4096 in Hnp.
    unfold PGSIZE in *. rewrite Z.div_mul in Hnp by lia.
    assert (0 <= pde mod 2 ^ 32) by (apply Z.mod_pos_bound; reflexivity).
    Z.div_mod_to_equations. lia. }
  unfold entry, NULL.
  rewrite u32_small by (unfold KERNBASE in *; change (2 ^ 32) with 4294967296 in *; lia).
  unfold KERNBASE. lia.
Qed.

(** A frame that boot_map_segment has mapped still has count 0: the
    bootstrap mappings do not go through the frame database. *)
Lemma boot_mapped_frame_unreferenced :
  exists st pte,
    boot_map_segment 0 2 example_boot_pgdir 0x1000 PGSIZE 0x64000 PTE_W example_boot
      = Some (Ret tt st) /\
    maps st example_boot_pgdir 0x1000 pte 100 /\
    pte <> entry example_boot_pgdir (PDX 0x1000) /\
    pages st = pages example_boot /\ page_free_list st = None.
Proof.
  destruct (boot_map_segment_fresh 0 example_boot_pgdir 1 1 0x64000 PTE_W 2%nat
              example_boot)
    as (st & Hrun & _ & (_ & Hnp & Hpg & Hfl & _) & Hleaf & _).
  - discriminate.
  - split; reflexivity.
  - discriminate.
  - reflexivity.
  - reflexivity.
  - discriminate.
  - discriminate.
  - reflexivity.
  - reflexivity.
  - discriminate.
  - intros k _. reflexivity.
  - apply Nat.lt_succ_diag_r.
  - destruct (Hleaf 0x1000) as (HP & HPS & _ & HU & Hppn & He);
      [split; [discriminate|reflexivity]|split; [discriminate|reflexivity]|].
    cbv zeta in *.
    set (pde := mem st (entry example_boot_pgdir (PDX 0x1000))) in *.
    set (pte := entry (u32 (PTE_ADDR pde + KERNBASE)) (PTX 0x1000)) in *.
    exists st, pte. split; [exact Hrun|].
    assert (Hl : leaf_of st example_boot_pgdir 0x1000 = Some pte).
    { unfold leaf_of. cbv zeta. fold pde. rewrite HP, HPS.
      destruct (Z.ltb_spec (PPN (PTE_ADDR pde)) (npage st)); [reflexivity|lia]. }
    split; [|split; [|split; [exact Hpg|exact Hfl]]].
    + split; [exact Hl|]. split.
      * apply (table_slot_not_null pde (npage st)); [exact Hppn| |discriminate].
        rewrite Hnp. reflexivity.
      * rewrite He. split; [reflexivity|]. split; [reflexivity|].
        rewrite Hnp. reflexivity.
    + intros Heq. rewrite Heq in He. fold pde in He. rewrite He in HU.
      discriminate HU.
Qed.

(** Re-inserting a mapped frame whose count is 0 frees it. *)
Lemma page_insert_same_frame_unreferenced (w pgdir va perm pte f : Z) (st : State) :
  maps st pgdir va pte f -> pte <> entry pgdir (PDX va) -> 0 < w ->
  pp_ref (pages st f) = 0 -> 0 <= perm < PGSIZE ->
  exists st',
    page_insert w pgdir f va perm st = Ret 0 st' /\
    page_free_list st' = Some f /\ on_free_list st' f /\
    pp_ref (pages st' f) = 0 /\ maps st' pgdir va pte f.
Proof.
  intros Hm Hsmall Hw Hz Hperm.
  rewrite (page_insert_over w _ _ _ _ _ _ _ Hm). rewrite Hz.
  pose proof (pow2_ge2 w Hw) as H2.
  assert (H1 : ref_wrap w (0 + 1) = 1) by (unfold ref_wrap; apply Z.mod_small; lia).
  rewrite H1.
  set (s1 := with_ref st f 1).
  assert (Hm1 : maps s1 pgdir va pte f) by (revert Hm; now apply maps_ext).
  set (s2 := with_flush (with_mem s1 (upd (mem s1) pte 0)) va).
  assert (E2 : pp_ref (pages s2 f) = 1).
  { cbn [s2 with_flush with_mem pages]. unfold s1. now rewrite with_ref_same. }
  destruct (page_decref_effect w f s2 Hw ltac:(lia))
    as (s & E & (_ & Gnp & _) & Gm & _ & Gr & _ & G1 & _).
  destruct (G1 E2) as (Gh & Gon & _).
  assert (Erem : page_remove w pgdir va s1 = Ret tt s)
    by (now rewrite (page_remove_maps w _ _ _ _ _ Hm1)).
  set (e := Z.lor (Z.lor (page2pa f) PTE_P) (u32 perm)).
  exists (with_mem s (upd (mem s) pte e)).
  split; [kstep Erem; kstep_refl; reflexivity|].
  split; [exact Gh|]. split; [exact Gon|].
  split.
  { cbn [with_mem pages]. rewrite Gr, E2. unfold ref_wrap. apply Z.mod_small. lia. }
  destruct Hm as (Hl & Hn & _ & Hf & Hlt).
  pose proof (PPN_PTE_ADDR_range (mem st pte)) as Hrg. rewrite Hf in Hrg.
  apply (maps_after_write st _ pgdir va pte f perm); try assumption; try lia.
  - cbn [with_mem mem]. rewrite upd_other by congruence. rewrite Gm.
    cbn [s2 with_flush with_mem mem s1 with_ref]. apply upd_other. congruence.
  - apply upd_same.
Qed.

(** page_insert into a large page whose frame [pp] holds no present entry
    at the index of [va] leaves nothing mapped at [va]. *)
Lemma page_insert_large_page_unmaps (w pgdir pp va perm old : Z) (st : State) :
  maps st pgdir va (entry pgdir (PDX va)) old ->
  0 <= pp < npage st -> pp < 2 ^ 20 ->
  0 <= perm < PGSIZE -> has_flag perm PTE_PS = false ->
  entry (u32 (page2pa pp + KERNBASE)) (PTX va) <> entry pgdir (PDX va) ->
  has_flag (mem st (entry (u32 (page2pa pp + KERNBASE)) (PTX va))) PTE_P = false ->
  exists st',
    page_insert w pgdir pp va perm st = Ret 0 st' /\
    page_lookup pgdir va st' = Ret None st'.
Proof.
  intros Hm Hpp H20 Hperm Hps Hne Habs.
  destruct (page_insert_large_page_effect w pgdir pp va perm old st Hm)
    as (st' & E & Hn & Hs & Hfr & _).
  cbv zeta in Hs, Hfr.
  destruct (frame_taken_for_table st' pgdir pp va perm Hs) as (HePS & Hleaf);
    [lia|exact H20|exact Hperm|exact Hps|].
  exists st'. split; [exact E|].
  apply page_lookup_unmapped. right. split; [exact HePS|].
  exists (entry (u32 (page2pa pp + KERNBASE)) (PTX va)).
  split; [now apply Hleaf|]. now rewrite Hfr.
Qed.


